(** * Asset resolution and content selection of the 504th tactical bot

    A shallow embedding of the asset store ([config/settings.py]), the
    content repository ([data/data_manager.py]), the selection and
    rendering layer ([cogs/base_selector.py], [cogs/maps_command.py]) and
    the validator of the data files ([data_validator.py]), followed by the
    properties established about them.

    Conventions of the embedding.
    - Python [str] values are Rocq [string]s; the case and white-space
      classification of characters is the ASCII one.
    - Values read from the JSON data files are the constructors of [json];
      a JSON object is an association list in file order (a Python [dict]
      iterates in insertion order) whose keys are distinct.  JSON numbers
      are integers.
    - A Python call that can raise returns a [result]; the exception classes
      matter only where a handler of the source tells them apart.
    - Process-wide mutable state (the asset cache, the data cache) is passed
      explicitly; the file system is a read-only snapshot. *)

From Stdlib Require Import ZArith String Ascii List Lia Bool DecimalString.
From stdpp Require Import gmap strings list.

(** ** Python builtins *)

Module Py.

Inductive exn :=
| ValueError | TypeError | AttributeError | KeyError | IndexError | OSError.

Inductive result (A : Type) : Type :=
| Ok (a : A)
| Raise (e : exn).
Arguments Ok {A} a.
Arguments Raise {A} e.

Definition bind {A B : Type} (r : result A) (k : A -> result B) : result B :=
  match r with
  | Ok a => k a
  | Raise e => Raise e
  end.

#[global] Instance result_ret : MRet result := @Ok.
#[global] Instance result_bind : MBind result := fun A B k r => bind r k.

(** *** [str] methods *)

(** [s.startswith(p)] *)
Definition startswith (s p : string) : bool := String.prefix p s.

(** [s[:n]] *)
Fixpoint take (n : nat) (s : string) : string :=
  match n, s with
  | S n', String c s' => String c (take n' s')
  | _, _ => EmptyString
  end.

(** [s[n:]] *)
Fixpoint drop (n : nat) (s : string) : string :=
  match n, s with
  | S n', String _ s' => drop n' s'
  | _, _ => s
  end.

(** The scan of [str.replace] for a non-empty [old]: left to right, an
    occurrence of [old] is replaced by [new] and the scan resumes after it.
    [skip] counts the characters of the current occurrence still to pass. *)
Fixpoint replace_from (old new : string) (skip : nat) (s : string) : string :=
  match s with
  | EmptyString => EmptyString
  | String c s' =>
      match skip with
      | S k => replace_from old new k s'
      | O =>
          if String.prefix old s
          then new +:+ replace_from old new (String.length old - 1) s'
          else String c (replace_from old new 0 s')
      end
  end.

Fixpoint interleave (new s : string) : string :=
  match s with
  | EmptyString => EmptyString
  | String c s' => String c (new +:+ interleave new s')
  end.

(** [s.replace(old, new)] *)
Definition replace (s old new : string) : string :=
  match old with
  | EmptyString => new +:+ interleave new s
  | String _ _ => replace_from old new 0 s
  end.

(** [s.rstrip(chars)] with the stripped set given as a predicate *)
Fixpoint rstrip_by (P : ascii -> bool) (s : string) : string :=
  match s with
  | EmptyString => EmptyString
  | String c s' =>
      match rstrip_by P s' with
      | EmptyString => if P c then EmptyString else String c EmptyString
      | r => String c r
      end
  end.

Fixpoint lstrip_by (P : ascii -> bool) (s : string) : string :=
  match s with
  | EmptyString => EmptyString
  | String c s' => if P c then lstrip_by P s' else s
  end.

Definition code (c : ascii) : nat := nat_of_ascii c.

Definition is_upper (c : ascii) : bool := (65 <=? code c) && (code c <=? 90).
Definition is_lower (c : ascii) : bool := (97 <=? code c) && (code c <=? 122).
Definition is_alpha (c : ascii) : bool := is_upper c || is_lower c.

(** White space of [str.strip] and [str.isspace] *)
Definition is_space (c : ascii) : bool :=
  ((9 <=? code c) && (code c <=? 13)) || ((28 <=? code c) && (code c <=? 32)).

(** White space skipped by [int(s, base)] around an ASCII literal *)
Definition is_c_space (c : ascii) : bool :=
  ((9 <=? code c) && (code c <=? 13)) || (code c =? 32).

Definition lower_char (c : ascii) : ascii :=
  if is_upper c then ascii_of_nat (code c + 32) else c.
Definition upper_char (c : ascii) : ascii :=
  if is_lower c then ascii_of_nat (code c - 32) else c.

Fixpoint map_chars (f : ascii -> ascii) (s : string) : string :=
  match s with
  | EmptyString => EmptyString
  | String c s' => String (f c) (map_chars f s')
  end.

(** [s.lower()] *)
Definition lower (s : string) : string := map_chars lower_char s.

Fixpoint title_from (prev_cased : bool) (s : string) : string :=
  match s with
  | EmptyString => EmptyString
  | String c s' =>
      if is_alpha c
      then String (if prev_cased then lower_char c else upper_char c)
                  (title_from true s')
      else String c (title_from false s')
  end.

(** [s.title()] *)
Definition title (s : string) : string := title_from false s.

(** [s.rstrip()] *)
Definition rstrip (s : string) : string := rstrip_by is_space s.

(** [s.rstrip('/')] *)
Definition is_slash (c : ascii) : bool := code c =? 47.
Definition rstrip_slash (s : string) : string := rstrip_by is_slash s.

(** [c in s] for a single character *)
Fixpoint has_char (c : ascii) (s : string) : bool :=
  match s with
  | EmptyString => false
  | String c' s' => Ascii.eqb c c' || has_char c s'
  end.

(** [p in s] for strings: [p] occurs in [s] *)
Fixpoint occurs (p s : string) : bool :=
  String.prefix p s ||
  match s with
  | EmptyString => false
  | String _ s' => occurs p s'
  end.

(** *** [int(s, 16)] on a string

    The literal grammar of the interpreter: optional white space, an optional
    sign, an optional [0x]/[0X], hexadecimal digits that single underscores
    may separate (one may follow the prefix), optional white space.  [None]
    stands for [ValueError]. *)

Definition digit_value (c : ascii) : option Z :=
  let n := code c in
  if (48 <=? n) && (n <=? 57) then Some (Z.of_nat (n - 48))
  else if is_lower c then Some (Z.of_nat (n - 97 + 10))
  else if is_upper c then Some (Z.of_nat (n - 65 + 10))
  else None.

Definition is_underscore (c : ascii) : bool := code c =? 95.

Fixpoint scan_digits (base : Z) (prev_us : bool) (acc : Z) (s : string)
  : option (Z * string) :=
  match s with
  | EmptyString => if prev_us then None else Some (acc, EmptyString)
  | String c s' =>
      if is_underscore c
      then (if prev_us then None else scan_digits base true acc s')
      else
        match digit_value c with
        | Some d =>
            if (d <? base)%Z
            then scan_digits base false (acc * base + d)%Z s'
            else if prev_us then None else Some (acc, s)
        | None => if prev_us then None else Some (acc, s)
        end
  end.

Definition split_sign (s : string) : Z * string :=
  match s with
  | String c r =>
      if code c =? 43 then (1%Z, r)
      else if code c =? 45 then ((-1)%Z, r)
      else (1%Z, s)
  | EmptyString => (1%Z, s)
  end.

Definition skip_hex_prefix (s : string) : string :=
  match s with
  | String z (String x r) =>
      if (code z =? 48) && ((code x =? 120) || (code x =? 88))
      then match r with
           | String u r' => if is_underscore u then r' else r
           | EmptyString => r
           end
      else s
  | _ => s
  end.

Definition int_base16 (s : string) : option Z :=
  let '(sign, s2) := split_sign (lstrip_by is_c_space s) in
  let s3 := skip_hex_prefix s2 in
  match s3 with
  | EmptyString => None
  | String c _ =>
      if is_underscore c then None
      else
        match scan_digits 16 false 0 s3 with
        | None => None
        | Some (v, rest) =>
            if String.length rest <? String.length s3
            then match lstrip_by is_c_space rest with
                 | EmptyString => Some (sign * v)%Z
                 | String _ _ => None
                 end
            else None
        end
  end.

(** *** JSON values *)

#[warnings="-register-all"]
Inductive json :=
| JNull
| JBool (b : bool)
| JNum (n : Z)
| JStr (s : string)
| JList (l : list json)
| JDict (d : list (string * json)).

(** Truth value of a Python object, as [if x] and [not x] test it *)
Definition truthy (v : json) : bool :=
  match v with
  | JNull => false
  | JBool b => b
  | JNum n => negb (n =? 0)%Z
  | JStr s => negb (String.eqb s EmptyString)
  | JList l => match l with [] => false | _ :: _ => true end
  | JDict d => match d with [] => false | _ :: _ => true end
  end.

(** Lookup of a key in a [dict] *)
Fixpoint lookup (k : string) (d : list (string * json)) : option json :=
  match d with
  | [] => None
  | (k', v) :: d' => if String.eqb k k' then Some v else lookup k d'
  end.

Definition keys (d : list (string * json)) : list string := map fst d.

(** [v.get(k, default)]: only a [dict] has the method *)
Definition get (v : json) (k : string) (default : json) : result json :=
  match v with
  | JDict d => Ok (from_option id default (lookup k d))
  | _ => Raise AttributeError
  end.

(** [list(v.keys())] *)
Definition keys_of (v : json) : result (list string) :=
  match v with
  | JDict d => Ok (keys d)
  | _ => Raise AttributeError
  end.

(** [v.items()] *)
Definition items_of (v : json) : result (list (string * json)) :=
  match v with
  | JDict d => Ok d
  | _ => Raise AttributeError
  end.

Definition is_str (k : string) (v : json) : bool :=
  match v with
  | JStr s => String.eqb s k
  | _ => false
  end.

(** [k in v] for a string [k] *)
Definition contains (v : json) (k : string) : result bool :=
  match v with
  | JDict d => Ok (bool_decide (is_Some (lookup k d)))
  | JList l => Ok (existsb (is_str k) l)
  | JStr s => Ok (occurs k s)
  | _ => Raise TypeError
  end.

(** [v[k]] for a string [k] *)
Definition subscript (v : json) (k : string) : result json :=
  match v with
  | JDict d =>
      match lookup k d with
      | Some x => Ok x
      | None => Raise KeyError
      end
  | _ => Raise TypeError
  end.

(** [len(v)] *)
Definition len (v : json) : result nat :=
  match v with
  | JStr s => Ok (String.length s)
  | JList l => Ok (length l)
  | JDict d => Ok (length d)
  | _ => Raise TypeError
  end.

(** [v[i]] for a number [i] that is not negative *)
Definition index (i : nat) (v : json) : result json :=
  match v with
  | JStr s =>
      match String.get i s with
      | Some c => Ok (JStr (String c EmptyString))
      | None => Raise IndexError
      end
  | JList l =>
      match nth_error l i with
      | Some x => Ok x
      | None => Raise IndexError
      end
  | JDict _ => Raise KeyError
  | _ => Raise TypeError
  end.

(** [v.rstrip()] *)
Definition rstrip_of (v : json) : result string :=
  match v with
  | JStr s => Ok (rstrip s)
  | _ => Raise AttributeError
  end.

(** [v[:n]] *)
Definition slice_to (n : nat) (v : json) : result json :=
  match v with
  | JStr s => Ok (JStr (take n s))
  | JList l => Ok (JList (firstn n l))
  | _ => Raise TypeError
  end.

(** *** [str(v)] and [repr(v)] *)

Definition decimal (n : Z) : string := NilZero.string_of_int (Z.to_int n).

Definition dquote : ascii := ascii_of_nat 34.
Definition squote : ascii := ascii_of_nat 39.
Definition backslash : ascii := ascii_of_nat 92.

Definition hex_char (n : nat) : ascii :=
  if n <? 10 then ascii_of_nat (48 + n) else ascii_of_nat (87 + n).

Definition escape (quote c : ascii) : string :=
  let n := code c in
  if n =? 92 then String backslash (String backslash EmptyString)
  else if Ascii.eqb c quote then String backslash (String c EmptyString)
  else if n =? 9 then String backslash "t"
  else if n =? 10 then String backslash "n"
  else if n =? 13 then String backslash "r"
  else if (n <? 32) || (n =? 127)
  then String backslash
         (String "x" (String (hex_char (n / 16))
                        (String (hex_char (n mod 16)) EmptyString)))
  else String c EmptyString.

Fixpoint escape_all (quote : ascii) (s : string) : string :=
  match s with
  | EmptyString => EmptyString
  | String c s' => escape quote c +:+ escape_all quote s'
  end.

Definition repr_str (s : string) : string :=
  let quote :=
    if has_char squote s && negb (has_char dquote s) then dquote else squote in
  String quote (escape_all quote s +:+ String quote EmptyString).

Fixpoint join (sep : string) (l : list string) : string :=
  match l with
  | [] => EmptyString
  | [x] => x
  | x :: l' => x +:+ sep +:+ join sep l'
  end.

Fixpoint repr (v : json) : string :=
  match v with
  | JNull => "None"
  | JBool true => "True"
  | JBool false => "False"
  | JNum n => decimal n
  | JStr s => repr_str s
  | JList l => "[" +:+ join ", " (map repr l) +:+ "]"
  | JDict d =>
      "{" +:+ join ", " (map (fun kv => repr_str kv.1 +:+ ": " +:+ repr kv.2) d)
          +:+ "}"
  end.

Definition str (v : json) : string :=
  match v with
  | JStr s => s
  | _ => repr v
  end.

(** [int(v, 16)] *)
Definition int16 (v : json) : result Z :=
  match v with
  | JStr s =>
      match int_base16 s with
      | Some n => Ok n
      | None => Raise ValueError
      end
  | _ => Raise TypeError
  end.

(** The values a [for] loop draws from [v] *)
Fixpoint chars (s : string) : list json :=
  match s with
  | EmptyString => []
  | String c s' => JStr (String c EmptyString) :: chars s'
  end.

Definition iterate (v : json) : result (list json) :=
  match v with
  | JList l => Ok l
  | JStr s => Ok (chars s)
  | JDict d => Ok (map JStr (keys d))
  | _ => Raise TypeError
  end.

End Py.

(** ** config/settings.py: the asset store *)

Module Settings.
Import Py.

(** The class attributes read from the environment at start-up *)
Record config := {
  USE_EXTERNAL_ASSETS : bool;
  EXTERNAL_ASSET_BASE_URL : string;
  DEBUG : bool;
}.

(** [ASSETS_DIR / rel] *)
Inductive Path := AssetsDir (rel : string).

(** What is at a path: a regular file, a directory, or [Refused] when the
    operating system refuses to look (the name is too long, a directory on
    the way may not be searched), so that [exists()] and [is_file()] raise
    [OSError] instead of answering *)
Inductive node :=
| RegularFile (size : Z) (readable : bool)
| Directory
| Refused.

(** What the process sees of the assets directory: whether it exists, the
    names of its children as [iterdir] yields them ([None] when listing
    raises), and the node at [ASSETS_DIR / rel] for any [rel].  A name that
    [iterdir] yields is not [Refused]. *)
Record filesystem := {
  assets_dir_exists : bool;
  iterdir : option (list string);
  stat : string -> option node;
}.

(** Whether there is a regular file at the path: the answer of
    [path.is_file()] wherever it answers *)
Definition is_file (fs : filesystem) (p : Path) : bool :=
  match p with
  | AssetsDir rel =>
      match stat fs rel with
      | Some (RegularFile _ _) => true
      | _ => false
      end
  end.

(** [path.exists() and path.is_file()] outside any [try]: it raises where
    the operating system refuses to look *)
Definition probe (fs : filesystem) (p : Path) : result bool :=
  match p with
  | AssetsDir rel =>
      match stat fs rel with
      | Some Refused => Raise OSError
      | _ => Ok (is_file fs p)
      end
  end.

(** [name.rfind('.')] *)
Fixpoint rfind_dot (s : string) : option nat :=
  match s with
  | EmptyString => None
  | String c s' =>
      match rfind_dot s' with
      | Some i => Some (S i)
      | None => if code c =? 46 then Some 0 else None
      end
  end.

(** [PurePath.suffix] of a file name *)
Definition suffix (name : string) : string :=
  match rfind_dot name with
  | Some i =>
      if (0 <? i) && (i <? String.length name - 1) then drop i name
      else EmptyString
  | None => EmptyString
  end.

Definition image_suffixes : list string :=
  [".png"; ".jpg"; ".jpeg"; ".gif"; ".webp"].

(** [file_path.suffix.lower() in ['.png', '.jpg', '.jpeg', '.gif', '.webp']] *)
Definition is_image_name (name : string) : bool :=
  existsb (String.eqb (lower (suffix name))) image_suffixes.

Record state := {
  _asset_cache : gmap string Path;
  _cache_initialized : bool;
}.

(** The class attributes as the module is imported *)
Definition initial : state :=
  {| _asset_cache := ∅; _cache_initialized := false |}.

(** One round of the loop of [initialize_asset_cache], for the child
    [ASSETS_DIR / name] *)
Definition cache_child (fs : filesystem) (c : gmap string Path)
    (name : string) : gmap string Path :=
  if is_file fs (AssetsDir name) && is_image_name name
  then <[name := AssetsDir name]> c
  else c.

Definition initialize_asset_cache (fs : filesystem) (st : state) : state :=
  if _cache_initialized st then st
  else if negb (assets_dir_exists fs)
  then {| _asset_cache := _asset_cache st; _cache_initialized := true |}
  else
    match iterdir fs with
    | Some children =>
        {| _asset_cache := fold_left (cache_child fs) children (_asset_cache st);
           _cache_initialized := true |}
    | None =>
        {| _asset_cache := _asset_cache st; _cache_initialized := true |}
    end.

Definition get_asset_url (cfg : config) (filename : string) : string :=
  if USE_EXTERNAL_ASSETS cfg
     && negb (String.eqb (EXTERNAL_ASSET_BASE_URL cfg) EmptyString)
  then rstrip_slash (EXTERNAL_ASSET_BASE_URL cfg) +:+ "/" +:+ filename
  else "attachment://" +:+ filename.

(** A [discord.File]: the opened path, the attachment name, and the size
    that seeking to the end of the handle reports *)
Record File := {
  fp : Path;
  filename : string;
  fp_size : Z;
}.

(** [discord.File(asset_path, filename=filename)]: opens the path for
    reading; [None] when that raises *)
Definition open_file (fs : filesystem) (asset_path : Path) (name : string)
  : option File :=
  match asset_path with
  | AssetsDir rel =>
      match stat fs rel with
      | Some (RegularFile size true) =>
          Some {| fp := asset_path; filename := name; fp_size := size |}
      | _ => None
      end
  end.

(** A name of the cache is opened inside a [try]; a name that is not in the
    cache is probed outside any, so that the lookup raises when the probe
    does *)
Definition get_asset_file (cfg : config) (fs : filesystem) (st : state)
    (name : string) : result (option File) * state :=
  if USE_EXTERNAL_ASSETS cfg then (Ok None, st)
  else
    let st := initialize_asset_cache fs st in
    match _asset_cache st !! name with
    | Some asset_path => (Ok (open_file fs asset_path name), st)
    | None =>
        let asset_path := AssetsDir name in
        match probe fs asset_path with
        | Raise e => (Raise e, st)
        | Ok true =>
            let st' :=
              {| _asset_cache := <[name := asset_path]> (_asset_cache st);
                 _cache_initialized := _cache_initialized st |} in
            (Ok (open_file fs asset_path name), st')
        | Ok false => (Ok None, st)
        end
    end.

Definition refresh_asset_cache (fs : filesystem) (st : state) : state :=
  initialize_asset_cache fs
    {| _asset_cache := ∅; _cache_initialized := false |}.

End Settings.

(** ** data/data_manager.py: the content repository *)

Module DataManager.
Import Py.

(** The file [<category>.json] of the data directory: absent, present but
    not loadable ([open] or [json.load] raises), or parsed *)
Inductive data_file :=
| Missing
| Unloadable
| Parsed (data : json).

Definition disk := string -> data_file.

Definition load_data (d : disk) (cache : gmap string json) (category : string)
  : json * gmap string json :=
  match cache !! category with
  | Some data => (data, cache)
  | None =>
      match d (category +:+ ".json") with
      | Missing => (JDict [], cache)
      | Unloadable => (JDict [], cache)
      | Parsed data => (data, <[category := data]> cache)
      end
  end.

Definition get_factions (d : disk) (cache : gmap string json)
    (category : string) : result (list string) * gmap string json :=
  let '(data, cache) := load_data d cache category in
  (keys_of data, cache).

(** [faction and faction in data] picks the partition; every other case
    returns the whole mapping *)
Definition select_faction (data : json) (faction : option string)
  : result json :=
  match faction with
  | None => Ok data
  | Some EmptyString => Ok data
  | Some f =>
      bind (contains data f) (fun present =>
        if present then subscript data f else Ok data)
  end.

Definition get_items (d : disk) (cache : gmap string json)
    (category : string) (faction : option string)
  : result json * gmap string json :=
  let '(data, cache) := load_data d cache category in
  (select_faction data faction, cache).

Definition get_item (d : disk) (cache : gmap string json)
    (category item_key : string) (faction : option string)
  : result json * gmap string json :=
  let '(items, cache) := get_items d cache category faction in
  (bind items (fun items => get items item_key (JDict [])), cache).

End DataManager.

(** ** The platform's select option *)

Module Discord.
Import Py.

(** A [discord.SelectOption] as the source builds it; [JNull] is [None] *)
Record SelectOption := {
  label : json;
  value : string;
  description : json;
  emoji : json;
}.

(** The most options the platform accepts in one select *)
Definition max_options : nat := 25.

End Discord.

(** ** cogs/base_selector.py: the generic selector *)

Module BaseSelector.
Import Py.
Export Discord.

Definition no_items_option : SelectOption :=
  {| label := JStr "No items available";
     value := "none";
     description := JStr "No content found for this category";
     emoji := JNull |}.

(** [discord.SelectOption] takes a string or [None] for its emoji and
    raises [TypeError] for any other value *)
Definition select_emoji (v : json) : result json :=
  match v with
  | JNull | JStr _ => Ok v
  | _ => Raise TypeError
  end.

(** The body of the [try] of [BaseSelectorDropdown.__init__] *)
Definition item_option (key : string) (item : json) : result SelectOption :=
  label ← get item "display_name" (JStr (title key));
  short ← get item "short_description" (JStr "");
  description ← slice_to 100 short;
  emoji ← get item "emoji" JNull;
  emoji ← select_emoji emoji;
  mret {| label := label; value := key;
          description := description; emoji := emoji |}.

(** The option appended by the [except] clause *)
Definition fallback_option (key : string) : SelectOption :=
  {| label := JStr (title key);
     value := key;
     description := JStr "Item details unavailable";
     emoji := JNull |}.

Definition option_of (entry : string * json) : SelectOption :=
  match item_option entry.1 entry.2 with
  | Ok o => o
  | Raise _ => fallback_option entry.1
  end.

(** The options [BaseSelectorDropdown.__init__] hands to the select, for the
    [items] it was given or has fetched *)
Definition dropdown_options (items : json) : result (list SelectOption) :=
  if truthy items
  then entries ← items_of items;
       mret (firstn 25 (map option_of entries))
  else mret [no_items_option].

Record Dropdown := {
  category : string;
  faction : option string;
  options : list SelectOption;
}.

(** [items] defaults to [None], which is [JNull] here *)
Definition resolve_items (d : DataManager.disk) (cache : gmap string json)
    (category : string) (faction : option string) (items : json)
  : result json * gmap string json :=
  match items with
  | JNull => DataManager.get_items d cache category faction
  | _ => (Ok items, cache)
  end.

Definition BaseSelectorDropdown (d : DataManager.disk)
    (cache : gmap string json) (category : string) (faction : option string)
    (items : json) : result Dropdown * gmap string json :=
  let '(items, cache) := resolve_items d cache category faction items in
  (items ← items;
   options ← dropdown_options items;
   mret {| category := category; faction := faction; options := options |},
   cache).

(** [BaseSelectorView.__init__]: a view holding one dropdown *)
Definition BaseSelectorView (d : DataManager.disk) (cache : gmap string json)
    (category : string) (faction : option string) (items : json)
  : result Dropdown * gmap string json :=
  let '(items, cache) := resolve_items d cache category faction items in
  match items with
  | Ok items => BaseSelectorDropdown d cache category faction items
  | Raise e => (Raise e, cache)
  end.

(** *** Rendering *)

Record EmbedField := {
  field_name : string;
  field_value : json;
  inline : json;
}.

Record Embed := {
  title_ : json;
  color : Z;
  fields : list EmbedField;
  thumbnail : option string;
}.

Definition default_color : Z := 0x5865F2.

(** The [try] that builds the embed, and its [except ValueError] *)
Definition embed_head (item_data : json) (key : string) : result (json * Z) :=
  let attempt :=
    t ← get item_data "title" (JStr (title key));
    c ← get item_data "color" (JStr "0x5865F2");
    n ← int16 c;
    mret (t, n) in
  match attempt with
  | Raise ValueError =>
      t ← get item_data "title" (JStr (title key));
      mret (t, default_color)
  | r => r
  end.

Definition truncate_value (v : json) : json :=
  if 1024 <? String.length (str v)
  then JStr (take 1021 (str v) +:+ "...")
  else v.

Definition embed_field (item_data : list (string * json))
    (field_key : string) (v : json) : EmbedField :=
  {| field_name := title (replace (replace field_key "field_" "") "_" " ");
     field_value := truncate_value v;
     inline := from_option id (JBool false)
                 (lookup (field_key +:+ "_inline") item_data) |}.

(** One round of the loop over [item_data.items()]; the number of fields
    added so far is [field_count] *)
Definition add_field (item_data : list (string * json))
    (added : list EmbedField) (entry : string * json) : list EmbedField :=
  if startswith entry.1 "field_" && (length added <? 25)
  then added ++ [embed_field item_data entry.1 entry.2]
  else added.

(** The removal of the transport marker from a thumbnail reference *)
Definition strip_attachment (s : string) : string :=
  if startswith s "attachment://" then replace s "attachment://" "" else s.

(** [thumbnail_path.startswith(...)] exists on strings only *)
Definition thumbnail_name (v : json) : result string :=
  match v with
  | JStr s => Ok (strip_attachment s)
  | _ => Raise AttributeError
  end.

Definition embed_thumbnail (cfg : Settings.config) (item_data : json)
    (include_thumbnails : bool) : result (option string) :=
  if include_thumbnails
  then
    present ← contains item_data "thumbnail";
    if (present : bool)
    then
      v ← subscript item_data "thumbnail";
      thumbnail_path ← thumbnail_name v;
      if Settings.USE_EXTERNAL_ASSETS cfg
      then mret (Some (Settings.get_asset_url cfg thumbnail_path))
      else mret (Some ("attachment://" +:+ thumbnail_path))
    else mret None
  else mret None.

Definition create_embed (cfg : Settings.config) (item_data : json)
    (key : string) (include_thumbnails : bool) : result Embed :=
  head ← embed_head item_data key;
  entries ← items_of item_data;
  th ← embed_thumbnail cfg item_data include_thumbnails;
  mret {| title_ := head.1; color := head.2;
          fields := fold_left (add_field entries) entries [];
          thumbnail := th |}.

(** *** Attachments *)

(** The warnings [get_files] logs *)
Inductive warning :=
| ThumbnailNotLoaded (name : string)
| ImageNotLoaded (name : string)
| SizeLimitExceeded (total_size : Z).

(** What [get_files] changes outside itself: the log and the asset cache *)
Record process := {
  warnings : list warning;
  assets : Settings.state;
}.

(** Computations that read and update the process and may raise *)
Definition M (A : Type) : Type := process -> result A * process.

#[global] Instance M_ret : MRet M := fun A a p => (Ok a, p).
#[global] Instance M_bind : MBind M := fun A B k m p =>
  match m p with
  | (Ok a, p') => k a p'
  | (Raise e, p') => (Raise e, p')
  end.

Definition lift {A : Type} (r : result A) : M A := fun p => (r, p).

Definition warn (w : warning) : M unit := fun p =>
  (Ok tt, {| warnings := warnings p ++ [w]; assets := assets p |}).

(** [Settings.debug_asset_loading]: when [DEBUG] is set it builds the cache
    and reads the size of a cached path, which raises for a path that is
    gone, or asks whether the direct path exists, which raises where the
    operating system refuses to look; its log lines are left out *)
Definition debug_asset_loading (cfg : Settings.config)
    (fs : Settings.filesystem) (name : string) : M unit := fun p =>
  if Settings.DEBUG cfg
  then
    let st := Settings.initialize_asset_cache fs (assets p) in
    let p' := {| warnings := warnings p; assets := st |} in
    match Settings._asset_cache st !! name with
    | Some (Settings.AssetsDir rel) =>
        match Settings.stat fs rel with
        | Some Settings.Refused | None => (Raise OSError, p')
        | Some _ => (Ok tt, p')
        end
    | None =>
        match Settings.stat fs name with
        | Some Settings.Refused => (Raise OSError, p')
        | _ => (Ok tt, p')
        end
    end
  else (Ok tt, p).

Definition get_asset_file (cfg : Settings.config) (fs : Settings.filesystem)
    (name : string) : M (option Settings.File) := fun p =>
  let '(file_obj, st) := Settings.get_asset_file cfg fs (assets p) name in
  (file_obj, {| warnings := warnings p; assets := st |}).

(** Look one asset up and append it to [files], or log that it is missing *)
Definition attach (cfg : Settings.config) (fs : Settings.filesystem)
    (missing : string -> warning) (files : list Settings.File)
    (name : string) : M (list Settings.File) :=
  _ ← debug_asset_loading cfg fs name;
  file_obj ← get_asset_file cfg fs name;
  match file_obj with
  | Some f => mret (files ++ [f])
  | None => _ ← warn (missing name); mret files
  end.

(** A loop value is passed to [Settings.get_asset_file] as it is: only a
    string is a file name, and for any other value the lookup raises once
    the cache is built *)
Definition attach_image (cfg : Settings.config) (fs : Settings.filesystem)
    (files : list Settings.File) (image : json) : M (list Settings.File) :=
  match image with
  | JStr name => attach cfg fs ImageNotLoaded files name
  | _ => fun p =>
      (Raise TypeError,
       {| warnings := warnings p;
          assets := Settings.initialize_asset_cache fs (assets p) |})
  end.

Fixpoint attach_images (cfg : Settings.config) (fs : Settings.filesystem)
    (files : list Settings.File) (images : list json)
  : M (list Settings.File) :=
  match images with
  | [] => mret files
  | image :: rest =>
      files ← attach_image cfg fs files image;
      attach_images cfg fs files rest
  end.

Definition total_size (files : list Settings.File) : Z :=
  fold_right Z.add 0%Z (map Settings.fp_size files).

Definition size_limit : Z := 25 * 1024 * 1024.

(** The size check that ends [get_files] *)
Definition limit_files (files : list Settings.File)
  : M (list Settings.File) :=
  if (size_limit <? total_size files)%Z
  then _ ← warn (SizeLimitExceeded (total_size files));
       mret (firstn 3 files)
  else mret files.

(** The block of [get_files] for the thumbnail *)
Definition thumbnail_files (cfg : Settings.config) (fs : Settings.filesystem)
    (item_data : json) : M (list Settings.File) :=
  present ← lift (contains item_data "thumbnail");
  if (present : bool)
  then v ← lift (subscript item_data "thumbnail");
       thumbnail_file ← lift (thumbnail_name v);
       attach cfg fs ThumbnailNotLoaded [] thumbnail_file
  else mret [].

(** The block of [get_files] for the additional images *)
Definition additional_files (cfg : Settings.config) (fs : Settings.filesystem)
    (item_data : json) (files : list Settings.File)
  : M (list Settings.File) :=
  additional_images ← lift (get item_data "additional_images" (JList []));
  if truthy additional_images
  then images ← lift (iterate additional_images);
       attach_images cfg fs files images
  else mret files.

Definition get_files (cfg : Settings.config) (fs : Settings.filesystem)
    (item_data : json) : M (list Settings.File) :=
  if Settings.USE_EXTERNAL_ASSETS cfg then mret []
  else
    files ← thumbnail_files cfg fs item_data;
    files ← additional_files cfg fs item_data files;
    limit_files files.

(** *** The dropdown's callback *)

(** The messages of the callback; [LoadError] is the message of
    [_send_error_message], which only the handlers call *)
Inductive reply :=
| NoContentAvailable
| DataNotFound (key : string)
| ItemSent (embed : Embed) (files : list Settings.File)
| LoadError (key : string).

(** Everything the callback can change *)
Record world := {
  data_cache : gmap string json;
  proc : process;
}.

(** [BaseSelectorDropdown.callback] for the selected value.  The lookup of
    the item stands outside the [try].  When the body of the [try] raises,
    the interpreter evaluates the first handler's
    [discord.errors.RequestEntityTooLarge], a name the library does not
    have: the [AttributeError] of that evaluation leaves the callback, no
    handler runs and nothing is sent.  What the platform answers to the
    send is outside the source and taken to succeed. *)
Definition callback (cfg : Settings.config) (fs : Settings.filesystem)
    (d : DataManager.disk) (self : Dropdown) (selected_key : string)
    (w : world) : result reply * world :=
  if String.eqb selected_key "none" then (Ok NoContentAvailable, w)
  else
    let '(item_data, cache) :=
      DataManager.get_item d (data_cache w) (category self) selected_key
        (faction self) in
    let w := {| data_cache := cache; proc := proc w |} in
    match item_data with
    | Raise e => (Raise e, w)
    | Ok item_data =>
        if negb (truthy item_data) then (Ok (DataNotFound selected_key), w)
        else
          match create_embed cfg item_data selected_key true with
          | Raise _ => (Raise AttributeError, w)
          | Ok embed =>
              match get_files cfg fs item_data (proc w) with
              | (Ok files, p) =>
                  (Ok (ItemSent embed files),
                   {| data_cache := cache; proc := p |})
              | (Raise _, p) =>
                  (Raise AttributeError,
                   {| data_cache := cache; proc := p |})
              end
          end
    end.

(** *** The faction dropdown and the command *)

Definition faction_config : list (string * (string * json)) :=
  [("us", ("United States", JStr "🇺🇸"));
   ("german", ("Germany", JStr "🇩🇪"));
   ("soviet", ("Soviet Union", JStr "🇷🇺"));
   ("british", ("United Kingdom", JStr "🇬🇧"));
   ("ussr", ("Soviet Union", JStr "🇷🇺"))].

Fixpoint assoc {A : Type} (k : string) (l : list (string * A)) : option A :=
  match l with
  | [] => None
  | (k', v) :: l' => if String.eqb k k' then Some v else assoc k l'
  end.

Definition faction_option (faction : string) : SelectOption :=
  let config :=
    from_option id (title faction, JNull) (assoc (lower faction) faction_config) in
  {| label := JStr config.1; value := faction;
     description := JNull; emoji := config.2 |}.

(** The options [FactionSelectorDropdown.__init__] hands to the select *)
Definition faction_options (factions : list string) : list SelectOption :=
  map faction_option factions.



(** What the command answers: one of its messages, the item selector, or
    the faction selector *)
Inductive command_reply :=
| NoDataAvailable
| SelectItem (view : Dropdown)
| SelectFaction (options : list SelectOption)
| CommandError.

(** The body of [generic_command]: everything inside its [try], and the
    [except Exception] around it *)
Definition generic_command (d : DataManager.disk) (cache : gmap string json)
    (category : string) : command_reply * gmap string json :=
  let '(factions, cache) := DataManager.get_factions d cache category in
  match factions with
  | Raise _ => (CommandError, cache)
  | Ok factions =>
      if length factions <=? 1
      then
        let '(items, cache) := DataManager.get_items d cache category None in
        match items with
        | Raise _ => (CommandError, cache)
        | Ok items =>
            if negb (truthy items) then (NoDataAvailable, cache)
            else
              let '(view, cache) :=
                BaseSelectorView d cache category None items in
              match view with
              | Ok v => (SelectItem v, cache)
              | Raise _ => (CommandError, cache)
              end
        end
      else (SelectFaction (faction_options factions), cache)
  end.

End BaseSelector.

(** ** cogs/maps_command.py: the map selector *)

Module MapsCommand.
Import Py.
Export Discord.

Definition no_maps_option : SelectOption :=
  {| label := JStr "No maps available";
     value := "none";
     description := JStr "No map data found";
     emoji := JNull |}.

(** [description[i] in [' ', '.', ',', ';']] *)
Definition is_break (v : json) : bool :=
  is_str " " v || is_str "." v || is_str "," v || is_str ";" v.

(** [range(94, max(60, n - 20), -1)] *)
Definition break_candidates (n : nat) : list nat :=
  let stop := Nat.max 60 (n - 20) in
  rev (seq (S stop) (94 - stop)).

(** The inner loop: the first candidate index that holds a break, or 94 *)
Fixpoint find_break (description : json) (candidates : list nat)
  : result nat :=
  match candidates with
  | [] => Ok 94
  | i :: rest =>
      c ← index i description;
      if is_break c then Ok i else find_break description rest
  end.

(** The description shown for a map, from its [terrain] value *)
Definition short_description (terrain : json) : result json :=
  n ← len terrain;
  description ←
    (if 94 <? n
     then
       truncate_at ← find_break terrain (break_candidates n);
       cut ← slice_to truncate_at terrain;
       stripped ← rstrip_of cut;
       mret (JStr (stripped +:+ "..."))
     else if negb (truthy terrain)
     then mret (JStr "Tactical map information available")
     else mret terrain);
  slice_to 100 description.

Definition name_map : list (string * string) :=
  [("sme", "Sainte-Mère-Église");
   ("phl", "Purple Heart Lane");
   ("smdmv2", "Saint-Marie-du-Mont V2");
   ("elalamein", "El Alamein")].

Definition get_display_name (map_key : string) : string :=
  let display_name := replace (title map_key) "_" " " in
  from_option id display_name (BaseSelector.assoc (lower map_key) name_map).

Definition map_option (entry : string * json) : result SelectOption :=
  terrain ← get entry.2 "terrain" (JStr "");
  description ← short_description terrain;
  mret {| label := JStr (get_display_name entry.1);
          value := entry.1;
          description := description;
          emoji := JStr "🗺️" |}.

Fixpoint map_options (entries : list (string * json))
  : result (list SelectOption) :=
  match entries with
  | [] => Ok []
  | entry :: rest =>
      o ← map_option entry;
      os ← map_options rest;
      mret (o :: os)
  end.

(** The options [PersistentMapDropdown.__init__] hands to the select *)
Definition PersistentMapDropdown_options (d : DataManager.disk)
    (cache : gmap string json)
  : result (list SelectOption) * gmap string json :=
  let '(maps_data, cache) := DataManager.load_data d cache "maps" in
  (if truthy maps_data
   then entries ← items_of maps_data; map_options entries
   else mret [no_maps_option],
   cache).

(** *** The variants of a map *)

Definition MAP_NAME_FIXES : list (string * string) :=
  [("sme", "SME"); ("elalamein", "ElAlamein"); ("hurtgen", "HurtgenV2");
   ("phl", "PHL"); ("smdmv2", "SMDMV2"); ("elsenborn", "ElsenbornRidge")].

(** [MAP_NAME_FIXES.get(map_key, map_key.title())] *)
Definition actual_map_name (map_key : string) : string :=
  from_option id (title map_key) (BaseSelector.assoc map_key MAP_NAME_FIXES).

(** The file of a variant: the map name, an underscore, the suffix and
    [.png] *)
Definition image_filename (map_key suffix : string) : string :=
  actual_map_name map_key +:+ "_" +:+ suffix +:+ ".png".

(** Labels and suffixes of the four variants *)
Definition variants : list (string * string) :=
  [("🗺️ Grid", "Grid"); ("🌍 No Grid", "NoGrid");
   ("⚔️ SP No HQ", "SP_NoHQ"); ("🏠 Default Garries", "defaultgarries")].

Inductive ButtonStyle := primary | secondary | success | danger.

Definition style_map : list (string * ButtonStyle) :=
  [("Grid", primary); ("NoGrid", secondary); ("SP_NoHQ", success);
   ("defaultgarries", danger)].

Record PersonalVariantButton := {
  button_label : string;
  button_style : ButtonStyle;
  suffix : string;
  map_key : string;
  map_info : json;
}.

(** [PersonalVariantButton.__init__] *)
Definition new_button (key : string) (info : json) (v : string * string)
  : PersonalVariantButton :=
  {| button_label := v.1;
     button_style := from_option id secondary (BaseSelector.assoc v.2 style_map);
     suffix := v.2; map_key := key; map_info := info |}.

(** The loop of [check_available_variants]: a variant is kept when the
    lookup of its file returns a file; a lookup that raises ends the loop *)
Fixpoint existing_variants (cfg : Settings.config) (fs : Settings.filesystem)
    (key : string) (vs : list (string * string)) (st : Settings.state)
  : result (list (string * string)) * Settings.state :=
  match vs with
  | [] => (Ok [], st)
  | v :: rest =>
      match Settings.get_asset_file cfg fs st (image_filename key v.2) with
      | (Raise e, st) => (Raise e, st)
      | (Ok file_obj, st) =>
          let '(available, st) := existing_variants cfg fs key rest st in
          (available ← available;
           mret match file_obj with
                | Some _ => v :: available
                | None => available
                end, st)
      end
  end.

Definition check_available_variants (cfg : Settings.config)
    (fs : Settings.filesystem) (key : string) (vs : list (string * string))
    (st : Settings.state)
  : result (list (string * string)) * Settings.state :=
  if Settings.USE_EXTERNAL_ASSETS cfg then (Ok vs, st)
  else existing_variants cfg fs key vs st.

(** The buttons of [PersonalVariantView.__init__]: the variants found, or
    all of them when none is found *)
Definition PersonalVariantView (cfg : Settings.config)
    (fs : Settings.filesystem) (key : string) (info : json)
    (st : Settings.state)
  : result (list PersonalVariantButton) * Settings.state :=
  let '(available, st) := check_available_variants cfg fs key variants st in
  (available ← available;
   mret (map (new_button key info)
           match available with
           | [] => variants
           | _ :: _ => available
           end), st).

(** *** The embed of a map *)

(** A field of the embed; [add_field] stores [str(value)] *)
Record MapField := {
  map_field_name : string;
  map_field_value : string;
}.

Record MapEmbed := {
  map_title : json;
  map_color : Z;
  map_fields : list MapField;
  map_image : option string;
  map_footer : string;
}.

(** [v + s] for a string [s] *)
Definition concat (v : json) (s : string) : result json :=
  match v with
  | JStr x => Ok (JStr (x +:+ s))
  | _ => Raise TypeError
  end.

(** The truncation in the loop of [create_map_embed] *)
Definition clip_value (v : json) : result json :=
  n ← len v;
  if 1024 <? n
  then cut ← slice_to 1021 v; concat cut "..."
  else mret v.

Fixpoint clip_fields (fields : list (string * json))
  : result (list MapField) :=
  match fields with
  | [] => Ok []
  | f :: rest =>
      v ← clip_value f.2;
      fs ← clip_fields rest;
      mret ({| map_field_name := f.1; map_field_value := str v |} :: fs)
  end.

Definition create_map_embed (variant map_name : string) (info : json)
    (display_name : string) : result MapEmbed :=
  t ← get info "title" (JStr (map_name +:+ " — Tactical Map Briefing"));
  terrain ← get info "terrain" (JStr "No terrain info available");
  points ← get info "points" (JStr "No key points info available");
  infantry ← get info "infantry" (JStr "No infantry strategy available");
  armor ← get info "armor" (JStr "No armor strategy available");
  fields ← clip_fields [("🌍 Terrain", terrain); ("🎯 Key Points", points);
                        ("👥 Infantry Strategy", infantry);
                        ("🚗 Armor Strategy", armor)];
  mret {| map_title := t; map_color := 0x5865F2; map_fields := fields;
          map_image := None;
          map_footer := "Map Variant: " +:+ variant
                        +:+ " | Personal View for " +:+ display_name |}.

Definition set_image (embed : MapEmbed) (url : string) : MapEmbed :=
  {| map_title := map_title embed; map_color := map_color embed;
     map_fields := map_fields embed; map_image := Some url;
     map_footer := map_footer embed |}.

Definition image_not_available (embed : MapEmbed) (image : string)
  : MapEmbed :=
  {| map_title := map_title embed; map_color := map_color embed;
     map_fields :=
       map_fields embed ++
       [{| map_field_name := "⚠️ Image Not Available";
           map_field_value :=
             "Map image `" +:+ image +:+ "` could not be loaded." |}];
     map_image := map_image embed;
     map_footer := map_footer embed |}.

(** The embed of the handler for a request that is too large *)
Definition image_too_large (embed : MapEmbed) : MapEmbed :=
  {| map_title := map_title embed; map_color := map_color embed;
     map_fields :=
       map_fields embed ++
       [{| map_field_name := "⚠️ Image Too Large";
           map_field_value :=
             "The map image is too large to display. Try the external assets option." |}];
     map_image := map_image embed;
     map_footer := map_footer embed |}.

(** What the platform answers to a send: it takes the message, or the send
    raises [discord.HTTPException], [text] being [str(e)], or it raises
    another exception *)
Inductive send_outcome :=
| Delivered
| HTTPException (text : string)
| SendError.

(** What pressing a variant button hands to the platform last: the map, or
    the embed of one of the handlers.  A handler's own send stands in a
    [try] of its own and is only logged when it fails. *)
Inductive variant_reply :=
| MapWithUrl (embed : MapEmbed)
| MapWithFile (embed : MapEmbed) (file : Settings.File)
| MapTextOnly (embed : MapEmbed)
| MapTooLarge (embed : MapEmbed)
| MapLoadError (map_name : string).

(** The send of the map and the handlers behind it: [except
    discord.HTTPException] looks for [Request entity too large] in
    [str(e).lower()] and builds the embed anew for it, and answers with the
    error embed otherwise, as [except Exception] does *)
Definition send_map (send : send_outcome) (fresh : MapEmbed) (name : string)
    (message : variant_reply) : variant_reply :=
  match send with
  | Delivered => message
  | HTTPException text =>
      if occurs "Request entity too large" (lower text)
      then MapTooLarge (image_too_large fresh)
      else MapLoadError name
  | SendError => MapLoadError name
  end.

(** [PersonalVariantButton.callback]: everything stands inside its [try];
    [send] is what the platform answers to the send of the map.  The log
    lines are left out. *)
Definition variant_callback (cfg : Settings.config)
    (fs : Settings.filesystem) (send : send_outcome)
    (self : PersonalVariantButton) (display_name : string)
    (p : BaseSelector.process)
  : variant_reply * BaseSelector.process :=
  let name := actual_map_name (map_key self) in
  let image := image_filename (map_key self) (suffix self) in
  match create_map_embed (suffix self) name (map_info self) display_name with
  | Raise _ => (MapLoadError name, p)
  | Ok embed =>
      if Settings.USE_EXTERNAL_ASSETS cfg
      then
        (send_map send embed name
           (MapWithUrl (set_image embed (Settings.get_asset_url cfg image))),
         p)
      else
        match BaseSelector.debug_asset_loading cfg fs image p with
        | (Raise _, p) => (MapLoadError name, p)
        | (Ok _, p) =>
            match BaseSelector.get_asset_file cfg fs image p with
            | (Ok (Some file_obj), p) =>
                (send_map send embed name
                   (MapWithFile (set_image embed ("attachment://" +:+ image))
                      file_obj), p)
            | (Ok None, p) =>
                (send_map send embed name
                   (MapTextOnly (image_not_available embed image)), p)
            | (Raise _, p) => (MapLoadError name, p)
            end
        end
  end.

(** *** The callback of the map selector *)

Inductive menu_reply :=
| NoMapData
| MapNotFound (selected : string)
| VariantMenu (menu_title : string) (overview : option json)
    (view : list PersonalVariantButton)
| MenuError (selected : string).

(** The preview of the terrain: its first 300 characters, and an ellipsis
    when there are more *)
Definition terrain_overview (info : json) : result (option json) :=
  terrain ← get info "terrain" JNull;
  if truthy terrain
  then
    t ← subscript info "terrain";
    cut ← slice_to 300 t;
    n ← len t;
    v ← concat cut (if 300 <? n then "..." else "");
    mret (Some v)
  else mret None.

(** [PersistentMapDropdown.callback] for the selected value; the lookup of
    the map stands outside the [try], the view, the overview and the send
    of the menu inside it, and [except Exception] answers with the error
    message.  [send] is what the platform answers to the send of the
    menu. *)
Definition map_callback (cfg : Settings.config) (fs : Settings.filesystem)
    (d : DataManager.disk) (send : send_outcome) (selected : string)
    (w : BaseSelector.world)
  : result menu_reply * BaseSelector.world :=
  let '(maps_data, cache) :=
    DataManager.load_data d (BaseSelector.data_cache w) "maps" in
  let p := BaseSelector.proc w in
  let w := {| BaseSelector.data_cache := cache; BaseSelector.proc := p |} in
  if String.eqb selected "none" || negb (truthy maps_data)
  then (Ok NoMapData, w)
  else
    match get maps_data selected JNull with
    | Raise e => (Raise e, w)
    | Ok info =>
        if negb (truthy info) then (Ok (MapNotFound selected), w)
        else
          let '(view, st) :=
            PersonalVariantView cfg fs selected info (BaseSelector.assets p) in
          let w :=
            {| BaseSelector.data_cache := cache;
               BaseSelector.proc :=
                 {| BaseSelector.warnings := BaseSelector.warnings p;
                    BaseSelector.assets := st |} |} in
          match view, terrain_overview info, send with
          | Ok view, Ok overview, Delivered =>
              (Ok (VariantMenu ("🗺️ " +:+ get_display_name selected)
                     overview view), w)
          | _, _, _ => (Ok (MenuError selected), w)
          end
    end.

End MapsCommand.

(** ** data_validator.py: the validator of the data files *)

Module DataValidator.
Import Py.

(** An entry of [report['errors']] or [report['warnings']]: a text, or the
    text made from an exception *)
Inductive message :=
| Text (s : string)
  (** [Invalid JSON in <file>: ...] or [Error reading <file>: ...], according
      to the exception of [open] or [json.load] *)
| LoadFailure (file : string)
  (** [Error reading <file>: <e>] for an exception of the validation *)
| ErrorReading (file : string) (e : exn).

Record report := {
  file : string;
  valid : bool;
  errors : list message;
  warnings : list message;
  entries : nat;
}.

(** The validation writes to the report it is handed, and what it wrote
    stays when it raises *)
Definition V (A : Type) : Type := report -> result A * report.

#[global] Instance V_ret : MRet V := fun A a r => (Ok a, r).
#[global] Instance V_bind : MBind V := fun A B k m r =>
  match m r with
  | (Ok a, r) => k a r
  | (Raise e, r) => (Raise e, r)
  end.

Definition lift {A : Type} (x : result A) : V A := fun r => (x, r).

(** [report['errors'].append(m); report['valid'] = False] *)
Definition add_error (m : message) : V unit := fun r =>
  (Ok tt,
   {| file := file r; valid := false; errors := errors r ++ [m];
      warnings := warnings r; entries := entries r |}).

(** [report['warnings'].append(text)] *)
Definition add_warning (text : string) : V unit := fun r =>
  (Ok tt,
   {| file := file r; valid := valid r; errors := errors r;
      warnings := warnings r ++ [Text text]; entries := entries r |}).

(** [report['entries'] = n] *)
Definition set_entries (n : nat) : V unit := fun r =>
  (Ok tt,
   {| file := file r; valid := valid r; errors := errors r;
      warnings := warnings r; entries := n |}).

Fixpoint for_each {A : Type} (body : A -> V unit) (l : list A) : V unit :=
  match l with
  | [] => mret tt
  | x :: rest => _ ← body x; for_each body rest
  end.

(** [s.strip()] *)
Definition strip (s : string) : string :=
  lstrip_by is_space (rstrip_by is_space s).

(** [_check_asset_reference]: [full_path.exists()] holds for whatever is at
    [ASSETS_DIR / clean_path], and raises where the operating system refuses
    to look *)
Definition _check_asset_reference (fs : Settings.filesystem)
    (asset_path : json) (context : string) : V unit :=
  if negb (truthy asset_path) then mret tt
  else
    match asset_path with
    | JStr s =>
        let clean_path := replace s "attachment://" "" in
        match Settings.stat fs clean_path with
        | Some Settings.Refused => lift (Raise OSError)
        | Some _ => mret tt
        | None =>
            add_warning
              (context +:+ ": Asset '" +:+ clean_path +:+ "' not found")
        end
    | _ => lift (Raise AttributeError)
    end.

Definition required_fields : list string := ["display_name"; "title"].

Definition recommended_fields : list string :=
  ["field_nation"; "field_class"; "field_crew"].

(** The body of the inner loop of [_validate_tanks_data] *)
Definition validate_tank (fs : Settings.filesystem) (faction : string)
    (tank : string * json) : V unit :=
  let tank_key := tank.1 in
  match tank.2 with
  | JDict tank_data =>
      _ ← for_each
            (fun field =>
               match lookup field tank_data with
               | None =>
                   add_error
                     (Text ("Tank '" +:+ tank_key
                            +:+ "' missing required field: " +:+ field))
               | Some _ => mret tt
               end)
            required_fields;
      _ ← for_each
            (fun field =>
               match lookup field tank_data with
               | None =>
                   add_warning
                     ("Tank '" +:+ tank_key
                      +:+ "' missing recommended field: " +:+ field)
               | Some _ => mret tt
               end)
            recommended_fields;
      _ ← _check_asset_reference fs
            (from_option id JNull (lookup "thumbnail" tank_data))
            ("Tank " +:+ tank_key +:+ " thumbnail");
      images ← lift (iterate (from_option id (JList [])
                                (lookup "additional_images" tank_data)));
      for_each
        (fun img =>
           _check_asset_reference fs img
             ("Tank " +:+ tank_key +:+ " additional image"))
        images
  | _ =>
      add_error
        (Text ("Tank '" +:+ tank_key +:+ "' in faction '" +:+ faction
               +:+ "' should be a dictionary"))
  end.

(** The body of the outer loop of [_validate_tanks_data] *)
Definition validate_faction (fs : Settings.filesystem)
    (entry : string * json) : V unit :=
  let faction := entry.1 in
  match entry.2 with
  | JDict tanks => for_each (validate_tank fs faction) tanks
  | _ =>
      add_error
        (Text ("Faction '" +:+ faction
               +:+ "' should contain a dictionary of tanks"))
  end.

Definition _validate_tanks_data (fs : Settings.filesystem) (data : json)
  : V unit :=
  factions ← lift (items_of data);
  for_each (validate_faction fs) factions.

Definition map_required_fields : list string :=
  ["title"; "terrain"; "points"; "infantry"; "armor"].

(** The check of one required field of a map: [map_data[field].strip()]
    needs a string *)
Definition check_map_field (map_key : string)
    (map_data : list (string * json)) (field : string) : V unit :=
  match lookup field map_data with
  | None =>
      add_error
        (Text ("Map '" +:+ map_key +:+ "' missing required field: "
               +:+ field))
  | Some (JStr s) =>
      if negb (truthy (JStr (strip s)))
      then add_warning
             ("Map '" +:+ map_key +:+ "' has empty field: " +:+ field)
      else mret tt
  | Some _ => lift (Raise AttributeError)
  end.

(** The body of the loop of [_validate_maps_data] *)
Definition validate_map (entry : string * json) : V unit :=
  let map_key := entry.1 in
  match entry.2 with
  | JDict map_data =>
      _ ← for_each (check_map_field map_key map_data) map_required_fields;
      match lookup "thumbnail" map_data with
      | Some _ =>
          add_warning
            ("Map '" +:+ map_key
             +:+ "' has deprecated thumbnail field - remove this as maps use variants")
      | None => mret tt
      end
  | _ =>
      add_error (Text ("Map '" +:+ map_key +:+ "' should be a dictionary"))
  end.

Definition _validate_maps_data (data : json) : V unit :=
  maps ← lift (items_of data);
  for_each validate_map maps.

Definition _validate_generic_data (data : json) : V unit :=
  match data with
  | JDict d =>
      for_each
        (fun entry : string * json =>
           if negb (truthy entry.2)
           then add_warning ("Entry '" +:+ entry.1 +:+ "' is empty or null")
           else mret tt)
        d
  | _ => add_error (Text "Root data should be a dictionary")
  end.

(** What [validate_json_file] does with the loaded data, inside its [try] *)
Definition validate_data (fs : Settings.filesystem) (name : string)
    (data : json) : V unit :=
  n ← lift (len data);
  _ ← set_entries n;
  if String.eqb name "tanks.json" then _validate_tanks_data fs data
  else if String.eqb name "maps.json" then _validate_maps_data data
  else _validate_generic_data data.

Definition new_report (name : string) : report :=
  {| file := name; valid := true; errors := []; warnings := [];
     entries := 0 |}.

(** [validate_json_file] for the file of the given name in the data
    directory *)
Definition validate_json_file (fs : Settings.filesystem)
    (d : DataManager.disk) (name : string) : report :=
  match d name with
  | DataManager.Missing | DataManager.Unloadable =>
      (add_error (LoadFailure name) (new_report name)).2
  | DataManager.Parsed data =>
      match validate_data fs name data (new_report name) with
      | (Ok _, r) => r
      | (Raise e, r) => (add_error (ErrorReading name e) r).2
      end
  end.

End DataValidator.

(** ** Vocabulary of the properties *)

Module Spec.
Import Py.

(** Every character of [s] satisfies [P] *)
Fixpoint all_chars (P : ascii -> bool) (s : string) : bool :=
  match s with
  | EmptyString => true
  | String c s' => P c && all_chars P s'
  end.

Fixpoint last_char (s : string) : option ascii :=
  match s with
  | EmptyString => None
  | String c EmptyString => Some c
  | String _ s' => last_char s'
  end.

(** The transport marker of an attachment reference *)
Definition marker : string := "attachment://".

Definition colon : ascii := ascii_of_nat 58.

(** External hosting switched on with no base URL configured *)
Definition external_without_base : Settings.config :=
  {| Settings.USE_EXTERNAL_ASSETS := true;
     Settings.EXTERNAL_ASSET_BASE_URL := "";
     Settings.DEBUG := false |}.

(** A reference in which deleting the inner marker builds a new one *)
Definition nested_reference : string :=
  "attachment://attachattachment://ment://x.png".

(** *** The asset cache *)

(** [name] is a child of the assets root, as listing the root shows it *)
Definition child_of_root (fs : Settings.filesystem) (name : string) : Prop :=
  exists children, Settings.iterdir fs = Some children /\ In name children.

(** Every entry maps the name of an image to an existing file directly
    under the assets root *)
Definition cache_of_images (fs : Settings.filesystem) (st : Settings.state)
  : Prop :=
  forall name p,
    Settings._asset_cache st !! name = Some p ->
    Settings.is_image_name name = true /\
    p = Settings.AssetsDir name /\
    Settings.is_file fs p = true /\
    child_of_root fs name.

(** Every entry maps a name to the existing file of that name below the
    assets root *)
Definition cache_of_files (fs : Settings.filesystem) (st : Settings.state)
  : Prop :=
  forall name p,
    Settings._asset_cache st !! name = Some p ->
    p = Settings.AssetsDir name /\ Settings.is_file fs p = true.

(** The operating system answers when asked what is at [ASSETS_DIR / name] *)
Definition answers (fs : Settings.filesystem) (name : string) : Prop :=
  Settings.stat fs name <> Some Settings.Refused.

(** *** The attachments of a response *)

(** What [fetchLocal] answers for a name, cache apart: the file found at
    [ASSETS_DIR / name] when it can be opened *)
Definition fetch_local (fs : Settings.filesystem) (name : string)
  : option Settings.File :=
  Settings.open_file fs (Settings.AssetsDir name) name.

(** What a lookup answers for a name under the local policy, cache apart:
    it raises where the operating system refuses to look *)
Definition lookup_local (fs : Settings.filesystem) (name : string)
  : result (option Settings.File) :=
  match Settings.stat fs name with
  | Some Settings.Refused => Raise OSError
  | _ => Ok (fetch_local fs name)
  end.

(** The sources fetched for a list of names, in the order of the names *)
Definition fetched (fs : Settings.filesystem) (names : list string)
  : list Settings.File :=
  omap (fetch_local fs) names.

(** The asset references an item declares *)
Record asset_refs := {
  thumbnail_ref : option string;
  image_refs : list string;
}.

Definition declares (d : list (string * json)) (r : asset_refs) : Prop :=
  lookup "thumbnail" d = JStr <$> thumbnail_ref r /\
  (lookup "additional_images" d = Some (JList (JStr <$> image_refs r)) \/
   (lookup "additional_images" d = None /\ image_refs r = [])).

(** The names looked up for them: the thumbnail without its marker first,
    then the additional images as declared *)
Definition ref_names (r : asset_refs) : list string :=
  option_list (BaseSelector.strip_attachment <$> thumbnail_ref r)
  ++ image_refs r.

(** A warning about a missing asset, as opposed to the size warning *)
Definition is_missing_warning (w : BaseSelector.warning) : Prop :=
  forall total, w <> BaseSelector.SizeLimitExceeded total.

Definition MiB : Z := 1024 * 1024.

Definition view_names : list string :=
  ["view1.png"; "view2.png"; "view3.png"; "view4.png"; "view5.png"].

(** A thumbnail of 1 MiB and five more images of 6 MiB each *)
Definition large_assets : Settings.filesystem :=
  {| Settings.assets_dir_exists := true;
     Settings.iterdir := Some ("sherman.png" :: view_names);
     Settings.stat := fun rel =>
       if String.eqb rel "sherman.png"
       then Some (Settings.RegularFile (1 * MiB) true)
       else if existsb (String.eqb rel) view_names
       then Some (Settings.RegularFile (6 * MiB) true)
       else None |}.

Definition large_item : list (string * json) :=
  [("title", JStr "M4A1 Sherman");
   ("thumbnail", JStr "attachment://sherman.png");
   ("additional_images", JList (JStr <$> view_names))].

Definition large_refs : asset_refs :=
  {| thumbnail_ref := Some "attachment://sherman.png";
     image_refs := view_names |}.

(** Two images of 13 MiB each, and a name below a directory that may not be
    searched *)
Definition heavy_assets : Settings.filesystem :=
  {| Settings.assets_dir_exists := true;
     Settings.iterdir := Some ["front.png"; "rear.png"; "vault"];
     Settings.stat := fun rel =>
       if String.eqb rel "front.png"
       then Some (Settings.RegularFile (13 * MiB) true)
       else if String.eqb rel "rear.png"
       then Some (Settings.RegularFile (13 * MiB) true)
       else if String.eqb rel "vault"
       then Some Settings.Directory
       else if String.eqb rel "vault/side.png"
       then Some Settings.Refused
       else None |}.

Definition heavy_item : list (string * json) :=
  [("title", JStr "Tiger I");
   ("additional_images", JList [JStr "front.png"; JStr "rear.png"])].

Definition vault_item : list (string * json) :=
  [("title", JStr "Tiger I");
   ("additional_images",
    JList [JStr "front.png"; JStr "vault/side.png"; JStr "rear.png"])].

(** An assets directory that holds an image and a text file *)
Definition assets_with_notes : Settings.filesystem :=
  {| Settings.assets_dir_exists := true;
     Settings.iterdir := Some ["sherman.png"; "notes.txt"];
     Settings.stat := fun rel =>
       if String.eqb rel "sherman.png"
       then Some (Settings.RegularFile 2048 true)
       else if String.eqb rel "notes.txt"
       then Some (Settings.RegularFile 120 true)
       else None |}.

(** *** Example data files *)

Definition record (name : string) : json :=
  JDict [("display_name", JStr name); ("title", JStr name)].

(** A category partitioned into two factions *)
Definition tanks : json :=
  JDict
    [("us", JDict [("sherman", record "M4A1 Sherman");
                   ("stuart", record "M5A1 Stuart");
                   ("jumbo", record "Sherman Jumbo")]);
     ("german", JDict [("tiger", record "Tiger I");
                       ("panther", record "Panther")])].

Definition map_names : list string :=
  ["carentan"; "foy"; "hill400"; "hurtgen"; "kursk"; "omaha"; "phl"; "sme";
   "smdmv2"; "stalingrad"; "utah"; "remagen"; "kharkov"; "driel";
   "elalamein"].

Definition map_record (name : string) : string * json :=
  (name, JDict [("title", JStr name); ("terrain", JStr "Hedgerows")]).

(** A flat category: fifteen item records, no factions *)
Definition maps : json := JDict (map map_record map_names).

(** A flat category of ten entries, one of which is [null] *)
Definition tips : json :=
  JDict
    [("garrisons", record "Garrisons"); ("outposts", record "Outposts");
     ("supplies", record "Supplies"); ("nodes", record "Nodes");
     ("flanking", JNull);
     ("smoke", record "Smoke"); ("armor", record "Armor");
     ("recon", record "Recon"); ("artillery", record "Artillery");
     ("comms", record "Comms")].

(** A flat category of the generic selector: three item records, no
    factions *)
Definition vehicles : json :=
  JDict [("jeep", record "Jeep"); ("truck", record "Supply Truck");
         ("halftrack", record "Half-track")].

Definition vehicles_disk : DataManager.disk := fun file =>
  if String.eqb file "vehicles.json" then DataManager.Parsed vehicles
  else DataManager.Missing.

(** A flat category with one record that is present and empty *)
Definition roles : json :=
  JDict [("rifleman", record "Rifleman"); ("officer", JDict [])].

Definition example_disk : DataManager.disk := fun file =>
  if String.eqb file "tanks.json" then DataManager.Parsed tanks
  else if String.eqb file "maps.json" then DataManager.Parsed maps
  else if String.eqb file "tips.json" then DataManager.Parsed tips
  else if String.eqb file "roles.json" then DataManager.Parsed roles
  else DataManager.Missing.

Definition alphabet : list string :=
  ["a"; "b"; "c"; "d"; "e"; "f"; "g"; "h"; "i"; "j"; "k"; "l"; "m"; "n";
   "o"; "p"; "q"; "r"; "s"; "t"; "u"; "v"; "w"; "x"; "y"; "z"].

(** Twenty-six factions of one weapon each, and twenty-six maps *)
Definition wide_disk : DataManager.disk := fun file =>
  if String.eqb file "weapons.json"
  then DataManager.Parsed
         (JDict (map (fun k => (k, JDict [("rifle", record "Rifle")])) alphabet))
  else if String.eqb file "maps.json"
  then DataManager.Parsed (JDict (map map_record alphabet))
  else DataManager.Missing.

(** An item whose colour is written the way style sheets write it *)
Definition hash_color_item : list (string * json) :=
  [("title", JStr "Tiger I"); ("color", JStr "#8B0000")].

(** An item with one field and the switch for its layout *)
Definition crew_item : list (string * json) :=
  [("title", JStr "Tiger I");
   ("field_crew", JStr "5");
   ("field_crew_inline", JBool true)].

(** An item whose colour is a JSON number *)
Definition numeric_color_item : json :=
  JDict [("title", JStr "M4A1 Sherman"); ("color", JNum 16711680)].

Definition local_config : Settings.config :=
  {| Settings.USE_EXTERNAL_ASSETS := false;
     Settings.EXTERNAL_ASSET_BASE_URL := "";
     Settings.DEBUG := false |}.

(** No assets directory at all *)
Definition no_assets : Settings.filesystem :=
  {| Settings.assets_dir_exists := false;
     Settings.iterdir := None;
     Settings.stat := fun _ => None |}.

(** The item dropdown of the flat category [roles] *)
Definition roles_dropdown : BaseSelector.Dropdown :=
  {| BaseSelector.category := "roles";
     BaseSelector.faction := None;
     BaseSelector.options := [] |}.

Definition fresh_process : BaseSelector.process :=
  {| BaseSelector.warnings := []; BaseSelector.assets := Settings.initial |}.

(** *** Maps *)

(** A map record whose terrain is a text or is not given *)
Definition terrain_is_text (info : json) : Prop :=
  exists d,
    info = JDict d /\
    (lookup "terrain" d = None \/ exists s, lookup "terrain" d = Some (JStr s)).

(** A map record that gives terrain, key points, infantry and armour as
    texts, where it gives them *)
Definition fields_are_text (d : list (string * json)) : Prop :=
  forall k v,
    In k ["terrain"; "points"; "infantry"; "armor"] ->
    lookup k d = Some v -> exists s, v = JStr s.

(** The variants of a map whose image file is found *)
Definition found_variants (fs : Settings.filesystem) (key : string)
  : list (string * string) :=
  List.filter
    (fun v =>
       match fetch_local fs (MapsCommand.image_filename key v.2) with
       | Some _ => true
       | None => false
       end)
    MapsCommand.variants.

(** The operating system answers at the file name of each variant *)
Definition variants_answer (fs : Settings.filesystem) (key : string) : Prop :=
  Forall (fun v : string * string =>
            answers fs (MapsCommand.image_filename key v.2))
    MapsCommand.variants.

(** The buttons shown for a map: those of the variants found, or all *)
Definition buttons_shown (fs : Settings.filesystem) (key : string)
    (info : json) : list MapsCommand.PersonalVariantButton :=
  map (MapsCommand.new_button key info)
    match found_variants fs key with
    | [] => MapsCommand.variants
    | _ :: _ => found_variants fs key
    end.

(** An assets directory holding two variants of the map of Carentan *)
Definition carentan_assets : Settings.filesystem :=
  {| Settings.assets_dir_exists := true;
     Settings.iterdir := Some ["Carentan_Grid.png"; "Carentan_NoGrid.png"];
     Settings.stat := fun rel =>
       if String.eqb rel "Carentan_Grid.png"
       then Some (Settings.RegularFile 4096 true)
       else if String.eqb rel "Carentan_NoGrid.png"
       then Some (Settings.RegularFile 4096 true)
       else None |}.

Definition carentan_info : json :=
  JDict [("title", JStr "Carentan"); ("terrain", JStr "Hedgerows")].

(** *** Validated data *)

(** A value the validator takes for an asset reference without raising:
    nothing, or a text naming, once the marker is deleted, a path at which
    the operating system answers *)
Definition asset_ok (fs : Settings.filesystem) (v : json) : Prop :=
  truthy v = false \/
  exists s, v = JStr s /\ answers fs (replace s marker "").

(** A tank record the validator accepts *)
Definition well_formed_tank (fs : Settings.filesystem) (tank : string * json)
  : Prop :=
  exists d,
    tank.2 = JDict d /\
    is_Some (lookup "display_name" d) /\ is_Some (lookup "title" d) /\
    asset_ok fs (from_option id JNull (lookup "thumbnail" d)) /\
    exists images,
      iterate (from_option id (JList []) (lookup "additional_images" d))
      = Ok images /\
      Forall (asset_ok fs) images.

(** A faction the validator accepts *)
Definition well_formed_faction (fs : Settings.filesystem)
    (faction : string * json) : Prop :=
  exists tanks, faction.2 = JDict tanks /\ Forall (well_formed_tank fs) tanks.

(** A map record the validator accepts: the five texts are there *)
Definition well_formed_map (entry : string * json) : Prop :=
  exists d,
    entry.2 = JDict d /\
    Forall (fun field => exists s, lookup field d = Some (JStr s))
      DataValidator.map_required_fields.

(** A run of the validator that returned and left the report valid *)
Definition passes (x : result unit * DataValidator.report) : Prop :=
  x.1 = Ok tt /\ DataValidator.valid x.2 = true.

(** A validated set of maps: one complete record, and the disk holding it *)
Definition full_map_record (name : string) : string * json :=
  (name,
   JDict [("title", JStr name); ("terrain", JStr "Hedgerows");
          ("points", JStr "Church"); ("infantry", JStr "Flank");
          ("armor", JStr "Roads")]).

Definition full_maps : json := JDict (map full_map_record map_names).

Definition full_disk : DataManager.disk := fun file =>
  if String.eqb file "maps.json" then DataManager.Parsed full_maps
  else if String.eqb file "tanks.json" then DataManager.Parsed tanks
  else DataManager.Missing.

End Spec.

(** ** Properties of the string operations *)

Section Strings.
Import Py Spec.

Lemma append_cons c s t : String c s +:+ t = String c (s +:+ t).
Proof. reflexivity. Qed.

Lemma append_nil_r s : s +:+ "" = s.
Proof. induction s as [|c s IH]; [reflexivity|]. rewrite append_cons, IH. reflexivity. Qed.

Lemma append_assoc s t u : (s +:+ t) +:+ u = s +:+ t +:+ u.
Proof.
  induction s as [|c s IH]; [reflexivity|].
  rewrite !append_cons, IH. reflexivity.
Qed.

Lemma length_append s t :
  String.length (s +:+ t) = String.length s + String.length t.
Proof.
  induction s as [|c s IH]; [reflexivity|].
  rewrite append_cons. simpl. rewrite IH. reflexivity.
Qed.

Lemma prefix_append p r : String.prefix p (p +:+ r) = true.
Proof.
  induction p as [|c p IH]; [destruct r; reflexivity|].
  rewrite append_cons. simpl.
  destruct (ascii_dec c c); [assumption|contradiction].
Qed.

Lemma prefix_inv p s : String.prefix p s = true -> exists r, s = p +:+ r.
Proof.
  revert s. induction p as [|c p IH]; intros s H.
  - exists s. reflexivity.
  - destruct s as [|c' s]; simpl in H; [discriminate|].
    destruct (ascii_dec c c') as [->|]; [|discriminate].
    destruct (IH _ H) as [r ->]. exists r. reflexivity.
Qed.

Lemma replace_from_cons old new k c s :
  replace_from old new k (String c s) =
  match k with
  | S k' => replace_from old new k' s
  | O =>
      if String.prefix old (String c s)
      then new +:+ replace_from old new (String.length old - 1) s
      else String c (replace_from old new 0 s)
  end.
Proof. reflexivity. Qed.

(** Passing over the rest of an occurrence *)
Lemma replace_from_skip old new u t :
  replace_from old new (String.length u) (u +:+ t) = replace_from old new 0 t.
Proof.
  induction u as [|c u IH].
  - reflexivity.
  - rewrite append_cons. simpl. exact IH.
Qed.

(** [replace] at an occurrence: the occurrence goes, the scan resumes *)
Lemma replace_occurrence c old new t :
  replace (String c old +:+ t) (String c old) new
  = new +:+ replace t (String c old) new.
Proof.
  unfold replace. rewrite append_cons, replace_from_cons.
  rewrite <- append_cons, prefix_append. simpl String.length.
  replace (S (String.length old) - 1) with (String.length old) by lia.
  rewrite replace_from_skip. reflexivity.
Qed.

(** [replace] away from an occurrence keeps the character *)
Lemma replace_no_prefix c s old new :
  old <> EmptyString ->
  String.prefix old (String c s) = false ->
  replace (String c s) old new = String c (replace s old new).
Proof.
  intros Hne H. unfold replace. destruct old as [|o old]; [contradiction|].
  rewrite replace_from_cons, H. reflexivity.
Qed.

Lemma replace_empty old new : replace EmptyString old new =
  match old with EmptyString => new | String _ _ => EmptyString end.
Proof. destruct old; [apply append_nil_r|reflexivity]. Qed.

(** Deleting occurrences never lengthens a string *)
Lemma replace_from_delete_length old k s :
  String.length (replace_from old "" k s) <= String.length s.
Proof.
  revert k. induction s as [|c s IH]; intros k; [simpl; lia|].
  rewrite replace_from_cons. destruct k as [|k].
  - destruct (String.prefix old (String c s)).
    + specialize (IH (String.length old - 1)).
      change ("" +:+ ?x) with x. simpl. lia.
    + simpl. specialize (IH 0). lia.
  - specialize (IH k). simpl. lia.
Qed.

(** A string in which [old] does not occur is left alone *)
Lemma replace_absent s old new :
  old <> EmptyString -> occurs old s = false -> replace s old new = s.
Proof.
  intros Hne. induction s as [|c s IH]; intros H.
  - rewrite replace_empty. destruct old; [contradiction|reflexivity].
  - simpl in H. apply orb_false_iff in H as [H1 H2].
    rewrite replace_no_prefix by assumption. rewrite IH by assumption.
    reflexivity.
Qed.

Lemma has_char_append c s t :
  has_char c (s +:+ t) = has_char c s || has_char c t.
Proof.
  induction s as [|c' s IH]; [reflexivity|].
  rewrite append_cons. simpl. rewrite IH. apply orb_assoc.
Qed.

(** A string without a colon holds no marker *)
Lemma marker_absent name :
  has_char colon name = false -> occurs marker name = false.
Proof.
  induction name as [|c name IH]; intros H; [reflexivity|].
  simpl in H. apply orb_false_iff in H as [Hc Hn].
  change (occurs marker (String c name))
    with (String.prefix marker (String c name) || occurs marker name).
  rewrite (IH Hn), orb_false_r.
  destruct (String.prefix marker (String c name)) eqn:E; [|reflexivity].
  apply prefix_inv in E as [r E].
  assert (has_char colon (String c name) = true) as Hin.
  { rewrite E, has_char_append. reflexivity. }
  simpl in Hin. rewrite Hc, Hn in Hin. discriminate.
Qed.

(** What [rstrip_by] removes and what it leaves *)
Lemma rstrip_by_spec P s :
  exists t,
    s = rstrip_by P s +:+ t /\ all_chars P t = true /\
    forall c, last_char (rstrip_by P s) = Some c -> P c = false.
Proof.
  induction s as [|c s (t & Hs & Ht & Hl)].
  - exists EmptyString. repeat split. intros c [=].
  - simpl. destruct (rstrip_by P s) as [|c' r] eqn:E.
    + destruct (P c) eqn:Pc.
      * exists (String c s). repeat split; [|intros ? [=]].
        simpl. rewrite Pc. change ("" +:+ t) with t in Hs. subst t. exact Ht.
      * exists s. repeat split.
        -- change ("" +:+ t) with t in Hs. subst t. exact Ht.
        -- intros c0 [= <-]. exact Pc.
    + exists t. repeat split.
      * rewrite append_cons. f_equal. exact Hs.
      * exact Ht.
      * intros c0 H. apply Hl. exact H.
Qed.

End Strings.

(** ** The asset URL *)

Section AssetUrl.
Import Py Spec Settings.

(** C5, as stated, fails: with external hosting switched on and no base URL
    configured, the URL is the attachment reference, not the (empty) base
    followed by a slash and the file name. *)
Lemma external_policy_without_base_url :
  USE_EXTERNAL_ASSETS external_without_base = true /\
  get_asset_url external_without_base "a.png"
  <> rstrip_slash (EXTERNAL_ASSET_BASE_URL external_without_base)
     +:+ "/" +:+ "a.png".
Proof. split; [reflexivity|]. vm_compute. discriminate. Qed.

(** C5 (amended): [get_asset_url] is total.  With external hosting switched
    on and a base URL that is not empty, the result is the base without its
    trailing slashes (all of them, and nothing else), then a slash, then the
    file name.  With external hosting switched on and an empty base URL, and
    with local hosting, the result is [attachment://] followed by the file
    name. *)
Theorem get_asset_url_by_policy (cfg : config) (name : string) :
  (USE_EXTERNAL_ASSETS cfg = true ->
   EXTERNAL_ASSET_BASE_URL cfg <> EmptyString ->
   exists stem slashes,
     EXTERNAL_ASSET_BASE_URL cfg = stem +:+ slashes /\
     all_chars is_slash slashes = true /\
     (forall c, last_char stem = Some c -> is_slash c = false) /\
     get_asset_url cfg name = stem +:+ "/" +:+ name) /\
  (USE_EXTERNAL_ASSETS cfg = true ->
   EXTERNAL_ASSET_BASE_URL cfg = EmptyString ->
   get_asset_url cfg name = "attachment://" +:+ name) /\
  (USE_EXTERNAL_ASSETS cfg = false ->
   get_asset_url cfg name = "attachment://" +:+ name).
Proof.
  unfold get_asset_url. repeat split.
  - intros -> Hbase.
    apply String.eqb_neq in Hbase. rewrite Hbase. simpl.
    destruct (rstrip_by_spec is_slash (EXTERNAL_ASSET_BASE_URL cfg))
      as (t & Hs & Ht & Hl).
    exists (rstrip_slash (EXTERNAL_ASSET_BASE_URL cfg)), t.
    unfold rstrip_slash. auto.
  - intros -> ->. reflexivity.
  - intros ->. reflexivity.
Qed.

End AssetUrl.

(** ** Normalising an attachment reference *)

Section Normalisation.
Import Py Spec BaseSelector.

(** The references [strip_attachment] leaves alone are those that do not
    start with the marker *)
Lemma strip_attachment_fixed (t : string) :
  strip_attachment t = t <-> startswith t marker = false.
Proof.
  unfold strip_attachment. fold marker.
  destruct (startswith t marker) eqn:E; split; try reflexivity; try discriminate.
  intros H. exfalso.
  apply prefix_inv in E as [r ->].
  change marker with (String "a" "ttachment://") in H.
  rewrite replace_occurrence in H.
  change ("" +:+ ?x) with x in H.
  assert (String.length (replace r (String "a" "ttachment://") "")
          <= String.length r) as Hle
    by apply replace_from_delete_length.
  rewrite H, length_append in Hle. simpl in Hle. lia.
Qed.

(** C9, as stated, fails: on a reference in which deleting the inner marker
    builds a new leading marker, the second normalisation removes what the
    first has left. *)
Lemma strip_attachment_not_idempotent :
  strip_attachment (strip_attachment nested_reference)
  <> strip_attachment nested_reference.
Proof. vm_compute. discriminate. Qed.

(** C9 (amended): normalising twice equals normalising once exactly when the
    normalised reference does not itself start with the marker.  That is so
    for every reference that does not start with the marker, and for every
    reference made of the marker and a name without a colon, which
    normalises to that name. *)
Theorem strip_attachment_twice (s : string) :
  (strip_attachment (strip_attachment s) = strip_attachment s
   <-> startswith (strip_attachment s) marker = false) /\
  (startswith s marker = false ->
   strip_attachment s = s /\
   strip_attachment (strip_attachment s) = strip_attachment s) /\
  (has_char colon s = false ->
   strip_attachment (marker +:+ s) = s /\
   strip_attachment (strip_attachment (marker +:+ s))
   = strip_attachment (marker +:+ s)).
Proof.
  split; [apply strip_attachment_fixed|]. split.
  - intros H. apply strip_attachment_fixed in H. rewrite !H. auto.
  - intros H.
    assert (replace s marker "" = s) as Hs
      by (apply replace_absent; [discriminate|apply marker_absent, H]).
    assert (strip_attachment (marker +:+ s) = s) as H1.
    { unfold strip_attachment. fold marker. unfold startswith.
      rewrite prefix_append.
      change marker with (String "a" "ttachment://") in *.
      rewrite replace_occurrence. exact Hs. }
    split; [exact H1|]. rewrite H1.
    unfold strip_attachment. fold marker. rewrite Hs.
    destruct (startswith s marker); reflexivity.
Qed.

End Normalisation.

(** ** The content repository *)

Section Repository.
Import Py Spec DataManager.

Lemma lookup_None (k : string) (d : list (string * json)) :
  lookup k d = None <-> ~ In k (keys d).
Proof.
  induction d as [|[k' v] d IH]; simpl; [tauto|].
  destruct (String.eqb_spec k k') as [->|Hne]; split.
  - discriminate.
  - intros H. exfalso. apply H. left. reflexivity.
  - intros H [E|Hin]; [congruence|]. apply IH in H. contradiction.
  - intros H. apply IH. intros Hin. apply H. right. assumption.
Qed.

Lemma lookup_Some_In (k : string) (d : list (string * json)) (v : json) :
  lookup k d = Some v -> In (k, v) d.
Proof.
  induction d as [|[k' v'] d IH]; simpl; [discriminate|].
  destruct (String.eqb_spec k k') as [->|Hne].
  - intros [= ->]. left. reflexivity.
  - intros H. right. apply IH, H.
Qed.

(** Loading twice is loading once: the second call answers from the cache,
    or finds the same file missing again *)
Lemma load_data_again (d : disk) (cache : gmap string json) (category : string) :
  load_data d (load_data d cache category).2 category
  = load_data d cache category.
Proof.
  unfold load_data. destruct (cache !! category) as [data|] eqn:E; simpl.
  - rewrite E. reflexivity.
  - destruct (d (category +:+ ".json")) eqn:F; simpl.
    + rewrite E. reflexivity.
    + rewrite E. reflexivity.
    + rewrite lookup_insert_eq. reflexivity.
Qed.

Lemma get_items_again (d : disk) (cache : gmap string json)
    (category : string) (faction : option string) :
  get_items d (get_items d cache category faction).2 category faction
  = get_items d cache category faction.
Proof.
  unfold get_items.
  pose proof (load_data_again d cache category) as H.
  destruct (load_data d cache category) as [data cache'] eqn:E. simpl in *.
  rewrite H. reflexivity.
Qed.

Lemma get_item_get_items (d : disk) (cache : gmap string json)
    (category key : string) (faction : option string) :
  get_item d cache category key faction
  = ((get_items d cache category faction).1
       ≫= (fun items => get items key (JDict [])),
     (get_items d cache category faction).2).
Proof.
  unfold get_item. destruct (get_items d cache category faction). reflexivity.
Qed.

(** C8: whenever [get_items] returns a mapping, [get_item] with the same
    arguments returns the record stored under the key if the key is one of
    the mapping's keys, and the empty record (its not-found value) if it is
    not, before as well as after the call of [get_items]; for a category
    with no data file both are empty. *)
Theorem get_item_is_lookup (d : disk) (cache cache' : gmap string json)
    (category key : string) (faction : option string)
    (items : list (string * json)) :
  get_items d cache category faction = (Ok (JDict items), cache') ->
  (forall item, lookup key items = Some item ->
     In key (keys items) /\
     get_item d cache category key faction = (Ok item, cache')) /\
  (~ In key (keys items) ->
     get_item d cache category key faction = (Ok (JDict []), cache')) /\
  get_item d cache' category key faction
  = get_item d cache category key faction /\
  (cache !! category = None -> d (category +:+ ".json") = Missing ->
     items = [] /\ get_item d cache category key faction = (Ok (JDict []), cache)).
Proof.
  intros H.
  pose proof (get_item_get_items d cache category key faction) as Hi.
  pose proof (get_items_again d cache category faction) as Ha.
  rewrite H in Hi, Ha. simpl in Hi, Ha.
  repeat split.
  - destruct (lookup key items) eqn:E; [|discriminate].
    apply lookup_Some_In in E. apply in_map_iff. exists (key, j). auto.
  - rewrite Hi. unfold mbind, result_bind. simpl. rewrite H0. reflexivity.
  - intros Hn. apply lookup_None in Hn. rewrite Hi.
    unfold mbind, result_bind. simpl. rewrite Hn. reflexivity.
  - rewrite (get_item_get_items d cache'), Ha, Hi. reflexivity.
  - unfold get_items, load_data in H. rewrite H0, H1 in H.
    destruct faction as [[|]|]; simpl in H; congruence.
  - unfold get_item, get_items, load_data. rewrite H0, H1.
    destruct faction as [[|]|]; reflexivity.
Qed.

(** The German partition of the example answers for its own keys only *)
Lemma get_item_is_lookup_tanks :
  get_item example_disk ∅ "tanks" "tiger" (Some "german")
  = (Ok (record "Tiger I"), {["tanks" := tanks]}) /\
  get_item example_disk ∅ "tanks" "sherman" (Some "german")
  = (Ok (JDict []), {["tanks" := tanks]}).
Proof.
  pose proof (get_item_is_lookup example_disk ∅ {["tanks" := tanks]}
                "tanks" "tiger" (Some "german")
                [("tiger", record "Tiger I"); ("panther", record "Panther")]
                eq_refl) as (H1 & _).
  pose proof (get_item_is_lookup example_disk ∅ {["tanks" := tanks]}
                "tanks" "sherman" (Some "german")
                [("tiger", record "Tiger I"); ("panther", record "Panther")]
                eq_refl) as (_ & H2 & _).
  split.
  - apply (H1 (record "Tiger I") eq_refl).
  - apply H2. simpl. intros [H|[H|[]]]; discriminate.
Defined.

End Repository.

(** ** The not-found value of the item lookup *)

Section NotFound.
Import Py Spec DataManager BaseSelector.

(** C10: whenever [get_items] returns a mapping, [get_item] returns the empty
    record both for a key the mapping does not hold and for a key it maps to
    an empty record, and the dropdown's callback, which tests the result for
    truth, answers both with its not-found message. *)
Theorem empty_record_is_not_found (cfg : Settings.config)
    (fs : Settings.filesystem) (d : disk) (cache cache' : gmap string json)
    (self : Dropdown) (key : string) (items : list (string * json))
    (p : process) :
  get_items d cache (category self) (faction self)
  = (Ok (JDict items), cache') ->
  lookup key items = None \/ lookup key items = Some (JDict []) ->
  get_item d cache (category self) key (faction self)
  = (Ok (JDict []), cache') /\
  (key <> "none" ->
   callback cfg fs d self key {| data_cache := cache; proc := p |}
   = (Ok (DataNotFound key), {| data_cache := cache'; proc := p |})).
Proof.
  intros H Hk.
  assert (get_item d cache (category self) key (faction self)
          = (Ok (JDict []), cache')) as Hi.
  { rewrite get_item_get_items, H. unfold mbind, result_bind. simpl.
    destruct Hk as [-> | ->]; reflexivity. }
  split; [exact Hi|].
  intros Hne. unfold callback.
  apply String.eqb_neq in Hne. rewrite Hne. simpl. rewrite Hi. reflexivity.
Qed.

(** In the example roles, the missing [medic] and the empty [officer] get
    the same kind of answer *)
Lemma empty_record_is_not_found_roles :
  callback local_config no_assets example_disk roles_dropdown "medic"
    {| data_cache := ∅; proc := fresh_process |}
  = (Ok (DataNotFound "medic"),
     {| data_cache := {["roles" := roles]}; proc := fresh_process |}) /\
  callback local_config no_assets example_disk roles_dropdown "officer"
    {| data_cache := ∅; proc := fresh_process |}
  = (Ok (DataNotFound "officer"),
     {| data_cache := {["roles" := roles]}; proc := fresh_process |}).
Proof.
  split.
  - apply (empty_record_is_not_found local_config no_assets example_disk
             ∅ {["roles" := roles]} roles_dropdown "medic"
             [("rifleman", record "Rifleman"); ("officer", JDict [])]
             fresh_process); [vm_compute; reflexivity| |discriminate].
    left. reflexivity.
  - apply (empty_record_is_not_found local_config no_assets example_disk
             ∅ {["roles" := roles]} roles_dropdown "officer"
             [("rifleman", record "Rifleman"); ("officer", JDict [])]
             fresh_process); [vm_compute; reflexivity| |discriminate].
    right. reflexivity.
Defined.

End NotFound.

(** ** The selection flow and its dropdowns *)

Section Selection.
Import Py Spec DataManager BaseSelector.

(** The command takes the top-level keys of the data for factions; two or
    more of them lead to the faction step, whatever they name *)
Lemma two_keys_lead_to_faction_step (d : disk) (cache cache' : gmap string json)
    (category : string) (entries : list (string * json)) :
  load_data d cache category = (JDict entries, cache') ->
  2 <= length entries ->
  get_factions d cache category = (Ok (keys entries), cache') /\
  generic_command d cache category
  = (SelectFaction (faction_options (keys entries)), cache').
Proof.
  intros H Hlen. unfold generic_command, get_factions. rewrite H. simpl.
  split; [reflexivity|].
  destruct (length (keys entries) <=? 1) eqn:E; [|reflexivity].
  apply Nat.leb_le in E. unfold keys in E. rewrite length_map in E. lia.
Qed.

(** C1, as stated, fails at a category of the generic selector: for the
    flat category of three vehicles the three item keys are returned as its
    factions, not the empty list, and the command opens the faction
    selector over the item keys instead of the item selector. *)
Lemma flat_vehicles_offered_as_factions :
  get_factions vehicles_disk ∅ "vehicles"
  = (Ok ["jeep"; "truck"; "halftrack"], {["vehicles" := vehicles]}) /\
  generic_command vehicles_disk ∅ "vehicles"
  = (SelectFaction (faction_options ["jeep"; "truck"; "halftrack"]),
     {["vehicles" := vehicles]}).
Proof.
  assert (load_data vehicles_disk ∅ "vehicles"
          = (vehicles, {["vehicles" := vehicles]})) as H
    by (vm_compute; reflexivity).
  apply (two_keys_lead_to_faction_step vehicles_disk ∅ _ "vehicles" _ H).
  simpl. lia.
Qed.

(** Every option of the map selector carries the key of its map *)
Lemma map_options_values (entries : list (string * json))
    (os : list SelectOption) :
  MapsCommand.map_options entries = Ok os -> map value os = keys entries.
Proof.
  revert os. induction entries as [|e entries IH]; simpl; intros os.
  - intros [= <-]. reflexivity.
  - unfold MapsCommand.map_option.
    destruct (get e.2 "terrain" (JStr "")) as [terrain|]; [|discriminate].
    unfold mbind, result_bind. cbn [bind].
    destruct (MapsCommand.short_description terrain); [|discriminate].
    cbn [bind mret result_ret].
    destruct (MapsCommand.map_options entries); [|discriminate].
    cbn [bind]. intros [= <-]. cbn [map value]. rewrite (IH _ eq_refl).
    reflexivity.
Qed.

(** C1 (amended): the repository knows no flat categories.  For every
    category whose data is a mapping, the factions returned are the
    top-level keys of the data, whatever they bind, and the unfiltered
    listing is the whole mapping.  The command goes directly to the item
    selector exactly when there is one top-level key, answers that no data
    is available when there is none, and opens the faction selector over
    the top-level keys when there are two or more, also when these are the
    item keys of a flat record set.  The maps are not served by this
    command: their selector lists them with one option per map, in the
    order of the data, and no faction step. *)
Theorem factions_are_top_level_keys (d : disk)
    (cache cache' : gmap string json) (category : string)
    (entries : list (string * json)) :
  load_data d cache category = (JDict entries, cache') ->
  get_factions d cache category = (Ok (keys entries), cache') /\
  get_items d cache category None = (Ok (JDict entries), cache') /\
  (2 <= length entries ->
   generic_command d cache category
   = (SelectFaction (faction_options (keys entries)), cache')) /\
  (length entries = 1 ->
   generic_command d cache category
   = (SelectItem {| BaseSelector.category := category; faction := None;
                    options := firstn 25 (map option_of entries) |},
      cache')) /\
  (entries = [] -> generic_command d cache category = (NoDataAvailable, cache')) /\
  (category = "maps" -> entries <> [] ->
   forall os,
     MapsCommand.map_options entries = Ok os ->
     MapsCommand.PersistentMapDropdown_options d cache = (Ok os, cache') /\
     map value os = keys entries).
Proof.
  intros H.
  assert (load_data d cache' category = (JDict entries, cache')) as H'.
  { pose proof (load_data_again d cache category) as Ha.
    rewrite H in Ha. exact Ha. }
  assert (get_factions d cache category = (Ok (keys entries), cache')) as Hf.
  { unfold get_factions. rewrite H. reflexivity. }
  assert (get_items d cache' category None = (Ok (JDict entries), cache'))
    as Hi'.
  { unfold get_items. rewrite H'. reflexivity. }
  split; [exact Hf|]. split; [unfold get_items; rewrite H; reflexivity|].
  split; [|split; [|split]].
  - intros Hlen.
    apply (two_keys_lead_to_faction_step d cache cache' category entries H Hlen).
  - intros Hlen. unfold generic_command. rewrite Hf.
    unfold keys. rewrite length_map, Hlen. cbn [Nat.leb]. rewrite Hi'.
    destruct entries as [|e entries]; [discriminate|].
    reflexivity.
  - intros ->. unfold generic_command. rewrite Hf. cbn [keys map length Nat.leb].
    rewrite Hi'. reflexivity.
  - intros -> Hne os Hos. split; [|exact (map_options_values _ _ Hos)].
    unfold MapsCommand.PersistentMapDropdown_options. rewrite H.
    destruct entries as [|e entries]; [contradiction|].
    cbn [truthy items_of]. unfold mbind, result_bind. cbn [bind].
    rewrite Hos. reflexivity.
Qed.

(** The unfiltered listing of the three vehicles is the whole mapping *)
Lemma factions_are_top_level_keys_vehicles :
  get_items vehicles_disk ∅ "vehicles" None
  = (Ok vehicles, {["vehicles" := vehicles]}).
Proof.
  destruct (factions_are_top_level_keys vehicles_disk ∅
              {["vehicles" := vehicles]} "vehicles"
              [("jeep", record "Jeep"); ("truck", record "Supply Truck");
               ("halftrack", record "Half-track")])
    as (_ & H & _); [vm_compute; reflexivity|exact H].
Defined.

(** The item selector never holds more than twenty-five options *)
Lemma dropdown_options_capped (items : json) (os : list SelectOption) :
  dropdown_options items = Ok os -> length os <= max_options.
Proof.
  unfold dropdown_options, max_options. destruct (truthy items).
  - destruct items; try discriminate. simpl. intros [= <-].
    rewrite length_firstn. lia.
  - intros [= <-]. simpl. lia.
Qed.

(** The faction selector holds one option for every faction it is given *)
Lemma faction_options_length (factions : list string) :
  length (faction_options factions) = length factions.
Proof. apply length_map. Qed.

(** The map selector holds one option for every map *)
Lemma map_options_length (entries : list (string * json))
    (os : list SelectOption) :
  MapsCommand.map_options entries = Ok os -> length os = length entries.
Proof.
  revert os. induction entries as [|e entries IH]; simpl; intros os.
  - intros [= <-]. reflexivity.
  - destruct (MapsCommand.map_option e); [|discriminate].
    unfold mbind, result_bind. simpl.
    destruct (MapsCommand.map_options entries); [|discriminate].
    simpl. intros [= <-]. simpl. rewrite (IH _ eq_refl). reflexivity.
Qed.

(** C6 at the failing inputs: a category of twenty-six factions gets a
    faction selector of twenty-six options, and twenty-six maps get a map
    selector of twenty-six options, one more than the cap the item selector
    keeps. *)
Theorem selectors_beyond_the_cap :
  (exists os cache',
     generic_command wide_disk ∅ "weapons" = (SelectFaction os, cache') /\
     length os = 26) /\
  (exists os cache',
     MapsCommand.PersistentMapDropdown_options wide_disk ∅ = (Ok os, cache') /\
     length os = 26) /\
  max_options = 25.
Proof.
  split; [|split; [|reflexivity]].
  - eexists _, _. split; [vm_compute; reflexivity|reflexivity].
  - eexists _, _. split; [vm_compute; reflexivity|reflexivity].
Qed.

End Selection.

(** ** Malformed entries in a listing *)

Section Listing.
Import Py Spec DataManager BaseSelector.

(** C7, as stated, fails: the [null] entry of the example tips is among the
    keys the unfiltered listing returns. *)
Lemma null_entry_is_listed :
  ~ (forall items cache',
       get_items example_disk ∅ "tips" None = (Ok (JDict items), cache') ->
       ~ In "flanking" (keys items)).
Proof.
  intros H. eapply H; [vm_compute; reflexivity|].
  simpl. tauto.
Qed.

(** An entry that is no record gets the fallback option *)
Lemma option_of_not_record (k : string) (v : json) :
  (forall r, v <> JDict r) -> option_of (k, v) = fallback_option k.
Proof.
  intros H. destruct v; try reflexivity. exfalso. eapply H. reflexivity.
Qed.

(** Whatever the entry, its option carries the entry's key *)
Lemma option_of_value (e : string * json) : value (option_of e) = e.1.
Proof.
  destruct e as [k v]. unfold option_of. simpl.
  destruct (item_option k v) as [o|] eqn:E; [|reflexivity].
  unfold item_option in E.
  destruct (get v "display_name" (JStr (title k))); [|discriminate].
  destruct (get v "short_description" (JStr "")) as [sd|]; [|discriminate].
  unfold mbind, result_bind in E. simpl in E.
  destruct (slice_to 100 sd); [|discriminate]. simpl in E.
  destruct (get v "emoji" JNull) as [e|]; [|discriminate]. simpl in E.
  destruct (select_emoji e); [|discriminate]. simpl in E.
  injection E as <-. reflexivity.
Qed.

Lemma map_value_option_of (entries : list (string * json)) :
  map value (map option_of entries) = keys entries.
Proof.
  unfold keys. rewrite map_map. apply map_ext. apply option_of_value.
Qed.

(** C7 (amended): the unfiltered listing is the stored mapping as it is,
    malformed entries included.  For every mapping that is not empty the
    item selector is built without an exception and holds, for the first
    twenty-five entries in order, one option per entry carrying the entry's
    key; an entry that is no record ([null], say) gets the fallback option,
    labelled with its title-cased key. *)
Theorem malformed_entry_gets_fallback_option (d : disk)
    (cache : gmap string json) (category : string)
    (entries : list (string * json)) :
  (get_items d cache category None).1 = Ok (load_data d cache category).1 /\
  (entries <> [] ->
   exists os,
     dropdown_options (JDict entries) = Ok os /\
     os = firstn 25 (map option_of entries) /\
     map value os = firstn 25 (keys entries)) /\
  (forall k v,
     (forall r, v <> JDict r) ->
     option_of (k, v) = fallback_option k /\
     label (option_of (k, v)) = JStr (title k) /\
     description (option_of (k, v)) = JStr "Item details unavailable").
Proof.
  split; [|split].
  - unfold get_items. destruct (load_data d cache category). reflexivity.
  - intros Hne. exists (firstn 25 (map option_of entries)).
    split; [|split; [reflexivity|]].
    + destruct entries; [contradiction|reflexivity].
    + rewrite <- map_value_option_of. symmetry. apply firstn_map.
  - intros k v H. rewrite (option_of_not_record k v H). auto.
Qed.

End Listing.

(** ** The colour of an embed *)

Section Rendering.
Import Py Spec BaseSelector.

(** A colour that is absent or a string never makes the head of the embed
    raise; a string that is no hexadecimal literal gives the default *)
Lemma embed_head_string_color (item : list (string * json)) (key : string) :
  lookup "color" item = None \/ (exists s, lookup "color" item = Some (JStr s)) ->
  exists t c,
    embed_head (JDict item) key = Ok (t, c) /\
    (lookup "color" item = None -> c = default_color) /\
    (forall s, lookup "color" item = Some (JStr s) ->
       c = from_option id default_color (int_base16 s)).
Proof.
  intros H. unfold embed_head, get, mbind, result_bind, mret, result_ret.
  simpl.
  destruct H as [H|[s H]]; rewrite H; simpl.
  - eexists _, _. split; [reflexivity|]. split; [reflexivity|discriminate].
  - destruct (int_base16 s) as [n|] eqn:E; simpl.
    + eexists _, _. split; [reflexivity|]. split; [discriminate|].
      intros s' [= <-]. rewrite E. reflexivity.
    + eexists _, _. split; [reflexivity|]. split; [discriminate|].
      intros s' [= <-]. rewrite E. reflexivity.
Qed.

(** A colour of any other type raises [TypeError], which the handler of the
    source does not catch *)
Lemma embed_head_other_color (item : list (string * json)) (key : string)
    (v : json) :
  lookup "color" item = Some v -> (forall s, v <> JStr s) ->
  embed_head (JDict item) key = Raise TypeError.
Proof.
  intros H Hv. unfold embed_head, get, mbind, result_bind. simpl.
  rewrite H. simpl. destruct v; try reflexivity.
  exfalso. eapply Hv. reflexivity.
Qed.

(** C2 at the failing input: for an item whose colour is a JSON number the
    rendering raises [TypeError] instead of falling back to the default
    colour. *)
Theorem create_embed_raises_on_numeric_color (cfg : Settings.config)
    (include_thumbnails : bool) :
  create_embed cfg numeric_color_item "sherman" include_thumbnails
  = Raise TypeError.
Proof. reflexivity. Qed.

End Rendering.

(** ** The asset cache *)

Section AssetCache.
Import Py Spec Settings.

(** Where an entry of the built cache comes from *)
Lemma fold_cache_child_lookup (fs : filesystem) (children : list string)
    (c : gmap string Path) (name : string) (p : Path) :
  fold_left (cache_child fs) children c !! name = Some p ->
  c !! name = Some p \/
  (In name children /\ is_image_name name = true /\
   is_file fs (AssetsDir name) = true /\ p = AssetsDir name).
Proof.
  revert c. induction children as [|child children IH]; intros c H.
  - left. exact H.
  - simpl in H. apply IH in H as [H|(Hin & Hrest)].
    + unfold cache_child in H.
      destruct (is_file fs (AssetsDir child) && is_image_name child) eqn:E.
      * destruct (decide (child = name)) as [->|Hne].
        -- rewrite lookup_insert_eq in H. injection H as <-.
           apply andb_true_iff in E as [E1 E2].
           right. simpl. auto.
        -- rewrite lookup_insert_ne in H by assumption. left. exact H.
      * left. exact H.
    + right. simpl. auto.
Qed.

Lemma initialize_keeps_files (fs : filesystem) (st : state) :
  cache_of_files fs st -> cache_of_files fs (initialize_asset_cache fs st).
Proof.
  intros Hinv. unfold initialize_asset_cache.
  destruct (_cache_initialized st); [exact Hinv|].
  destruct (negb (assets_dir_exists fs)); [exact Hinv|].
  destruct (iterdir fs) as [children|]; [|exact Hinv].
  intros name p H. simpl in H.
  apply fold_cache_child_lookup in H as [H|(_ & _ & Hf & ->)].
  - apply Hinv, H.
  - auto.
Qed.

Lemma initialize_keeps_images (fs : filesystem) (st : state) :
  cache_of_images fs st -> cache_of_images fs (initialize_asset_cache fs st).
Proof.
  intros Hinv. unfold initialize_asset_cache.
  destruct (_cache_initialized st); [exact Hinv|].
  destruct (negb (assets_dir_exists fs)); [exact Hinv|].
  destruct (iterdir fs) as [children|] eqn:El; [|exact Hinv].
  intros name p H. simpl in H.
  apply fold_cache_child_lookup in H as [H|(Hin & Hi & Hf & ->)].
  - destruct (Hinv _ _ H) as (? & ? & ? & children' & Hl & ?).
    repeat split; auto. exists children'. auto.
  - repeat split; auto. exists children. auto.
Qed.

Lemma empty_cache_of_images (fs : filesystem) (b : bool) :
  cache_of_images fs {| _asset_cache := ∅; _cache_initialized := b |}.
Proof. intros name p H. simpl in H. rewrite lookup_empty in H. discriminate. Qed.

Lemma images_are_files (fs : filesystem) (st : state) :
  cache_of_images fs st -> cache_of_files fs st.
Proof. intros H name p Hl. destruct (H _ _ Hl) as (_ & ? & ? & _). auto. Qed.

(** Under the invariant a lookup answers with the file found at
    [ASSETS_DIR / name], whatever the cache holds, raises where the probe
    is refused, and keeps the invariant *)
Lemma get_asset_file_fetches (cfg : config) (fs : filesystem) (st : state)
    (name : string) :
  USE_EXTERNAL_ASSETS cfg = false ->
  cache_of_files fs st ->
  (get_asset_file cfg fs st name).1 = lookup_local fs name /\
  cache_of_files fs (get_asset_file cfg fs st name).2.
Proof.
  intros Hl Hinv. unfold get_asset_file, lookup_local, fetch_local. rewrite Hl.
  apply initialize_keeps_files in Hinv.
  set (st1 := initialize_asset_cache fs st) in *.
  destruct (_asset_cache st1 !! name) as [p|] eqn:E.
  - destruct (Hinv _ _ E) as [-> Hf]. split; [|exact Hinv].
    simpl in Hf. cbn [fst].
    destruct (stat fs name) as [[size r| |]|]; try discriminate. reflexivity.
  - unfold probe, is_file, open_file.
    destruct (stat fs name) as [[size r| |]|] eqn:F; cbn [fst snd];
      try (split; [reflexivity|exact Hinv]).
    split; [reflexivity|].
    intros name' p' H. simpl in H.
    destruct (decide (name = name')) as [<-|Hne].
    + rewrite lookup_insert_eq in H. injection H as <-.
      split; [reflexivity|]. simpl. rewrite F. reflexivity.
    + rewrite lookup_insert_ne in H by assumption. apply Hinv, H.
Qed.

Lemma lookup_local_answers (fs : filesystem) (name : string) :
  answers fs name -> lookup_local fs name = Ok (fetch_local fs name).
Proof.
  unfold answers, lookup_local. intros H.
  destruct (stat fs name) as [[size r| |]|]; try reflexivity.
  contradiction.
Qed.

Lemma get_asset_file_external (cfg : config) (fs : filesystem) (st : state)
    (name : string) :
  USE_EXTERNAL_ASSETS cfg = true ->
  get_asset_file cfg fs st name = (Ok None, st).
Proof. intros H. unfold get_asset_file. rewrite H. reflexivity. Qed.

(** C4, as stated, fails: from the empty cache, asking for the text file of
    the example directory puts it into the cache, though its extension is
    none of the image extensions. *)
Lemma fallback_caches_any_file :
  cache_of_images assets_with_notes initial /\
  ~ cache_of_images assets_with_notes
      (get_asset_file local_config assets_with_notes initial "notes.txt").2.
Proof.
  split; [apply empty_cache_of_images|].
  intros H.
  destruct (H "notes.txt" (AssetsDir "notes.txt")) as [Himg _].
  - vm_compute. reflexivity.
  - vm_compute in Himg. discriminate.
Qed.

(** C4 (amended): every operation of the asset store (the cache build, the
    lookup with its direct-probe fallback, the refresh) keeps every entry of
    the cache mapping a name to the existing file of that name below the
    assets root.  Entries made by the build or by a refresh are moreover
    children of the root with an image extension; the fallback caches the
    probed file whatever its extension, and keeps that stronger invariant
    when the name asked for is itself a child of the root with an image
    extension. *)
Theorem cache_invariants (cfg : config) (fs : filesystem) (st : state)
    (name : string) :
  (cache_of_files fs st ->
   cache_of_files fs (initialize_asset_cache fs st) /\
   cache_of_files fs (get_asset_file cfg fs st name).2) /\
  cache_of_files fs (refresh_asset_cache fs st) /\
  cache_of_images fs (initialize_asset_cache fs initial) /\
  cache_of_images fs (refresh_asset_cache fs st) /\
  (cache_of_images fs st ->
   cache_of_images fs (initialize_asset_cache fs st)) /\
  (cache_of_images fs st ->
   is_image_name name = true -> child_of_root fs name ->
   cache_of_images fs (get_asset_file cfg fs st name).2).
Proof.
  assert (cache_of_images fs (refresh_asset_cache fs st)) as Hr
    by apply initialize_keeps_images, empty_cache_of_images.
  split; [|split; [|split; [|split; [|split]]]].
  - intros Hinv. split; [apply initialize_keeps_files, Hinv|].
    destruct (USE_EXTERNAL_ASSETS cfg) eqn:E.
    + rewrite get_asset_file_external by assumption. exact Hinv.
    + apply get_asset_file_fetches; assumption.
  - apply images_are_files, Hr.
  - apply initialize_keeps_images, empty_cache_of_images.
  - exact Hr.
  - apply initialize_keeps_images.
  - intros Hinv Himg Hchild. unfold get_asset_file.
    destruct (USE_EXTERNAL_ASSETS cfg); [exact Hinv|].
    apply initialize_keeps_images in Hinv.
    set (st1 := initialize_asset_cache fs st) in *.
    destruct (_asset_cache st1 !! name) as [p|] eqn:E; [exact Hinv|].
    unfold probe, is_file.
    destruct (stat fs name) as [[size r| |]|] eqn:F; try exact Hinv.
    intros name' p' H. simpl in H.
    destruct (decide (name = name')) as [<-|Hne].
    + rewrite lookup_insert_eq in H. injection H as <-.
      repeat split; auto. simpl. rewrite F. reflexivity.
    + rewrite lookup_insert_ne in H by assumption. apply Hinv, H.
Qed.

End AssetCache.

(** ** The attachments of a response *)

Section Attachments.
Import Py Spec Settings BaseSelector.

Lemma answers_or_refused (fs : filesystem) (name : string) :
  answers fs name \/ stat fs name = Some Refused.
Proof.
  unfold answers. destruct (stat fs name) as [[size r| |]|];
    try (left; discriminate). right. reflexivity.
Qed.

Lemma all_answer_or_one_refused (fs : filesystem) (names : list string) :
  Forall (answers fs) names \/ Exists (fun name => ~ answers fs name) names.
Proof.
  induction names as [|name names [IH|IH]].
  - left. constructor.
  - destruct (answers_or_refused fs name) as [Ha|Hr].
    + left. constructor; assumption.
    + right. apply Exists_cons_hd. intros Ha. exact (Ha Hr).
  - right. apply Exists_cons_tl. exact IH.
Qed.

Lemma debug_asset_loading_ok (cfg : config) (fs : filesystem) (name : string)
    (p : process) :
  cache_of_files fs (assets p) ->
  answers fs name ->
  exists p',
    debug_asset_loading cfg fs name p = (Ok tt, p') /\
    warnings p' = warnings p /\ cache_of_files fs (assets p').
Proof.
  intros Hinv Ha. unfold debug_asset_loading.
  destruct (DEBUG cfg); [|exists p; auto].
  apply initialize_keeps_files in Hinv.
  set (st := initialize_asset_cache fs (assets p)) in *.
  unfold answers in Ha.
  destruct (_asset_cache st !! name) as [[rel]|] eqn:E.
  - destruct (Hinv _ _ E) as [[= ->] Hf]. simpl in Hf.
    destruct (stat fs name) as [[size r| |]|]; try discriminate.
    eexists. split; [reflexivity|]. auto.
  - destruct (stat fs name) as [[size r| |]|];
      try (eexists; split; [reflexivity|]; auto).
    contradiction.
Qed.

(** With or without the debug probe, the steps before the lookup keep the
    log and the invariant *)
Lemma debug_asset_loading_keeps (cfg : config) (fs : filesystem)
    (name : string) (p : process) :
  cache_of_files fs (assets p) ->
  stat fs name = Some Refused ->
  exists p',
    (debug_asset_loading cfg fs name p = (Ok tt, p') \/
     debug_asset_loading cfg fs name p = (Raise OSError, p')) /\
    cache_of_files fs (assets p').
Proof.
  intros Hinv Hr. unfold debug_asset_loading.
  destruct (DEBUG cfg); [|exists p; auto].
  apply initialize_keeps_files in Hinv.
  set (st := initialize_asset_cache fs (assets p)) in *.
  destruct (_asset_cache st !! name) as [[rel]|] eqn:E.
  - destruct (Hinv _ _ E) as [[= ->] Hf]. simpl in Hf.
    rewrite Hr in Hf. discriminate.
  - rewrite Hr. eexists. split; [right; reflexivity|exact Hinv].
Qed.

(** One lookup appends the fetched source, or logs the missing name *)
Lemma attach_fetches (cfg : config) (fs : filesystem)
    (missing : string -> warning) (files : list File) (name : string)
    (p : process) :
  USE_EXTERNAL_ASSETS cfg = false ->
  cache_of_files fs (assets p) ->
  (forall n, is_missing_warning (missing n)) ->
  answers fs name ->
  exists p' ws,
    attach cfg fs missing files name p
    = (Ok (files ++ option_list (fetch_local fs name)), p') /\
    warnings p' = warnings p ++ ws /\ Forall is_missing_warning ws /\
    cache_of_files fs (assets p').
Proof.
  intros Hl Hinv Hm Ha. unfold attach, mbind, M_bind.
  destruct (debug_asset_loading_ok cfg fs name p Hinv Ha)
    as (p1 & -> & Hw1 & Hinv1).
  unfold BaseSelector.get_asset_file.
  destruct (get_asset_file_fetches cfg fs (assets p1) name Hl Hinv1) as [Hf Hinv2].
  destruct (Settings.get_asset_file cfg fs (assets p1) name) as [file_obj st].
  cbn [fst snd] in Hf, Hinv2.
  rewrite (lookup_local_answers _ _ Ha) in Hf.
  subst file_obj. destruct (fetch_local fs name) as [f|]; simpl.
  - eexists _, []. split; [reflexivity|]. simpl.
    rewrite app_nil_r. auto.
  - eexists _, [missing name]. split; [rewrite app_nil_r; reflexivity|].
    simpl. rewrite Hw1. auto.
Qed.

(** A lookup the operating system refuses ends the attachment with
    [OSError] *)
Lemma attach_refused (cfg : config) (fs : filesystem)
    (missing : string -> warning) (files : list File) (name : string)
    (p : process) :
  USE_EXTERNAL_ASSETS cfg = false ->
  cache_of_files fs (assets p) ->
  stat fs name = Some Refused ->
  exists p',
    attach cfg fs missing files name p = (Raise OSError, p') /\
    cache_of_files fs (assets p').
Proof.
  intros Hl Hinv Hr. unfold attach, mbind, M_bind.
  destruct (debug_asset_loading_keeps cfg fs name p Hinv Hr)
    as (p1 & [-> | ->] & Hinv1); [|eauto].
  unfold BaseSelector.get_asset_file.
  destruct (get_asset_file_fetches cfg fs (assets p1) name Hl Hinv1) as [Hf Hinv2].
  destruct (Settings.get_asset_file cfg fs (assets p1) name) as [file_obj st].
  cbn [fst snd] in Hf, Hinv2. unfold lookup_local in Hf. rewrite Hr in Hf.
  subst file_obj. eexists. split; [reflexivity|exact Hinv2].
Qed.

Lemma attach_images_fetches (cfg : config) (fs : filesystem)
    (images : list string) (files : list File) (p : process) :
  USE_EXTERNAL_ASSETS cfg = false ->
  cache_of_files fs (assets p) ->
  Forall (answers fs) images ->
  exists p' ws,
    attach_images cfg fs files (JStr <$> images) p
    = (Ok (files ++ fetched fs images), p') /\
    warnings p' = warnings p ++ ws /\ Forall is_missing_warning ws /\
    cache_of_files fs (assets p').
Proof.
  intros Hl. revert files p.
  induction images as [|image images IH]; intros files p Hinv Ha.
  - exists p, []. simpl. rewrite !app_nil_r. auto.
  - apply Forall_cons in Ha as [Ha Has].
    simpl. unfold mbind, M_bind.
    destruct (attach_fetches cfg fs ImageNotLoaded files image p Hl Hinv)
      as (p1 & ws1 & -> & Hw1 & Hm1 & Hinv1);
      [intros n t; discriminate|exact Ha|].
    destruct (IH (files ++ option_list (fetch_local fs image)) p1 Hinv1 Has)
      as (p2 & ws2 & He & Hw2 & Hm2 & Hinv2).
    exists p2, (ws1 ++ ws2). split; [|split; [|split]].
    + refine (eq_trans He _). f_equal. f_equal. rewrite <- app_assoc.
      f_equal. destruct (fetch_local fs image); reflexivity.
    + rewrite Hw2, Hw1, app_assoc. reflexivity.
    + apply Forall_app. auto.
    + exact Hinv2.
Qed.

Lemma attach_images_refused (cfg : config) (fs : filesystem)
    (images : list string) (files : list File) (p : process) :
  USE_EXTERNAL_ASSETS cfg = false ->
  cache_of_files fs (assets p) ->
  Exists (fun name => ~ answers fs name) images ->
  exists p',
    attach_images cfg fs files (JStr <$> images) p = (Raise OSError, p') /\
    cache_of_files fs (assets p').
Proof.
  intros Hl. revert files p.
  induction images as [|image images IH]; intros files p Hinv He.
  - apply Exists_nil in He. contradiction.
  - simpl. unfold mbind, M_bind.
    destruct (answers_or_refused fs image) as [Ha|Hr].
    + destruct (attach_fetches cfg fs ImageNotLoaded files image p Hl Hinv)
        as (p1 & ws1 & -> & _ & _ & Hinv1);
        [intros n t; discriminate|exact Ha|].
      apply IH; [exact Hinv1|].
      apply Exists_cons in He as [He|He]; [contradiction|exact He].
    + destruct (attach_refused cfg fs ImageNotLoaded files image p Hl Hinv Hr)
        as (p1 & -> & Hinv1).
      eauto.
Qed.

Lemma M_bind_Ok {A B : Type} (m : M A) (k : A -> M B) (p p' : process)
    (a : A) :
  m p = (Ok a, p') -> (m ≫= k) p = k a p'.
Proof. intros H. unfold mbind, M_bind. rewrite H. reflexivity. Qed.

Lemma M_bind_Raise {A B : Type} (m : M A) (k : A -> M B) (p p' : process)
    (e : exn) :
  m p = (Raise e, p') -> (m ≫= k) p = (Raise e, p').
Proof. intros H. unfold mbind, M_bind. rewrite H. reflexivity. Qed.

Lemma thumbnail_files_fetches (cfg : config) (fs : filesystem)
    (d : list (string * json)) (r : asset_refs) (p : process) :
  USE_EXTERNAL_ASSETS cfg = false ->
  cache_of_files fs (assets p) ->
  declares d r ->
  Forall (answers fs) (option_list (strip_attachment <$> thumbnail_ref r)) ->
  exists p' ws,
    thumbnail_files cfg fs (JDict d) p
    = (Ok (fetched fs (option_list (strip_attachment <$> thumbnail_ref r))),
       p') /\
    warnings p' = warnings p ++ ws /\ Forall is_missing_warning ws /\
    cache_of_files fs (assets p').
Proof.
  intros Hl Hinv [Ht _] Ha. unfold thumbnail_files.
  rewrite (M_bind_Ok _ _ p p (bool_decide (is_Some (lookup "thumbnail" d))))
    by reflexivity.
  rewrite Ht. destruct (thumbnail_ref r) as [t|]; simpl.
  - rewrite (M_bind_Ok _ _ p p (JStr t))
      by (unfold lift, subscript; rewrite Ht; reflexivity).
    rewrite (M_bind_Ok _ _ p p (strip_attachment t)) by reflexivity.
    simpl in Ha. apply Forall_cons in Ha as [Ha _].
    destruct (attach_fetches cfg fs ThumbnailNotLoaded [] (strip_attachment t)
                p Hl Hinv) as (p1 & ws1 & He & Hrest);
      [intros n t'; discriminate|exact Ha|].
    exists p1, ws1. split; [|exact Hrest].
    rewrite He. unfold fetched. simpl.
    destruct (fetch_local fs (strip_attachment t)); reflexivity.
  - exists p, []. rewrite app_nil_r. auto.
Qed.

Lemma thumbnail_files_refused (cfg : config) (fs : filesystem)
    (d : list (string * json)) (r : asset_refs) (p : process) :
  USE_EXTERNAL_ASSETS cfg = false ->
  cache_of_files fs (assets p) ->
  declares d r ->
  Exists (fun name => ~ answers fs name)
    (option_list (strip_attachment <$> thumbnail_ref r)) ->
  exists p',
    thumbnail_files cfg fs (JDict d) p = (Raise OSError, p') /\
    cache_of_files fs (assets p').
Proof.
  intros Hl Hinv [Ht _] He. unfold thumbnail_files.
  rewrite (M_bind_Ok _ _ p p (bool_decide (is_Some (lookup "thumbnail" d))))
    by reflexivity.
  rewrite Ht. destruct (thumbnail_ref r) as [t|]; simpl in *.
  - rewrite (M_bind_Ok _ _ p p (JStr t))
      by (unfold lift, subscript; rewrite Ht; reflexivity).
    rewrite (M_bind_Ok _ _ p p (strip_attachment t)) by reflexivity.
    apply Exists_cons in He as [He|He]; [|apply Exists_nil in He; contradiction].
    destruct (answers_or_refused fs (strip_attachment t)) as [Ha|Hr];
      [contradiction|].
    apply attach_refused; assumption.
  - apply Exists_nil in He. contradiction.
Qed.

Lemma additional_files_fetches (cfg : config) (fs : filesystem)
    (d : list (string * json)) (r : asset_refs) (files : list File)
    (p : process) :
  USE_EXTERNAL_ASSETS cfg = false ->
  cache_of_files fs (assets p) ->
  declares d r ->
  Forall (answers fs) (image_refs r) ->
  exists p' ws,
    additional_files cfg fs (JDict d) files p
    = (Ok (files ++ fetched fs (image_refs r)), p') /\
    warnings p' = warnings p ++ ws /\ Forall is_missing_warning ws /\
    cache_of_files fs (assets p').
Proof.
  intros Hl Hinv [_ Hi] Ha. unfold additional_files.
  rewrite (M_bind_Ok _ _ p p
             (from_option id (JList []) (lookup "additional_images" d)))
    by reflexivity.
  destruct Hi as [Hi|[Hi Hnil]]; rewrite Hi; simpl.
  - destruct (image_refs r) as [|image images] eqn:Er.
    + exists p, []. simpl. rewrite !app_nil_r. auto.
    + change (JStr <$> image :: images)
        with (JStr image :: (JStr <$> images)).
      cbv iota.
      rewrite (M_bind_Ok _ _ p p (JStr image :: (JStr <$> images)))
        by reflexivity.
      apply (attach_images_fetches cfg fs (image :: images) files p Hl Hinv Ha).
  - rewrite Hnil. exists p, []. simpl. rewrite !app_nil_r. auto.
Qed.

Lemma additional_files_refused (cfg : config) (fs : filesystem)
    (d : list (string * json)) (r : asset_refs) (files : list File)
    (p : process) :
  USE_EXTERNAL_ASSETS cfg = false ->
  cache_of_files fs (assets p) ->
  declares d r ->
  Exists (fun name => ~ answers fs name) (image_refs r) ->
  exists p',
    additional_files cfg fs (JDict d) files p = (Raise OSError, p') /\
    cache_of_files fs (assets p').
Proof.
  intros Hl Hinv [_ Hi] He. unfold additional_files.
  rewrite (M_bind_Ok _ _ p p
             (from_option id (JList []) (lookup "additional_images" d)))
    by reflexivity.
  destruct Hi as [Hi|[Hi Hnil]]; rewrite Hi; simpl.
  - destruct (image_refs r) as [|image images] eqn:Er.
    + apply Exists_nil in He. contradiction.
    + change (JStr <$> image :: images)
        with (JStr image :: (JStr <$> images)).
      cbv iota.
      rewrite (M_bind_Ok _ _ p p (JStr image :: (JStr <$> images)))
        by reflexivity.
      apply (attach_images_refused cfg fs (image :: images) files p Hl Hinv He).
  - rewrite Hnil in He. apply Exists_nil in He. contradiction.
Qed.

(** C3, as stated, fails.  For two images of 13 MiB each the sizes add up
    to more than the budget and the sources returned are these two, still
    over the budget; what is returned is the list alone, with no flag
    beside it.  And for a list of references one of which names a path the
    operating system refuses to look at, no source is returned at all: the
    call raises [OSError]. *)
Lemma over_budget_two_sources_and_refused_name :
  (exists p',
     get_files local_config heavy_assets (JDict heavy_item) fresh_process
     = (Ok (fetched heavy_assets ["front.png"; "rear.png"]), p') /\
     length (fetched heavy_assets ["front.png"; "rear.png"]) = 2 /\
     (size_limit < total_size (fetched heavy_assets ["front.png"; "rear.png"]))%Z)
  /\
  (exists p',
     get_files local_config heavy_assets (JDict vault_item) fresh_process
     = (Raise OSError, p')).
Proof.
  split.
  - eexists. split; [vm_compute; reflexivity|].
    split; [reflexivity|vm_compute; reflexivity].
  - eexists. vm_compute. reflexivity.
Qed.

(** C3 (amended): [get_files] returns a list of sources and nothing else.
    Under the external policy the list is empty.  Under the local policy,
    with a cache whose entries name existing files, a lookup answers with
    the file found under the name and raises [OSError] where the operating
    system refuses to look.  For an item that declares a thumbnail and
    additional images as strings: when the operating system answers at
    every name referred to, the sources are fetched for the thumbnail (its
    marker removed) and then for the images in the order declared; when
    their sizes add up to more than 25 MiB the result is [files[:3]], the
    first three of them or all when fewer were fetched, and the size
    warning is logged last; otherwise the result is all of them and no size
    warning is logged.  When the operating system refuses one of the names,
    the call raises [OSError]. *)
Theorem get_files_by_policy (cfg : config) (fs : filesystem)
    (item_data : json) (p : process) :
  (USE_EXTERNAL_ASSETS cfg = true -> get_files cfg fs item_data p = (Ok [], p)) /\
  (USE_EXTERNAL_ASSETS cfg = false ->
   cache_of_files fs (assets p) ->
   (forall name,
      (Settings.get_asset_file cfg fs (assets p) name).1
      = lookup_local fs name) /\
   forall d r, item_data = JDict d -> declares d r ->
   (Forall (answers fs) (ref_names r) ->
    exists p' ws,
      get_files cfg fs item_data p
      = (Ok (if (size_limit <? total_size (fetched fs (ref_names r)))%Z
             then firstn 3 (fetched fs (ref_names r))
             else fetched fs (ref_names r)),
         p') /\
      warnings p'
      = warnings p ++ ws ++
        (if (size_limit <? total_size (fetched fs (ref_names r)))%Z
         then [SizeLimitExceeded (total_size (fetched fs (ref_names r)))]
         else []) /\
      Forall is_missing_warning ws /\
      cache_of_files fs (assets p')) /\
   (Exists (fun name => ~ answers fs name) (ref_names r) ->
    exists p',
      get_files cfg fs item_data p = (Raise OSError, p') /\
      cache_of_files fs (assets p'))).
Proof.
  split.
  { intros H. unfold get_files. rewrite H. reflexivity. }
  intros Hl Hinv.
  split; [intros name; apply get_asset_file_fetches; assumption|].
  intros d r -> Hd. split.
  - intros Ha. unfold get_files. rewrite Hl.
    pose proof Ha as Ha'. unfold ref_names in Ha'.
    apply Forall_app in Ha' as [Ha1 Ha2].
    destruct (thumbnail_files_fetches cfg fs d r p Hl Hinv Hd Ha1)
      as (p1 & ws1 & He1 & Hw1 & Hm1 & Hinv1).
    rewrite (M_bind_Ok _ _ _ _ _ He1).
    destruct (additional_files_fetches cfg fs d r
                (fetched fs (option_list (strip_attachment <$> thumbnail_ref r)))
                p1 Hl Hinv1 Hd Ha2)
      as (p2 & ws2 & He2 & Hw2 & Hm2 & Hinv2).
    rewrite (M_bind_Ok _ _ _ _ _ He2).
    assert (fetched fs (option_list (strip_attachment <$> thumbnail_ref r))
            ++ fetched fs (image_refs r) = fetched fs (ref_names r)) as ->.
    { unfold fetched, ref_names. rewrite omap_app. reflexivity. }
    unfold limit_files.
    destruct (size_limit <? total_size (fetched fs (ref_names r)))%Z.
    + eexists _, (ws1 ++ ws2). split; [reflexivity|]. simpl.
      split; [|split; [apply Forall_app; auto|exact Hinv2]].
      rewrite Hw2, Hw1, <- !app_assoc. reflexivity.
    + exists p2, (ws1 ++ ws2). split; [reflexivity|].
      split; [|split; [apply Forall_app; auto|exact Hinv2]].
      rewrite Hw2, Hw1, app_nil_r, <- !app_assoc. reflexivity.
  - intros He. unfold get_files. rewrite Hl. unfold ref_names in He.
    apply Exists_app in He.
    destruct (all_answer_or_one_refused fs
                (option_list (strip_attachment <$> thumbnail_ref r)))
      as [Ha1|Hr1].
    + destruct He as [He|He].
      { exfalso. apply Exists_exists in He as (n & Hn & Hna).
        rewrite Forall_forall in Ha1. apply Hna, Ha1, Hn. }
      destruct (thumbnail_files_fetches cfg fs d r p Hl Hinv Hd Ha1)
        as (p1 & ws1 & He1 & _ & _ & Hinv1).
      rewrite (M_bind_Ok _ _ _ _ _ He1).
      destruct (additional_files_refused cfg fs d r
                  (fetched fs
                     (option_list (strip_attachment <$> thumbnail_ref r)))
                  p1 Hl Hinv1 Hd He) as (p2 & He2 & Hinv2).
      rewrite (M_bind_Raise _ _ _ _ _ He2). eauto.
    + destruct (thumbnail_files_refused cfg fs d r p Hl Hinv Hd Hr1)
        as (p1 & He1 & Hinv1).
      rewrite (M_bind_Raise _ _ _ _ _ He1). eauto.
Qed.

(** Five images of 6 MiB and a thumbnail of 1 MiB: three sources are
    returned, the thumbnail and the first two images, and the size warning
    reports 31 MiB *)
Lemma get_files_five_large_images :
  exists p',
    get_files local_config large_assets (JDict large_item) fresh_process
    = (Ok (fetched large_assets ["sherman.png"; "view1.png"; "view2.png"]),
       p') /\
    length (fetched large_assets ["sherman.png"; "view1.png"; "view2.png"]) = 3 /\
    In (SizeLimitExceeded (31 * MiB)) (warnings p').
Proof.
  destruct (proj2 (get_files_by_policy local_config large_assets
                     (JDict large_item) fresh_process)
              eq_refl
              (images_are_files _ _ (empty_cache_of_images large_assets false)))
    as [_ H].
  destruct (H large_item large_refs eq_refl (conj eq_refl (or_introl eq_refl)))
    as [H' _].
  destruct H' as (p' & ws & He & Hw & _).
  { repeat constructor; discriminate. }
  exists p'. split; [exact He|]. split; [reflexivity|].
  rewrite Hw. apply in_or_app. right. apply in_or_app. right.
  left. reflexivity.
Defined.

End Attachments.

(** ** Further properties of the asset store and the selectors *)

Section Further.
Import Py Spec Settings DataManager BaseSelector.

(** X1: building the asset cache is idempotent: a second call changes
    nothing. *)
Theorem initialize_asset_cache_idempotent (fs : filesystem) (st : state) :
  initialize_asset_cache fs (initialize_asset_cache fs st)
  = initialize_asset_cache fs st.
Proof.
  assert (_cache_initialized (initialize_asset_cache fs st) = true) as H.
  { unfold initialize_asset_cache.
    destruct (_cache_initialized st) eqn:E; [exact E|].
    destruct (negb (assets_dir_exists fs)); [reflexivity|].
    destruct (iterdir fs); reflexivity. }
  revert H. generalize (initialize_asset_cache fs st). intros st' H.
  unfold initialize_asset_cache. rewrite H. reflexivity.
Qed.

Lemma int_base16_hash (s : string) : int_base16 (String "#" s) = None.
Proof.
  unfold int_base16. cbn [lstrip_by].
  change (is_c_space "#") with false. cbv iota.
  unfold split_sign. change (code "#" =? 43) with false.
  change (code "#" =? 45) with false. cbv iota beta.
  assert (skip_hex_prefix (String "#" s) = String "#" s) as ->.
  { destruct s as [|x r]; [reflexivity|]. unfold skip_hex_prefix.
    change (code "#" =? 48) with false. reflexivity. }
  change (is_underscore "#") with false. cbv iota.
  cbn [scan_digits]. change (is_underscore "#") with false.
  change (digit_value "#") with (@None Z). cbv iota.
  rewrite Nat.ltb_irrefl. reflexivity.
Qed.

(** X2: a colour written with a leading hash sign is never read as a
    number: whatever follows the sign, the embed gets the default colour,
    with the item's title. *)
Theorem hash_color_falls_back (item : list (string * json)) (key s : string) :
  lookup "color" item = Some (JStr (String "#" s)) ->
  embed_head (JDict item) key
  = Ok (from_option id (JStr (title key)) (lookup "title" item), default_color).
Proof.
  intros Hc. unfold embed_head, get, mbind, result_bind.
  cbn [bind]. rewrite Hc. cbn [from_option id int16].
  rewrite int_base16_hash. reflexivity.
Qed.

(** The dark red of the example item is lost *)
Lemma hash_color_falls_back_tiger :
  embed_head (JDict hash_color_item) "tiger" = Ok (JStr "Tiger I", 5793266%Z).
Proof.
  apply (hash_color_falls_back hash_color_item "tiger" "8B0000").
  reflexivity.
Defined.

End Further.

(** ** The asset cache as a snapshot of the directory *)

Section CacheContents.
Import Py Spec Settings.

(** An entry the loop has made stays *)
Lemma fold_cache_child_keeps (fs : filesystem) (children : list string)
    (c : gmap string Path) (name : string) :
  c !! name = Some (AssetsDir name) ->
  fold_left (cache_child fs) children c !! name = Some (AssetsDir name).
Proof.
  revert c. induction children as [|child children IH]; intros c H; [exact H|].
  simpl. apply IH. unfold cache_child.
  destruct (is_file fs (AssetsDir child) && is_image_name child); [|exact H].
  destruct (decide (child = name)) as [->|Hne].
  - apply lookup_insert_eq.
  - rewrite lookup_insert_ne by assumption. exact H.
Qed.

(** Every image file among the children is entered *)
Lemma fold_cache_child_enters (fs : filesystem) (children : list string)
    (c : gmap string Path) (name : string) :
  In name children ->
  is_file fs (AssetsDir name) = true -> is_image_name name = true ->
  fold_left (cache_child fs) children c !! name = Some (AssetsDir name).
Proof.
  intros Hin Hf Hi. revert c.
  induction children as [|child children IH]; intros c; [destruct Hin|].
  simpl. destruct Hin as [->|Hin].
  - apply fold_cache_child_keeps. unfold cache_child. rewrite Hf, Hi. simpl.
    apply lookup_insert_eq.
  - apply IH, Hin.
Qed.

(** X3: built from the empty cache, the asset cache is empty when the
    assets directory is missing or cannot be listed; otherwise it holds,
    under its own name, exactly each child of the directory that is a
    regular file with an image extension. *)
Theorem built_cache_is_the_image_listing (fs : filesystem) :
  (assets_dir_exists fs = false \/ iterdir fs = None ->
   initialize_asset_cache fs initial
   = {| _asset_cache := ∅; _cache_initialized := true |}) /\
  (forall children,
     assets_dir_exists fs = true -> iterdir fs = Some children ->
     _cache_initialized (initialize_asset_cache fs initial) = true /\
     forall name p,
       _asset_cache (initialize_asset_cache fs initial) !! name = Some p <->
       p = AssetsDir name /\ In name children /\
       is_file fs (AssetsDir name) = true /\ is_image_name name = true).
Proof.
  unfold initialize_asset_cache, initial. simpl. split.
  - intros [-> | H]; [reflexivity|].
    destruct (negb (assets_dir_exists fs)); [reflexivity|].
    rewrite H. reflexivity.
  - intros children -> ->. simpl. split; [reflexivity|].
    intros name p. split.
    + intros H. apply fold_cache_child_lookup in H as [H|(? & ? & ? & ?)].
      * rewrite lookup_empty in H. discriminate.
      * auto.
    + intros (-> & Hin & Hf & Hi). apply fold_cache_child_enters; assumption.
Qed.

(** An initialised cache is not built again *)
Lemma initialize_when_initialized (fs : filesystem) (st : state) :
  _cache_initialized st = true -> initialize_asset_cache fs st = st.
Proof. intros H. unfold initialize_asset_cache. rewrite H. reflexivity. Qed.

Lemma initialize_initializes (fs : filesystem) (st : state) :
  _cache_initialized (initialize_asset_cache fs st) = true.
Proof.
  unfold initialize_asset_cache.
  destruct (_cache_initialized st) eqn:E; [exact E|].
  destruct (negb (assets_dir_exists fs)); [reflexivity|].
  destruct (iterdir fs); reflexivity.
Qed.

(** X4: asking for the same asset again gives the same answer and leaves
    the cache as the first lookup left it. *)
Theorem get_asset_file_again (cfg : config) (fs : filesystem) (st : state)
    (name : string) :
  get_asset_file cfg fs (get_asset_file cfg fs st name).2 name
  = get_asset_file cfg fs st name.
Proof.
  unfold get_asset_file.
  destruct (USE_EXTERNAL_ASSETS cfg); [reflexivity|].
  pose proof (initialize_initializes fs st) as Hi.
  set (st1 := initialize_asset_cache fs st) in *.
  destruct (_asset_cache st1 !! name) as [p|] eqn:E; simpl.
  - rewrite (initialize_when_initialized fs st1 Hi), E. reflexivity.
  - unfold probe, is_file.
    destruct (stat fs name) as [[size readable| |]|] eqn:F; simpl.
    + rewrite initialize_when_initialized by exact Hi. simpl.
      rewrite lookup_insert_eq. simpl. rewrite F. reflexivity.
    + rewrite (initialize_when_initialized fs st1 Hi), E. simpl.
      rewrite ?F. reflexivity.
    + rewrite (initialize_when_initialized fs st1 Hi), E. simpl.
      rewrite ?F. reflexivity.
    + rewrite (initialize_when_initialized fs st1 Hi), E. simpl.
      rewrite ?F. reflexivity.
Qed.

(** X5: for a cache whose entries name existing files, a refresh changes
    no answer of the lookup: what is found for a name is the same before
    and after. *)
Theorem refresh_keeps_answers (cfg : config) (fs : filesystem) (st : state)
    (name : string) :
  cache_of_files fs st ->
  (get_asset_file cfg fs (refresh_asset_cache fs st) name).1
  = (get_asset_file cfg fs st name).1.
Proof.
  intros Hinv. destruct (USE_EXTERNAL_ASSETS cfg) eqn:E.
  - rewrite !get_asset_file_external by assumption. reflexivity.
  - destruct (get_asset_file_fetches cfg fs st name E Hinv) as [-> _].
    apply get_asset_file_fetches; [assumption|].
    apply images_are_files, initialize_keeps_images, empty_cache_of_images.
Qed.

(** In the example directory the image is found with the cache built by
    probing first, and with the cache rebuilt *)
Lemma refresh_keeps_answers_notes :
  (get_asset_file local_config assets_with_notes
     (refresh_asset_cache assets_with_notes
        (get_asset_file local_config assets_with_notes initial "notes.txt").2)
     "sherman.png").1
  = (get_asset_file local_config assets_with_notes
       (get_asset_file local_config assets_with_notes initial "notes.txt").2
       "sherman.png").1.
Proof.
  apply (refresh_keeps_answers local_config assets_with_notes).
  apply get_asset_file_fetches; [reflexivity|].
  apply images_are_files, empty_cache_of_images.
Defined.

End CacheContents.

(** ** The data cache *)

Section DataCache.
Import Py Spec DataManager.

(** X6: a category that was loaded is never read again, whatever the data
    directory holds later; a category whose file is missing or cannot be
    loaded is answered with the empty mapping and is not cached, so the
    next call reads the directory again; and loading one category leaves
    the cached data of every other category alone. *)
Theorem load_data_reads_once (d d' : disk) (cache : gmap string json)
    (category : string) :
  (is_Some (cache !! category)
   \/ (exists data, d (category +:+ ".json") = Parsed data) ->
   load_data d' (load_data d cache category).2 category
   = load_data d cache category) /\
  (cache !! category = None ->
   d (category +:+ ".json") = Missing \/ d (category +:+ ".json") = Unloadable ->
   load_data d cache category = (JDict [], cache)) /\
  (forall other,
     other <> category ->
     (load_data d cache category).2 !! other = cache !! other).
Proof.
  unfold load_data. split; [|split].
  - intros [[data H]|[data H]].
    + rewrite H. simpl. rewrite H. reflexivity.
    + destruct (cache !! category) as [data'|] eqn:E; simpl.
      * rewrite E. reflexivity.
      * rewrite H. simpl. rewrite lookup_insert_eq. reflexivity.
  - intros -> [-> | ->]; reflexivity.
  - intros other Hne. destruct (cache !! category); [reflexivity|].
    destruct (d (category +:+ ".json")); try reflexivity.
    simpl. apply lookup_insert_ne. auto.
Qed.

End DataCache.

(** ** The limits of a rendered embed *)

Section EmbedLimits.
Import Py Spec BaseSelector.

Lemma length_take (n : nat) (s : string) : String.length (take n s) <= n.
Proof.
  revert s. induction n as [|n IH]; intros [|c s]; simpl; try lia.
  specialize (IH s). lia.
Qed.

Lemma take_all (n : nat) (s : string) : String.length s <= n -> take n s = s.
Proof.
  revert s. induction n as [|n IH]; intros [|c s] H; simpl in *;
    try reflexivity; try lia.
  rewrite IH by lia. reflexivity.
Qed.

Lemma truncate_value_bounded (v : json) :
  String.length (str (truncate_value v)) <= 1024.
Proof.
  unfold truncate_value. destruct (1024 <? String.length (str v)) eqn:E.
  - cbn [str]. rewrite length_append. pose proof (length_take 1021 (str v)).
    change (String.length "...") with 3. lia.
  - apply Nat.ltb_ge in E. exact E.
Qed.

(** The attributes that become fields: those whose key starts with
    [field_], in the order of the record *)
Lemma add_fields_first (d entries : list (string * json))
    (added : list EmbedField) :
  length added <= 25 ->
  fold_left (add_field d) entries added
  = added ++
    firstn (25 - length added)
      (map (fun e => embed_field d e.1 e.2)
         (List.filter (fun e => startswith e.1 "field_") entries)).
Proof.
  revert added. induction entries as [|e entries IH]; intros added H; simpl.
  - rewrite firstn_nil, app_nil_r. reflexivity.
  - unfold add_field at 2. destruct (startswith e.1 "field_"); simpl.
    + destruct (length added <? 25) eqn:E.
      * apply Nat.ltb_lt in E. rewrite IH by (rewrite length_app; simpl; lia).
        rewrite length_app. simpl. rewrite <- app_assoc. simpl.
        replace (25 - length added) with (S (25 - (length added + 1))) by lia.
        reflexivity.
      * apply Nat.ltb_ge in E. rewrite IH by assumption.
        replace (25 - length added) with 0 by lia. reflexivity.
    + apply IH, H.
Qed.

(** X7: a rendered embed holds the first twenty-five attributes whose key
    starts with [field_], in the order of the record and no others, and
    the text of every field value is at most 1024 characters long. *)
Theorem create_embed_within_limits (cfg : Settings.config)
    (d : list (string * json)) (key : string) (include_thumbnails : bool)
    (embed : Embed) :
  create_embed cfg (JDict d) key include_thumbnails = Ok embed ->
  fields embed
  = firstn 25
      (map (fun e => embed_field d e.1 e.2)
         (List.filter (fun e => startswith e.1 "field_") d)) /\
  length (fields embed) <= 25 /\
  Forall (fun f => String.length (str (field_value f)) <= 1024) (fields embed).
Proof.
  unfold create_embed. destruct (embed_head (JDict d) key) as [head|]; [|discriminate].
  unfold mbind, result_bind. simpl.
  destruct (embed_thumbnail cfg (JDict d) include_thumbnails); [|discriminate].
  simpl. intros [= <-]. simpl.
  rewrite add_fields_first by (simpl; lia). simpl.
  split; [reflexivity|]. split; [rewrite length_firstn; lia|].
  apply Forall_forall. intros f Hin.
  apply elem_of_take in Hin as (i & Hi & _).
  apply list_elem_of_lookup_2 in Hi.
  apply (proj1 (list_elem_of_In _ _)) in Hi.
  apply in_map_iff in Hi as (e & <- & _).
  apply truncate_value_bounded.
Qed.

(** An item with a field and a switch for its layout renders two fields,
    since both keys start with [field_] *)
Lemma create_embed_within_limits_crew :
  exists embed,
    create_embed local_config (JDict crew_item) "tiger" true = Ok embed /\
    map field_name (fields embed) = ["Crew"; "Crew Inline"].
Proof.
  eexists. split; [reflexivity|].
  destruct (create_embed_within_limits local_config crew_item "tiger" true _
              eq_refl) as [-> _].
  reflexivity.
Defined.

End EmbedLimits.

(** ** The thumbnail of an embed and the files attached to it *)

Section ThumbnailAttachment.
Import Py Spec Settings BaseSelector.

(** The files of an item, before the size check *)
Lemma get_files_fetches (cfg : config) (fs : filesystem)
    (d : list (string * json)) (r : asset_refs) (p : process) :
  USE_EXTERNAL_ASSETS cfg = false ->
  cache_of_files fs (assets p) ->
  declares d r ->
  Forall (answers fs) (ref_names r) ->
  exists p',
    get_files cfg fs (JDict d) p = limit_files (fetched fs (ref_names r)) p'.
Proof.
  intros Hl Hinv Hd Ha. unfold get_files. rewrite Hl.
  unfold ref_names in Ha. apply Forall_app in Ha as [Ha1 Ha2].
  destruct (thumbnail_files_fetches cfg fs d r p Hl Hinv Hd Ha1)
    as (p1 & ws1 & He1 & _ & _ & Hinv1).
  rewrite (M_bind_Ok _ _ _ _ _ He1).
  destruct (additional_files_fetches cfg fs d r
              (fetched fs (option_list (strip_attachment <$> thumbnail_ref r)))
              p1 Hl Hinv1 Hd Ha2)
    as (p2 & ws2 & He2 & _).
  rewrite (M_bind_Ok _ _ _ _ _ He2).
  exists p2. unfold fetched, ref_names. rewrite omap_app. reflexivity.
Qed.

Lemma limit_files_head (files : list File) (p : process) :
  exists files' p',
    limit_files files p = (Ok files', p') /\ head files' = head files /\
    files' = (if (size_limit <? total_size files)%Z
              then firstn 3 files else files).
Proof.
  unfold limit_files. destruct (size_limit <? total_size files)%Z.
  - eexists _, _. split; [reflexivity|]. split; [|reflexivity].
    destruct files; reflexivity.
  - eexists _, _. split; [reflexivity|]. auto.
Qed.

(** X8: under the local policy, with a cache whose entries name existing
    files, take an item that declares its thumbnail as a string and its
    additional images as a list of strings or not at all, such that the
    operating system answers at every name referred to.  Whenever its
    embed is built, the embed refers to the attachment named by the
    thumbnail without its marker; [get_files] returns; when the file of
    that name is found it is the first file attached and carries exactly
    this name, and when it is not found the files attached are those of
    the additional images alone (the first three of them when they exceed
    the size limit), the reference staying in the embed. *)
Theorem thumbnail_names_the_attachment (cfg : config) (fs : filesystem)
    (p : process) (d : list (string * json)) (r : asset_refs)
    (key t : string) (embed : Embed) :
  USE_EXTERNAL_ASSETS cfg = false ->
  cache_of_files fs (assets p) ->
  declares d r ->
  Forall (answers fs) (ref_names r) ->
  thumbnail_ref r = Some t ->
  create_embed cfg (JDict d) key true = Ok embed ->
  thumbnail embed = Some ("attachment://" +:+ strip_attachment t) /\
  exists files p',
    get_files cfg fs (JDict d) p = (Ok files, p') /\
    (forall f,
       fetch_local fs (strip_attachment t) = Some f ->
       filename f = strip_attachment t /\ head files = Some f) /\
    (fetch_local fs (strip_attachment t) = None ->
     files = if (size_limit <? total_size (fetched fs (image_refs r)))%Z
             then firstn 3 (fetched fs (image_refs r))
             else fetched fs (image_refs r)).
Proof.
  intros Hl Hinv Hd Ha Ht He. split.
  - destruct Hd as [Hth _]. rewrite Ht in Hth. simpl in Hth.
    unfold create_embed in He.
    destruct (embed_head (JDict d) key) as [head|]; [|discriminate].
    unfold mbind, result_bind in He. simpl in He.
    unfold embed_thumbnail, contains, subscript, mbind, result_bind in He.
    rewrite Hth in He. simpl in He. rewrite Hl in He.
    injection He as <-. reflexivity.
  - destruct (get_files_fetches cfg fs d r p Hl Hinv Hd Ha) as (p1 & Hg).
    destruct (limit_files_head (fetched fs (ref_names r)) p1)
      as (files & p' & Hlim & Hhd & Hfiles).
    exists files, p'. rewrite Hg. split; [exact Hlim|].
    unfold ref_names in *. rewrite Ht in *. simpl in *.
    unfold fetched in *. simpl in *. split.
    + intros f Hf. rewrite Hf in *. split; [|exact Hhd].
      unfold fetch_local, open_file in Hf.
      destruct (stat fs (strip_attachment t)) as [[size [|]| |]|];
        try discriminate.
      injection Hf as <-. reflexivity.
    + intros Hf. rewrite Hf in Hfiles. exact Hfiles.
Qed.

(** The thumbnail of the example item is the first of its attachments *)
Lemma thumbnail_names_the_attachment_large :
  exists embed files p',
    create_embed local_config (JDict large_item) "sherman" true = Ok embed /\
    thumbnail embed = Some "attachment://sherman.png" /\
    get_files local_config large_assets (JDict large_item) fresh_process
    = (Ok files, p') /\
    filename <$> head files = Some "sherman.png".
Proof.
  destruct (thumbnail_names_the_attachment local_config large_assets
              fresh_process large_item large_refs "sherman"
              "attachment://sherman.png" _ eq_refl
              (images_are_files _ _ (empty_cache_of_images large_assets false))
              (conj eq_refl (or_introl eq_refl))
              ltac:(repeat constructor; discriminate) eq_refl eq_refl)
    as (Hth & files & p' & Hg & Hfound & _).
  eexists _, files, p'. split; [reflexivity|]. split; [exact Hth|].
  split; [exact Hg|].
  destruct (Hfound _ eq_refl) as [_ ->]. reflexivity.
Defined.

End ThumbnailAttachment.

(** ** From an offered option to its item *)

Section Offered.
Import Py Spec DataManager BaseSelector.

Lemma lookup_of_key (k : string) (d : list (string * json)) :
  In k (keys d) -> exists v, lookup k d = Some v.
Proof.
  intros H. destruct (lookup k d) as [v|] eqn:E; [eauto|].
  apply lookup_None in E. contradiction.
Qed.






End Offered.

(** ** The map selector *)

Section MapSelector.
Import Py Spec MapsCommand.

Lemma get_in_range (i : nat) (s : string) :
  i < String.length s -> exists c, String.get i s = Some c.
Proof.
  revert i. induction s as [|c s IH]; intros i H; simpl in H; [lia|].
  destruct i as [|i]; simpl; [eauto|]. apply IH. lia.
Qed.

Lemma find_break_text (s : string) (candidates : list nat) :
  (forall i, In i candidates -> i < String.length s /\ i <= 94) ->
  exists i, find_break (JStr s) candidates = Ok i /\ i <= 94.
Proof.
  induction candidates as [|i rest IH]; intros H; simpl.
  - exists 94. auto.
  - destruct (H i (or_introl eq_refl)) as [Hi Hle].
    destruct (get_in_range i s Hi) as [c Hc].
    unfold mbind, result_bind. rewrite Hc. simpl.
    destruct (is_break (JStr (String c ""))).
    + exists i. auto.
    + apply IH. intros j Hj. apply H. right. exact Hj.
Qed.

Lemma break_candidates_range (n i : nat) :
  94 < n -> In i (break_candidates n) -> i < n /\ i <= 94.
Proof.
  intros Hn Hi. unfold break_candidates in Hi.
  apply in_rev, in_seq in Hi. lia.
Qed.

Lemma length_rstrip_by (P : ascii -> bool) (s : string) :
  String.length (rstrip_by P s) <= String.length s.
Proof.
  destruct (rstrip_by_spec P s) as (t & Hs & _).
  rewrite Hs at 2. rewrite length_append. lia.
Qed.

(** The description made from a terrain text: never empty, never longer
    than a hundred characters, and the text itself when that has between
    one and ninety-four characters *)
Lemma short_description_text (s : string) :
  exists s',
    short_description (JStr s) = Ok (JStr s') /\
    0 < String.length s' <= 100 /\
    (0 < String.length s <= 94 -> s' = s).
Proof.
  unfold short_description, mbind, result_bind. cbn [len bind].
  destruct (94 <? String.length s) eqn:E.
  - apply Nat.ltb_lt in E.
    destruct (find_break_text s (break_candidates (String.length s)))
      as (i & -> & Hi).
    { intros j Hj. apply break_candidates_range; assumption. }
    cbn [bind slice_to rstrip_of mret result_ret]. unfold rstrip.
    pose proof (length_rstrip_by is_space (take i s)) as Hr.
    pose proof (length_take i s) as Ht.
    set (r := rstrip_by is_space (take i s)) in *.
    assert (String.length (r +:+ "...") <= 97) as Hl.
    { rewrite length_append. change (String.length "...") with 3. lia. }
    exists (r +:+ "..."). split.
    + rewrite take_all; [reflexivity|lia].
    + split; [|lia]. rewrite length_append.
      change (String.length "...") with 3. lia.
  - apply Nat.ltb_ge in E. destruct s as [|c s].
    + eexists. split; [reflexivity|]. simpl. lia.
    + exists (String c s). split.
      * cbn [truthy String.eqb negb bind slice_to mret result_ret].
        rewrite take_all by lia. reflexivity.
      * simpl in *. split; [lia|reflexivity].
Qed.

Lemma map_option_text (e : string * json) :
  terrain_is_text e.2 ->
  exists o s,
    map_option e = Ok o /\ value o = e.1 /\
    description o = JStr s /\ 0 < String.length s <= 100.
Proof.
  intros (d & Hd & Ht). unfold map_option. rewrite Hd.
  unfold get, mbind, result_bind. simpl bind.
  destruct Ht as [-> | [s ->]]; simpl from_option.
  - destruct (short_description_text "") as (s' & -> & Hlen & _).
    eexists _, s'. simpl. auto.
  - destruct (short_description_text s) as (s' & -> & Hlen & _).
    eexists _, s'. simpl. auto.
Qed.

(** X11: when every map record is a mapping whose terrain is a text or is
    not given, the map selector is built without an exception, with one
    option per map in the order of the data, carrying the map's key, and
    every description is a text of at least one and at most a hundred
    characters. *)
Theorem map_options_for_text_terrain (entries : list (string * json)) :
  Forall (fun e => terrain_is_text e.2) entries ->
  exists os,
    map_options entries = Ok os /\
    map value os = keys entries /\
    Forall (fun o => exists s,
              description o = JStr s /\ 0 < String.length s <= 100) os.
Proof.
  induction entries as [|e entries IH]; intros H.
  - exists []. simpl. auto.
  - apply Forall_cons in H as [He H].
    destruct (IH H) as (os & Hos & Hv & Hd).
    destruct (map_option_text e He) as (o & s & Ho & Hval & Hdesc & Hlen).
    exists (o :: os). simpl. rewrite Ho, Hos. simpl.
    split; [reflexivity|]. split.
    + rewrite Hval, Hv. reflexivity.
    + apply Forall_cons. split; [exists s; auto|exact Hd].
Qed.

(** The fifteen example maps give fifteen options *)
Lemma map_options_for_text_terrain_maps :
  exists os,
    map_options (map map_record map_names) = Ok os /\
    map value os = map_names.
Proof.
  destruct (map_options_for_text_terrain (map map_record map_names))
    as (os & H1 & H2 & _).
  - apply Forall_forall. intros e He.
    apply list_elem_of_In, in_map_iff in He as (k & <- & _).
    eexists. split; [reflexivity|]. right. eexists. reflexivity.
  - exists os. split; [exact H1|]. rewrite H2. reflexivity.
Defined.

(** A text is cut to at most 1024 characters *)
Lemma clip_value_text (s : string) :
  exists s',
    clip_value (JStr s) = Ok (JStr s') /\ String.length s' <= 1024.
Proof.
  unfold clip_value, mbind, result_bind. cbn [len bind].
  destruct (1024 <? String.length s) eqn:L.
  - cbn [slice_to bind concat].
    pose proof (length_take 1021 s) as Ht.
    set (t := take 1021 s) in *.
    eexists. split; [reflexivity|].
    rewrite length_append. change (String.length "...") with 3. lia.
  - apply Nat.ltb_ge in L. eexists. split; [reflexivity|exact L].
Qed.

Lemma clip_fields_names (fields : list (string * json))
    (clipped : list MapField) :
  clip_fields fields = Ok clipped ->
  map map_field_name clipped = map fst fields.
Proof.
  revert clipped. induction fields as [|f fields IH]; simpl; intros clipped.
  - intros [= <-]. reflexivity.
  - unfold mbind, result_bind.
    destruct (clip_value f.2) as [v|] eqn:E; [|discriminate]. cbn [bind].
    destruct (clip_fields fields) as [rest|]; [|discriminate]. cbn [bind].
    intros [= <-]. cbn [map map_field_name]. rewrite (IH rest eq_refl).
    reflexivity.
Qed.

Lemma clip_fields_text (fields : list (string * json)) :
  Forall (fun f : string * json => exists s, f.2 = JStr s) fields ->
  exists clipped,
    clip_fields fields = Ok clipped /\
    Forall (fun f => String.length (map_field_value f) <= 1024) clipped.
Proof.
  induction fields as [|f fields IH]; intros H.
  - exists []. split; [reflexivity|constructor].
  - apply Forall_cons in H as [(s & Hs) H].
    destruct (IH H) as (rest & Hrest & Hb).
    destruct (clip_value_text s) as (s' & Hc & Hlen).
    eexists. cbn [clip_fields]. rewrite Hs, Hc, Hrest.
    split; [reflexivity|].
    apply Forall_cons. split; [exact Hlen|exact Hb].
Qed.

Lemma bind_Ok {A B : Type} (r : result A) (k : A -> result B) (b : B) :
  r ≫= k = Ok b -> exists a, r = Ok a /\ k a = Ok b.
Proof.
  unfold mbind, result_bind. destruct r as [a|e]; simpl; [eauto|discriminate].
Qed.

(** The value of a field that is a text or is not given *)
Lemma text_or_default (d : list (string * json)) (k default : string) :
  fields_are_text d -> In k ["terrain"; "points"; "infantry"; "armor"] ->
  exists s, from_option id (JStr default) (lookup k d) = JStr s.
Proof.
  intros H Hk. destruct (lookup k d) as [v|] eqn:E; simpl; [|eauto].
  apply (H k v Hk E).
Qed.

(** X12: whenever an embed is built for a map variant it has exactly the
    four fields Terrain, Key Points, Infantry Strategy and Armor Strategy,
    in this order.  For a map record that is a mapping giving terrain, key
    points, infantry and armour as texts, where it gives them, the embed is
    built without an exception and the text of none of the four fields is
    longer than 1024 characters. *)
Theorem create_map_embed_fields (variant name : string) (info : json)
    (display_name : string) :
  (forall embed,
     create_map_embed variant name info display_name = Ok embed ->
     map map_field_name (map_fields embed)
     = ["🌍 Terrain"; "🎯 Key Points"; "👥 Infantry Strategy";
        "🚗 Armor Strategy"]) /\
  (forall d,
     info = JDict d -> fields_are_text d ->
     exists embed,
       create_map_embed variant name info display_name = Ok embed /\
       Forall (fun f => String.length (map_field_value f) <= 1024)
         (map_fields embed)).
Proof.
  split.
  - unfold create_map_embed. intros embed H.
    apply bind_Ok in H as (t & _ & H).
    apply bind_Ok in H as (terrain & _ & H).
    apply bind_Ok in H as (points & _ & H).
    apply bind_Ok in H as (infantry & _ & H).
    apply bind_Ok in H as (armor & _ & H).
    apply bind_Ok in H as (clipped & E & H).
    injection H as <-. cbn [map_fields].
    apply (clip_fields_names _ _ E).
  - intros d -> Hd. unfold create_map_embed, get.
    unfold mbind at 1 2 3 4 5, result_bind at 1 2 3 4 5. cbn [bind].
    destruct (text_or_default d "terrain" "No terrain info available" Hd)
      as (terrain & ->); [simpl; tauto|].
    destruct (text_or_default d "points" "No key points info available" Hd)
      as (points & ->); [simpl; tauto|].
    destruct (text_or_default d "infantry" "No infantry strategy available" Hd)
      as (infantry & ->); [simpl; tauto|].
    destruct (text_or_default d "armor" "No armor strategy available" Hd)
      as (armor & ->); [simpl; tauto|].
    destruct (clip_fields_text
                [("🌍 Terrain", JStr terrain); ("🎯 Key Points", JStr points);
                 ("👥 Infantry Strategy", JStr infantry);
                 ("🚗 Armor Strategy", JStr armor)])
      as (clipped & -> & Hb).
    { repeat (apply Forall_cons; split; [eexists; reflexivity|]).
      constructor. }
    eexists. split; [reflexivity|exact Hb].
Qed.

(** The embed of the example map, which has no key points, infantry or
    armour text, shows the four fields all the same *)
Lemma create_map_embed_fields_carentan :
  exists embed,
    create_map_embed "Grid" "Carentan" carentan_info "Baker" = Ok embed /\
    length (map_fields embed) = 4.
Proof.
  eexists. split; [reflexivity|].
  pose proof (proj1 (create_map_embed_fields "Grid" "Carentan" carentan_info
                       "Baker") _ eq_refl) as H.
  apply (f_equal (@length string)) in H. rewrite length_map in H. exact H.
Defined.

End MapSelector.

(** ** The variants of a map *)

Section MapVariants.
Import Py Spec Settings MapsCommand.

Lemma existing_variants_found (cfg : config) (fs : filesystem) (key : string)
    (vs : list (string * string)) (st : state) :
  USE_EXTERNAL_ASSETS cfg = false ->
  cache_of_files fs st ->
  Forall (fun v : string * string => answers fs (image_filename key v.2)) vs ->
  (existing_variants cfg fs key vs st).1
  = Ok (List.filter
          (fun v =>
             match fetch_local fs (image_filename key v.2) with
             | Some _ => true
             | None => false
             end) vs) /\
  cache_of_files fs (existing_variants cfg fs key vs st).2.
Proof.
  intros Hl. revert st.
  induction vs as [|v vs IH]; intros st Hinv Ha;
    [split; [reflexivity|exact Hinv]|].
  apply Forall_cons in Ha as [Ha Has].
  cbn [existing_variants List.filter].
  destruct (get_asset_file_fetches cfg fs st (image_filename key v.2) Hl Hinv)
    as [Hf Hinv1].
  rewrite (lookup_local_answers _ _ Ha) in Hf.
  destruct (Settings.get_asset_file cfg fs st (image_filename key v.2))
    as [file_obj st1].
  cbn [fst snd] in Hf, Hinv1. subst file_obj.
  destruct (IH st1 Hinv1 Has) as [Hrest Hinv2].
  destruct (existing_variants cfg fs key vs st1) as [available st2].
  cbn [fst snd] in *. subst available.
  split; [|exact Hinv2].
  destruct (fetch_local fs (image_filename key v.2)); reflexivity.
Qed.

(** A variant whose file name the operating system refuses ends the loop
    with [OSError] *)
Lemma existing_variants_refused (cfg : config) (fs : filesystem)
    (key : string) (vs : list (string * string)) (st : state) :
  USE_EXTERNAL_ASSETS cfg = false ->
  cache_of_files fs st ->
  Exists (fun v : string * string => ~ answers fs (image_filename key v.2)) vs ->
  (existing_variants cfg fs key vs st).1 = Raise OSError /\
  cache_of_files fs (existing_variants cfg fs key vs st).2.
Proof.
  intros Hl. revert st.
  induction vs as [|v vs IH]; intros st Hinv He;
    [apply Exists_nil in He; contradiction|].
  cbn [existing_variants].
  destruct (get_asset_file_fetches cfg fs st (image_filename key v.2) Hl Hinv)
    as [Hf Hinv1].
  destruct (answers_or_refused fs (image_filename key v.2)) as [Ha|Hr].
  - rewrite (lookup_local_answers _ _ Ha) in Hf.
    destruct (Settings.get_asset_file cfg fs st (image_filename key v.2))
      as [file_obj st1].
    cbn [fst snd] in Hf, Hinv1. subst file_obj.
    apply Exists_cons in He as [He|He]; [contradiction|].
    destruct (IH st1 Hinv1 He) as [Hrest Hinv2].
    destruct (existing_variants cfg fs key vs st1) as [available st2].
    cbn [fst snd] in *. subst available. split; [reflexivity|exact Hinv2].
  - unfold lookup_local in Hf. rewrite Hr in Hf.
    destruct (Settings.get_asset_file cfg fs st (image_filename key v.2))
      as [file_obj st1].
    cbn [fst snd] in Hf, Hinv1. subst file_obj.
    split; [reflexivity|exact Hinv1].
Qed.

Lemma filter_nil_false {A : Type} (f : A -> bool) (l : list A) (x : A) :
  List.filter f l = [] -> In x l -> f x = false.
Proof.
  induction l as [|y l IH]; simpl; [contradiction|].
  destruct (f y) eqn:E; [discriminate|].
  intros H [<- | Hx]; [exact E|apply IH; assumption].
Qed.

(** The view under the local policy, when the operating system answers at
    the four file names *)
Lemma PersonalVariantView_local (cfg : config) (fs : filesystem)
    (key : string) (info : json) (st : state) :
  USE_EXTERNAL_ASSETS cfg = false ->
  cache_of_files fs st ->
  variants_answer fs key ->
  exists st',
    PersonalVariantView cfg fs key info st
    = (Ok (buttons_shown fs key info), st') /\
    cache_of_files fs st'.
Proof.
  intros Hl Hinv Ha.
  destruct (existing_variants_found cfg fs key variants st Hl Hinv Ha)
    as [Hfound Hinv'].
  unfold PersonalVariantView, check_available_variants. rewrite Hl.
  destruct (existing_variants cfg fs key variants st) as [available st1].
  cbn [fst snd] in *. subst available. exists st1. split; [|exact Hinv'].
  reflexivity.
Qed.

Lemma lower_char_not_R (c : ascii) : lower_char c <> "R"%char.
Proof.
  destruct c as [[] [] [] [] [] [] [] []]; vm_compute; discriminate.
Qed.

(** No lower-cased text holds the capital letter the handler looks for *)
Lemma too_large_never_matches (text : string) :
  occurs "Request entity too large" (lower text) = false.
Proof.
  unfold lower. induction text as [|c text IH]; [reflexivity|].
  cbn [map_chars occurs String.prefix].
  destruct (ascii_dec "R" (lower_char c)) as [E|_].
  - exfalso. symmetry in E. exact (lower_char_not_R c E).
  - exact IH.
Qed.

(** A send that is not delivered ends in the error embed *)
Lemma send_map_refused (send : send_outcome) (fresh : MapEmbed)
    (name : string) (message : variant_reply) :
  send <> Delivered -> send_map send fresh name message = MapLoadError name.
Proof.
  intros H. destruct send as [|text|]; [contradiction| |reflexivity].
  unfold send_map. rewrite too_large_never_matches. reflexivity.
Qed.

Lemma variant_callback_local (cfg : config) (fs : filesystem)
    (send : send_outcome) (key : string) (info : json) (v : string * string)
    (user : string) (p : BaseSelector.process) (embed : MapEmbed) :
  USE_EXTERNAL_ASSETS cfg = false ->
  cache_of_files fs (BaseSelector.assets p) ->
  answers fs (image_filename key v.2) ->
  create_map_embed v.2 (actual_map_name key) info user = Ok embed ->
  exists p',
    variant_callback cfg fs send (new_button key info v) user p
    = (send_map send embed (actual_map_name key)
         match fetch_local fs (image_filename key v.2) with
         | Some f =>
             MapWithFile
               (set_image embed ("attachment://" +:+ image_filename key v.2)) f
         | None =>
             MapTextOnly (image_not_available embed (image_filename key v.2))
         end, p') /\
    cache_of_files fs (BaseSelector.assets p').
Proof.
  intros Hl Hinv Ha He. unfold variant_callback.
  cbn [new_button suffix map_key map_info]. rewrite He, Hl.
  destruct (debug_asset_loading_ok cfg fs (image_filename key v.2) p Hinv Ha)
    as (p1 & -> & _ & Hinv1).
  unfold BaseSelector.get_asset_file.
  destruct (get_asset_file_fetches cfg fs (BaseSelector.assets p1)
              (image_filename key v.2) Hl Hinv1) as [Hf Hinv2].
  rewrite (lookup_local_answers _ _ Ha) in Hf.
  destruct (Settings.get_asset_file cfg fs (BaseSelector.assets p1)
              (image_filename key v.2)) as [file_obj st].
  cbn [fst snd] in Hf, Hinv2. subst file_obj.
  destruct (fetch_local fs (image_filename key v.2));
    (eexists; split; [reflexivity|exact Hinv2]).
Qed.

(** X13: under the local policy, with a cache whose entries name existing
    files and an operating system that answers at the file names of the
    four variants, the variant buttons shown for a map are those whose
    image file is found, in the order Grid, No Grid, SP No HQ, Default
    Garries, or all four when none is found.  Pressing a button shown is
    answered with the error embed when the map record does not let the
    embed be built, and also when the embed is built and the platform does
    not take the message.  When the embed is built and the platform takes
    the message: if at least one variant is found, the message is the
    embed with that variant's file attached under the name the embed
    refers to, and if none is found, it is the embed alone with the note
    that the image is not available. *)
Theorem variant_buttons_load (cfg : config) (fs : filesystem) (key : string)
    (info : json) (st : state) :
  USE_EXTERNAL_ASSETS cfg = false ->
  cache_of_files fs st ->
  variants_answer fs key ->
  exists st',
    PersonalVariantView cfg fs key info st
    = (Ok (buttons_shown fs key info), st') /\
    cache_of_files fs st' /\
    forall b user p,
      In b (buttons_shown fs key info) ->
      cache_of_files fs (BaseSelector.assets p) ->
      let image := image_filename key (suffix b) in
      (forall e send,
         create_map_embed (suffix b) (actual_map_name key) info user = Raise e ->
         variant_callback cfg fs send b user p
         = (MapLoadError (actual_map_name key), p)) /\
      (forall embed,
         create_map_embed (suffix b) (actual_map_name key) info user = Ok embed ->
         (forall send,
            send <> Delivered ->
            exists p',
              variant_callback cfg fs send b user p
              = (MapLoadError (actual_map_name key), p')) /\
         (found_variants fs key <> [] ->
          exists f p',
            variant_callback cfg fs Delivered b user p
            = (MapWithFile (set_image embed ("attachment://" +:+ image)) f,
               p') /\
            fetch_local fs image = Some f /\ filename f = image) /\
         (found_variants fs key = [] ->
          exists p',
            variant_callback cfg fs Delivered b user p
            = (MapTextOnly (image_not_available embed image), p'))).
Proof.
  intros Hl Hinv Ha.
  destruct (PersonalVariantView_local cfg fs key info st Hl Hinv Ha)
    as (st' & Hview & Hinv').
  exists st'. split; [exact Hview|]. split; [exact Hinv'|].
  intros b user p Hb Hp image. unfold buttons_shown in Hb.
  apply in_map_iff in Hb as (v & <- & Hv).
  cbn [new_button suffix] in image |- *. subst image.
  assert (In v variants) as Hvar.
  { destruct (found_variants fs key) as [|v0 found] eqn:E; [exact Hv|].
    rewrite <- E in Hv. unfold found_variants in Hv.
    apply filter_In in Hv as [Hv _]. exact Hv. }
  assert (answers fs (image_filename key v.2)) as Hans.
  { unfold variants_answer in Ha. rewrite Forall_forall in Ha.
    apply (Ha v). apply list_elem_of_In. exact Hvar. }
  split.
  - intros e send He. unfold variant_callback.
    cbn [new_button suffix map_key map_info]. rewrite He. reflexivity.
  - intros embed He. split; [|split].
    + intros send Hs.
      destruct (variant_callback_local cfg fs send key info v user p embed
                  Hl Hp Hans He) as (p' & Hcb & _).
      exists p'. rewrite Hcb, send_map_refused by exact Hs. reflexivity.
    + intros Hne.
      destruct (variant_callback_local cfg fs Delivered key info v user p
                  embed Hl Hp Hans He) as (p' & Hcb & _).
      destruct (found_variants fs key) as [|v0 found] eqn:E;
        [contradiction|].
      rewrite <- E in Hv. unfold found_variants in Hv.
      apply filter_In in Hv as [_ Hv].
      destruct (fetch_local fs (image_filename key v.2)) as [f|] eqn:F;
        [|discriminate].
      exists f, p'. split; [exact Hcb|]. split; [reflexivity|].
      unfold fetch_local, open_file in F.
      destruct (stat fs (image_filename key v.2)) as [[size [|]| |]|];
        try discriminate.
      injection F as <-. reflexivity.
    + intros Hnil.
      destruct (variant_callback_local cfg fs Delivered key info v user p
                  embed Hl Hp Hans He) as (p' & Hcb & _).
      rewrite Hnil in Hv.
      pose proof (filter_nil_false _ _ v Hnil Hv) as F. cbn beta in F.
      destruct (fetch_local fs (image_filename key v.2)); [discriminate|].
      exists p'. exact Hcb.
Qed.

(** Two of the four variants of the example map are found: two buttons
    are shown *)
Lemma variant_buttons_load_carentan :
  exists st',
    PersonalVariantView local_config carentan_assets "carentan" carentan_info
      Settings.initial
    = (Ok (map (new_button "carentan" carentan_info)
             [("🗺️ Grid", "Grid"); ("🌍 No Grid", "NoGrid")]), st').
Proof.
  destruct (variant_buttons_load local_config carentan_assets "carentan"
              carentan_info Settings.initial eq_refl
              (images_are_files _ _ (empty_cache_of_images carentan_assets false))
              ltac:(repeat constructor; discriminate))
    as (st' & H & _).
  exists st'. exact H.
Defined.

End MapVariants.

(** ** From a listed map to its menu *)

Section MapMenu.
Import Py Spec DataManager MapsCommand.

Lemma terrain_overview_text (d : list (string * json)) :
  terrain_is_text (JDict d) ->
  exists overview,
    terrain_overview (JDict d) = Ok overview /\
    forall v, overview = Some v ->
      exists s, v = JStr s /\ 0 < String.length s <= 303.
Proof.
  intros (d' & [= <-] & Ht). unfold terrain_overview, get, subscript.
  unfold mbind, result_bind. cbn [bind].
  destruct Ht as [-> | [s ->]]; cbn [from_option id truthy].
  - exists None. split; [reflexivity|discriminate].
  - destruct s as [|c s].
    + exists None. split; [reflexivity|discriminate].
    + cbn [String.eqb negb bind slice_to len concat mret result_ret].
      pose proof (length_take 300 (String c s)) as Ht.
      assert (0 < String.length (take 300 (String c s))) as Hp
        by (simpl; lia).
      set (t := take 300 (String c s)) in *.
      eexists. split; [reflexivity|].
      intros v [= <-]. eexists. split; [reflexivity|].
      rewrite length_append.
      destruct (300 <? _).
      * change (String.length "...") with 3. lia.
      * change (String.length "") with 0. lia.
Qed.

(** A lookup returns wherever the operating system answers *)
Lemma get_asset_file_returns (cfg : Settings.config)
    (fs : Settings.filesystem) (st : Settings.state) (name : string) :
  answers fs name ->
  exists o, (Settings.get_asset_file cfg fs st name).1 = Ok o.
Proof.
  intros Ha. unfold Settings.get_asset_file.
  destruct (Settings.USE_EXTERNAL_ASSETS cfg); [eauto|].
  destruct (Settings._asset_cache (Settings.initialize_asset_cache fs st)
              !! name); [eauto|].
  unfold Settings.probe, Settings.is_file. unfold answers in Ha.
  destruct (Settings.stat fs name) as [[size r| |]|]; cbn [fst]; eauto.
  contradiction.
Qed.

Lemma existing_variants_returns (cfg : Settings.config)
    (fs : Settings.filesystem) (key : string) (vs : list (string * string))
    (st : Settings.state) :
  Forall (fun v : string * string => answers fs (image_filename key v.2)) vs ->
  exists available, (existing_variants cfg fs key vs st).1 = Ok available.
Proof.
  revert st. induction vs as [|v vs IH]; intros st Ha; [exists []; reflexivity|].
  apply Forall_cons in Ha as [Ha Has]. cbn [existing_variants].
  destruct (get_asset_file_returns cfg fs st (image_filename key v.2) Ha)
    as (o & Ho).
  destruct (Settings.get_asset_file cfg fs st (image_filename key v.2))
    as [file_obj st1].
  cbn [fst] in Ho. subst file_obj.
  destruct (IH st1 Has) as (available & Hrest).
  destruct (existing_variants cfg fs key vs st1) as [r st2].
  cbn [fst] in *. subst r. eexists. reflexivity.
Qed.

(** Under the external policy, and wherever the operating system answers
    at the four file names, the view is built and shows a button *)
Lemma PersonalVariantView_shows_a_button (cfg : Settings.config)
    (fs : Settings.filesystem) (key : string) (info : json)
    (st : Settings.state) :
  Settings.USE_EXTERNAL_ASSETS cfg = true \/ variants_answer fs key ->
  exists view st',
    PersonalVariantView cfg fs key info st = (Ok view, st') /\ view <> [].
Proof.
  intros H. unfold PersonalVariantView, check_available_variants.
  destruct (Settings.USE_EXTERNAL_ASSETS cfg) eqn:E.
  - eexists _, _. split; [reflexivity|discriminate].
  - destruct H as [H|H]; [discriminate|].
    destruct (existing_variants_returns cfg fs key variants st H)
      as (available & Ha).
    destruct (existing_variants cfg fs key variants st) as [r st1].
    cbn [fst] in Ha. subst r.
    eexists _, _. split; [reflexivity|].
    destruct available; discriminate.
Qed.

(** Under the local policy the view is not built when the operating system
    refuses one of the four file names *)
Lemma PersonalVariantView_refused (cfg : Settings.config)
    (fs : Settings.filesystem) (key : string) (info : json)
    (st : Settings.state) :
  Settings.USE_EXTERNAL_ASSETS cfg = false ->
  cache_of_files fs st ->
  Exists (fun v : string * string => ~ answers fs (image_filename key v.2))
    variants ->
  exists st', PersonalVariantView cfg fs key info st = (Raise OSError, st').
Proof.
  intros Hl Hinv He. unfold PersonalVariantView, check_available_variants.
  rewrite Hl.
  destruct (existing_variants_refused cfg fs key variants st Hl Hinv He)
    as [Hr _].
  destruct (existing_variants cfg fs key variants st) as [r st1].
  cbn [fst] in Hr. subst r. eexists. reflexivity.
Qed.

Lemma lookup_In (k : string) (d : list (string * json)) (v : json) :
  lookup k d = Some v -> In (k, v) d.
Proof.
  induction d as [|[k' v'] d IH]; simpl; [discriminate|].
  destruct (String.eqb k k') eqn:E.
  - apply String.eqb_eq in E as ->. intros [= ->]. left. reflexivity.
  - intros H. right. apply IH. exact H.
Qed.

(** X14: when every map record is a mapping whose terrain is a text or is
    not given, selecting a map that the data lists is answered as follows.
    For the key [none]: with the message that no map data is available.
    For a map whose record is empty: with the message that its data is not
    found.  For any other map: with the error message when the platform
    does not take the menu; with the menu of its variants when the
    platform takes it and either the policy is external or the operating
    system answers at the file names of the four variants; the menu then
    shows at least one button and its terrain overview, when there is one,
    is a text of at least one and at most 303 characters; and with the
    error message when, under the local policy with a cache whose entries
    name existing files, the operating system refuses one of the four file
    names. *)
Theorem listed_map_opens_its_menu (cfg : Settings.config)
    (fs : Settings.filesystem) (d : disk) (w : BaseSelector.world)
    (cache' : gmap string json) (entries : list (string * json))
    (selected : string) :
  load_data d (BaseSelector.data_cache w) "maps" = (JDict entries, cache') ->
  Forall (fun e => terrain_is_text e.2) entries ->
  In selected (keys entries) ->
  exists info,
    lookup selected entries = Some (JDict info) /\
    (selected = "none" ->
     forall send,
       map_callback cfg fs d send selected w
       = (Ok NoMapData,
          {| BaseSelector.data_cache := cache';
             BaseSelector.proc := BaseSelector.proc w |})) /\
    (selected <> "none" -> info = [] ->
     forall send,
       map_callback cfg fs d send selected w
       = (Ok (MapNotFound selected),
          {| BaseSelector.data_cache := cache';
             BaseSelector.proc := BaseSelector.proc w |})) /\
    (selected <> "none" -> info <> [] ->
     (forall send,
        send <> Delivered ->
        exists w',
          map_callback cfg fs d send selected w
          = (Ok (MenuError selected), w') /\
          BaseSelector.data_cache w' = cache') /\
     (Settings.USE_EXTERNAL_ASSETS cfg = true \/ variants_answer fs selected ->
      exists overview view w',
        map_callback cfg fs d Delivered selected w
        = (Ok (VariantMenu ("🗺️ " +:+ get_display_name selected)
                 overview view), w') /\
        BaseSelector.data_cache w' = cache' /\
        view <> [] /\
        forall v, overview = Some v ->
          exists s, v = JStr s /\ 0 < String.length s <= 303) /\
     (Settings.USE_EXTERNAL_ASSETS cfg = false ->
      cache_of_files fs (BaseSelector.assets (BaseSelector.proc w)) ->
      Exists (fun v : string * string =>
                ~ answers fs (image_filename selected v.2)) variants ->
      exists w',
        map_callback cfg fs d Delivered selected w
        = (Ok (MenuError selected), w') /\
        BaseSelector.data_cache w' = cache')).
Proof.
  intros Hload Htext Hin.
  destruct (lookup_of_key _ _ Hin) as (v & Hv).
  pose proof (lookup_In _ _ _ Hv) as Hmem.
  rewrite Forall_forall in Htext.
  pose proof (Htext _ (proj2 (list_elem_of_In _ _) Hmem)) as Hrec.
  cbn [snd] in Hrec. destruct Hrec as (info & -> & Ht).
  assert (terrain_is_text (JDict info)) as Hrec by (exists info; auto).
  assert (truthy (JDict entries) = true) as Htruthy
    by (destruct entries; [contradiction|reflexivity]).
  exists info. split; [exact Hv|].
  unfold map_callback. rewrite Hload, Htruthy. cbn [negb get].
  rewrite Hv. cbn [from_option id].
  destruct (String.eqb selected "none") eqn:En.
  - apply String.eqb_eq in En.
    split; [reflexivity|]. split; intros; contradiction.
  - apply String.eqb_neq in En. cbn [orb].
    split; [intros; contradiction|].
    destruct info as [|e info].
    + split; [reflexivity|]. intros _ H. contradiction.
    + cbn [truthy negb]. split; [discriminate|]. intros _ _.
      destruct (terrain_overview_text (e :: info) Hrec)
        as (overview & -> & Hov).
      split; [|split].
      * intros send Hs.
        destruct (PersonalVariantView cfg fs selected (JDict (e :: info))
                    (BaseSelector.assets (BaseSelector.proc w)))
          as [[view|ex] st];
          destruct send; try contradiction;
          (eexists; split; reflexivity).
      * intros Hok.
        destruct (PersonalVariantView_shows_a_button cfg fs selected
                    (JDict (e :: info))
                    (BaseSelector.assets (BaseSelector.proc w)) Hok)
          as (view & st & -> & Hview).
        eexists overview, view, _. split; [reflexivity|].
        split; [reflexivity|]. split; [exact Hview|exact Hov].
      * intros Hl Hinv He.
        destruct (PersonalVariantView_refused cfg fs selected
                    (JDict (e :: info))
                    (BaseSelector.assets (BaseSelector.proc w)) Hl Hinv He)
          as (st & ->).
        eexists. split; reflexivity.
Qed.

(** The map of Carentan, which the example data lists, opens its menu *)
Lemma listed_map_opens_its_menu_carentan :
  exists overview view w',
    map_callback local_config no_assets example_disk Delivered "carentan"
      {| BaseSelector.data_cache := ∅; BaseSelector.proc := fresh_process |}
    = (Ok (VariantMenu ("🗺️ " +:+ get_display_name "carentan")
             overview view), w') /\
    view <> [].
Proof.
  destruct (listed_map_opens_its_menu local_config no_assets example_disk
              {| BaseSelector.data_cache := ∅;
                 BaseSelector.proc := fresh_process |}
              {["maps" := maps]} (map map_record map_names) "carentan")
    as (info & Hl & _ & _ & H).
  - vm_compute. reflexivity.
  - apply Forall_forall. intros e He.
    apply list_elem_of_In, in_map_iff in He as (k & <- & _).
    eexists. split; [reflexivity|]. right. eexists. reflexivity.
  - left. reflexivity.
  - injection Hl as <-.
    destruct H as (_ & H & _); [discriminate|discriminate|].
    destruct H as (overview & view & w' & Hcb & _ & Hview & _).
    { right. repeat constructor; discriminate. }
    exists overview, view, w'. split; [exact Hcb|exact Hview].
Defined.

End MapMenu.

(** ** The validator of the data files *)

Section Validator.
Import Py Spec DataManager DataValidator.

Lemma passes_ret (r : report) :
  passes ((mret tt : V unit) r) <-> True /\ valid r = true.
Proof. unfold passes. simpl. tauto. Qed.

Lemma passes_add_warning (text : string) (r : report) :
  passes (add_warning text r) <-> True /\ valid r = true.
Proof. unfold passes. simpl. tauto. Qed.

Lemma passes_add_error (m : message) (r : report) :
  passes (add_error m r) <-> False /\ valid r = true.
Proof. unfold passes. simpl. split; [intros [_ [=]]|tauto]. Qed.

Lemma passes_raise (e : exn) (r : report) :
  passes (lift (Raise e) r) <-> False /\ valid r = true.
Proof. unfold passes. simpl. split; [intros [[=] _]|tauto]. Qed.

Lemma passes_bind (m k : V unit) (P Q : Prop) :
  (forall r, passes (m r) <-> P /\ valid r = true) ->
  (forall r, passes (k r) <-> Q /\ valid r = true) ->
  forall r, passes ((m ≫= fun _ => k) r) <-> (P /\ Q) /\ valid r = true.
Proof.
  intros Hm Hk r. specialize (Hm r). unfold mbind, V_bind.
  destruct (m r) as [[[]|e] r1].
  - rewrite (Hk r1). unfold passes in Hm. simpl in Hm. tauto.
  - unfold passes in *. simpl in *. split.
    + intros [[=] _].
    + intros [[HP _] Hv]. destruct (proj2 Hm (conj HP Hv)) as [[=] _].
Qed.

Lemma passes_lift_bind {A : Type} (x : result A) (k : A -> V unit)
    (r : report) :
  passes ((lift x ≫= k) r) <-> exists a, x = Ok a /\ passes (k a r).
Proof.
  unfold mbind, V_bind, lift. destruct x as [a|e].
  - split; [eauto|]. intros (a' & [= <-] & H). exact H.
  - unfold passes. simpl. split; [intros [[=] _]|intros (a & [=] & _)].
Qed.

Lemma passes_for_each {A : Type} (body : A -> V unit) (P : A -> Prop) :
  (forall x r, passes (body x r) <-> P x /\ valid r = true) ->
  forall l r, passes (for_each body l r) <-> Forall P l /\ valid r = true.
Proof.
  intros Hbody. induction l as [|x l IH]; intros r.
  - cbn [for_each]. rewrite passes_ret. split; [intros [_ H]; auto|tauto].
  - cbn [for_each].
    rewrite (passes_bind (body x) (for_each body l) (P x) (Forall P l)
               (Hbody x) IH r).
    rewrite Forall_cons. tauto.
Qed.

(** The report of a file is valid exactly when the file loads and its
    validation returns with the report valid *)
Lemma valid_iff_passes (fs : Settings.filesystem) (d : disk) (name : string) :
  valid (validate_json_file fs d name) = true <->
  exists data,
    d name = Parsed data /\
    passes (validate_data fs name data (new_report name)).
Proof.
  unfold validate_json_file. destruct (d name) as [| |data].
  - simpl. split; [discriminate|intros (data & [=] & _)].
  - simpl. split; [discriminate|intros (data & [=] & _)].
  - destruct (validate_data fs name data (new_report name)) as [[[]|e] r] eqn:E.
    + split.
      * intros H. exists data. split; [reflexivity|].
        rewrite E. unfold passes. auto.
      * intros (data' & [= <-] & H). rewrite E in H. exact (proj2 H).
    + simpl. split; [discriminate|].
      intros (data' & [= <-] & H). rewrite E in H.
      destruct H as [[=] _].
Qed.

(** *** The maps *)

Lemma check_map_field_passes (map_key : string)
    (map_data : list (string * json)) (field : string) (r : report) :
  passes (check_map_field map_key map_data field r) <->
  (exists s, lookup field map_data = Some (JStr s)) /\ valid r = true.
Proof.
  unfold check_map_field.
  destruct (lookup field map_data) as [v|].
  - destruct v as [|b|n|s|l|m];
      try (rewrite passes_raise; split;
           [tauto|intros [(s & [=]) _]]).
    destruct (negb (truthy (JStr (strip s)))).
    + rewrite passes_add_warning. split; [|tauto]. intros [_ H]. eauto.
    + rewrite passes_ret. split; [|tauto]. intros [_ H]. eauto.
  - rewrite passes_add_error. split; [tauto|intros [(s & [=]) _]].
Qed.

Lemma validate_map_passes (entry : string * json) (r : report) :
  passes (validate_map entry r) <-> well_formed_map entry /\ valid r = true.
Proof.
  unfold validate_map, well_formed_map.
  destruct entry.2 as [|b|n|s|l|map_data];
    try (rewrite passes_add_error; split; [tauto|intros [(d & [=] & _) _]]).
  rewrite (passes_bind _ _
             (Forall (fun field => exists s, lookup field map_data = Some (JStr s))
                map_required_fields) True).
  - split.
    + intros [[H _] Hv]. eauto.
    + intros [(d & [= <-] & H) Hv]. auto.
  - apply passes_for_each. apply check_map_field_passes.
  - intros r1. destruct (lookup "thumbnail" map_data).
    + apply passes_add_warning.
    + apply passes_ret.
Qed.

Lemma validate_data_maps_passes (fs : Settings.filesystem) (data : json)
    (r : report) :
  passes (validate_data fs "maps.json" data r) <->
  (exists maps, data = JDict maps /\ Forall well_formed_map maps)
  /\ valid r = true.
Proof.
  unfold validate_data. rewrite passes_lift_bind.
  change (String.eqb "maps.json" "tanks.json") with false.
  change (String.eqb "maps.json" "maps.json") with true. cbv iota.
  unfold _validate_maps_data. split.
  - intros (n & _ & H). unfold mbind at 1, V_bind at 1 in H.
    cbn [set_entries] in H. apply passes_lift_bind in H as (maps & Hm & H).
    destruct data; try discriminate. injection Hm as ->.
    apply (passes_for_each _ _ validate_map_passes) in H as [H Hv].
    split; [eauto|exact Hv].
  - intros [(maps & -> & H) Hv]. eexists. split; [reflexivity|].
    unfold mbind at 1, V_bind at 1. cbn [set_entries].
    apply passes_lift_bind. eexists. split; [reflexivity|].
    apply (passes_for_each _ _ validate_map_passes). auto.
Qed.

(** X15: the report of [maps.json] is valid exactly when the file loads as
    a mapping every entry of which is itself a mapping that binds each of
    title, terrain, points, infantry and armor to a text.  Empty texts and
    a thumbnail give warnings only. *)
Theorem maps_valid_iff (fs : Settings.filesystem) (d : disk) :
  valid (validate_json_file fs d "maps.json") = true <->
  exists maps,
    d "maps.json" = Parsed (JDict maps) /\ Forall well_formed_map maps.
Proof.
  rewrite valid_iff_passes. split.
  - intros (data & Hd & H). apply validate_data_maps_passes in H.
    destruct H as [(maps & -> & H) _]. eauto.
  - intros (maps & Hd & H). eexists. split; [exact Hd|].
    apply validate_data_maps_passes. split; [eauto|reflexivity].
Qed.

(** *** The tanks *)

Lemma check_asset_passes (fs : Settings.filesystem) (v : json)
    (context : string) (r : report) :
  passes (_check_asset_reference fs v context r) <->
  asset_ok fs v /\ valid r = true.
Proof.
  unfold _check_asset_reference, asset_ok, answers, marker.
  destruct (truthy v) eqn:T; cbn [negb].
  - destruct v as [|b|n|s|l|m];
      try (rewrite passes_raise; split;
           [tauto|intros [[[=]|(s & [=] & _)] _]]).
    destruct (Settings.stat fs (replace s "attachment://" ""))
      as [[size readable| |]|] eqn:F.
    + rewrite passes_ret. split; [|tauto]. intros [_ H].
      split; [|exact H]. right. exists s. split; [reflexivity|].
      rewrite F. discriminate.
    + rewrite passes_ret. split; [|tauto]. intros [_ H].
      split; [|exact H]. right. exists s. split; [reflexivity|].
      rewrite F. discriminate.
    + rewrite passes_raise. split; [tauto|].
      intros [[[=]|(s' & [= <-] & Hs)] _]. rewrite F in Hs.
      exfalso. apply Hs. reflexivity.
    + rewrite passes_add_warning. split; [|tauto]. intros [_ H].
      split; [|exact H]. right. exists s. split; [reflexivity|].
      rewrite F. discriminate.
  - rewrite passes_ret. tauto.
Qed.

Lemma validate_tank_passes (fs : Settings.filesystem) (faction : string)
    (tank : string * json) (r : report) :
  passes (validate_tank fs faction tank r) <->
  well_formed_tank fs tank /\ valid r = true.
Proof.
  unfold validate_tank, well_formed_tank.
  destruct tank.2 as [|b|n|s|l|d];
    try (rewrite passes_add_error; split; [tauto|intros [(d & [=] & _) _]]).
  set (thumbnail := from_option id JNull (lookup "thumbnail" d)).
  set (additional := from_option id (JList []) (lookup "additional_images" d)).
  rewrite (passes_bind _ _
             (Forall (fun field => is_Some (lookup field d)) required_fields)
             (Forall (fun _ : string => True) recommended_fields /\
              asset_ok fs thumbnail /\
              exists images,
                iterate additional = Ok images /\
                Forall (asset_ok fs) images)).
  - split.
    + intros [[Hreq (_ & Hth & Himg)] Hv]. split; [|exact Hv].
      exists d. split; [reflexivity|].
      unfold required_fields in Hreq.
      apply Forall_cons in Hreq as [H1 Hreq].
      apply Forall_cons in Hreq as [H2 _]. auto.
    + intros [(d' & [= <-] & H1 & H2 & Hth & Himg) Hv].
      split; [|exact Hv]. split.
      * repeat (apply Forall_cons; split; [assumption|]). apply Forall_nil.
        exact I.
      * split; [|auto]. apply Forall_forall. auto.
  - apply passes_for_each. intros field r1.
    destruct (lookup field d) as [v|].
    + rewrite passes_ret. split; [|tauto]. intros [_ H]. eauto.
    + rewrite passes_add_error. split; [tauto|].
      intros [[v [=]] _].
  - apply passes_bind.
    + apply passes_for_each. intros field r1.
      destruct (lookup field d); [apply passes_ret|apply passes_add_warning].
    + apply passes_bind.
      * intros r1. apply check_asset_passes.
      * intros r1. rewrite passes_lift_bind. split.
        -- intros (images & Hi & H).
           apply (passes_for_each _ (asset_ok fs)) in H as [H Hv];
             [eauto|intros; apply check_asset_passes].
        -- intros [(images & Hi & H) Hv]. exists images.
           split; [exact Hi|].
           apply (passes_for_each _ (asset_ok fs));
             [intros; apply check_asset_passes|auto].
Qed.

Lemma validate_faction_passes (fs : Settings.filesystem)
    (entry : string * json) (r : report) :
  passes (validate_faction fs entry r) <->
  well_formed_faction fs entry /\ valid r = true.
Proof.
  unfold validate_faction, well_formed_faction.
  destruct entry.2 as [|b|n|s|l|tanks];
    try (rewrite passes_add_error; split; [tauto|intros [(d & [=] & _) _]]).
  rewrite (passes_for_each _ _ (validate_tank_passes fs entry.1)).
  split.
  - intros [H Hv]. eauto.
  - intros [(tanks' & [= <-] & H) Hv]. auto.
Qed.

(** X16: the report of [tanks.json] is valid exactly when the file loads as
    a mapping of factions, every faction is a mapping of tanks, and every
    tank is a mapping that has a display name and a title, whose thumbnail
    is empty or a text, and whose additional images can be iterated and
    are empty or texts, where each such text, its marker deleted, names a
    path at which the operating system answers.  A missing asset gives a
    warning only; a reference at which the operating system refuses to
    look makes the report invalid. *)
Theorem tanks_valid_iff (fs : Settings.filesystem) (d : disk) :
  valid (validate_json_file fs d "tanks.json") = true <->
  exists factions,
    d "tanks.json" = Parsed (JDict factions) /\
    Forall (well_formed_faction fs) factions.
Proof.
  rewrite valid_iff_passes.
  assert (forall data r,
            passes (validate_data fs "tanks.json" data r) <->
            (exists factions,
               data = JDict factions /\
               Forall (well_formed_faction fs) factions)
            /\ valid r = true) as Hdata.
  { intros data r. unfold validate_data. rewrite passes_lift_bind.
    change (String.eqb "tanks.json" "tanks.json") with true. cbv iota.
    unfold _validate_tanks_data. split.
    - intros (n & _ & H). unfold mbind at 1, V_bind at 1 in H.
      cbn [set_entries] in H.
      apply passes_lift_bind in H as (factions & Hf & H).
      destruct data; try discriminate. injection Hf as ->.
      apply (passes_for_each _ _ (validate_faction_passes fs)) in H
        as [H Hv].
      split; [eauto|exact Hv].
    - intros [(factions & -> & H) Hv]. eexists. split; [reflexivity|].
      unfold mbind at 1, V_bind at 1. cbn [set_entries].
      apply passes_lift_bind. eexists. split; [reflexivity|].
      apply (passes_for_each _ _ (validate_faction_passes fs)). auto. }
  split.
  - intros (data & Hd & H). apply Hdata in H.
    destruct H as [(factions & -> & H) _]. eauto.
  - intros (factions & Hd & H). eexists. split; [exact Hd|].
    apply Hdata. split; [eauto|reflexivity].
Qed.

(** *** Any other file *)

Lemma generic_entries_run (entries : list (string * json)) (r : report) :
  for_each
    (fun entry : string * json =>
       if negb (truthy entry.2)
       then add_warning ("Entry '" +:+ entry.1 +:+ "' is empty or null")
       else mret tt)
    entries r
  = (Ok tt,
     {| file := file r; valid := valid r; errors := errors r;
        warnings :=
          warnings r ++
          map (fun entry : string * json =>
                 Text ("Entry '" +:+ entry.1 +:+ "' is empty or null"))
            (List.filter (fun entry : string * json => negb (truthy entry.2))
               entries);
        entries := DataValidator.entries r |}).
Proof.
  revert r. induction entries as [|e entries IH]; intros r.
  - cbn [for_each List.filter map]. rewrite app_nil_r. destruct r; reflexivity.
  - cbn [for_each List.filter]. unfold mbind, V_bind.
    destruct (negb (truthy e.2)).
    + cbn [add_warning]. rewrite IH. cbn [file valid errors warnings
                                            DataValidator.entries map].
      rewrite <- app_assoc. reflexivity.
    + unfold mret at 1, V_ret at 1. apply IH.
Qed.

(** X17: the report of a data file other than [tanks.json] and [maps.json]
    is valid exactly when the file loads as a mapping, whatever its
    entries; it then counts the entries, has no error, and has one warning
    for every entry whose value is empty or null, in the order of the
    file. *)
Theorem generic_valid_iff (fs : Settings.filesystem) (d : disk)
    (name : string) :
  name <> "tanks.json" -> name <> "maps.json" ->
  (valid (validate_json_file fs d name) = true <->
   exists entries, d name = Parsed (JDict entries)) /\
  forall entries,
    d name = Parsed (JDict entries) ->
    validate_json_file fs d name
    = {| file := name; valid := true; errors := [];
         warnings :=
           map (fun entry : string * json =>
                  Text ("Entry '" +:+ entry.1 +:+ "' is empty or null"))
             (List.filter (fun entry : string * json => negb (truthy entry.2))
                entries);
         entries := length entries |}.
Proof.
  intros Ht Hm.
  assert (forall entries,
            d name = Parsed (JDict entries) ->
            validate_json_file fs d name
            = {| file := name; valid := true; errors := [];
                 warnings :=
                   map (fun entry : string * json =>
                          Text ("Entry '" +:+ entry.1 +:+ "' is empty or null"))
                     (List.filter
                        (fun entry : string * json => negb (truthy entry.2))
                        entries);
                 entries := length entries |}) as Hrun.
  { intros entries Hd. unfold validate_json_file, validate_data. rewrite Hd.
    apply String.eqb_neq in Ht, Hm. rewrite Ht, Hm.
    unfold mbind, V_bind, lift. cbn [len set_entries _validate_generic_data].
    rewrite generic_entries_run. reflexivity. }
  split; [|exact Hrun]. split.
  - intros H. apply valid_iff_passes in H as (data & Hd & H).
    unfold validate_data in H. apply passes_lift_bind in H as (n & _ & H).
    apply String.eqb_neq in Ht, Hm. rewrite Ht, Hm in H.
    unfold mbind, V_bind in H. cbn [set_entries] in H.
    destruct data as [|b|z|s|l|entries];
      try (apply passes_add_error in H as [[] _]).
    eauto.
  - intros (entries & Hd). rewrite (Hrun _ Hd). reflexivity.
Qed.

(** The roles of the example, one of which is empty, are valid with one
    warning *)
Lemma generic_valid_iff_roles :
  valid (validate_json_file no_assets example_disk "roles.json") = true /\
  length (warnings (validate_json_file no_assets example_disk "roles.json"))
  = 1.
Proof.
  destruct (generic_valid_iff no_assets example_disk "roles.json")
    as [Hv Hrun]; [discriminate|discriminate|].
  split.
  - apply Hv. eexists. reflexivity.
  - rewrite (Hrun _ eq_refl). reflexivity.
Defined.

End Validator.

(** ** Validated maps in the map selector *)

Section ValidatedMaps.
Import Py Spec DataManager MapsCommand.

(** A validated record gives its four fields as texts *)
Lemma well_formed_map_texts (entry : string * json) :
  well_formed_map entry ->
  exists d, entry.2 = JDict d /\ d <> [] /\ fields_are_text d /\
            exists s, lookup "terrain" d = Some (JStr s).
Proof.
  intros (d & Hd & H). exists d. split; [exact Hd|].
  unfold DataValidator.map_required_fields in H.
  rewrite Forall_forall in H.
  assert (forall k, In k ["title"; "terrain"; "points"; "infantry"; "armor"] ->
                    exists s, lookup k d = Some (JStr s)) as Hk.
  { intros k Hin. apply H, list_elem_of_In, Hin. }
  split; [|split].
  - destruct (Hk "title") as (s & Hs); [simpl; tauto|].
    destruct d; [discriminate|discriminate].
  - intros k v Hin Hv.
    destruct (Hk k) as (s & Hs); [simpl in *; tauto|].
    rewrite Hs in Hv. injection Hv as <-. eauto.
  - apply Hk. simpl. tauto.
Qed.

Lemma create_map_embed_text (d : list (string * json))
    (variant name display_name : string) :
  fields_are_text d ->
  exists embed, create_map_embed variant name (JDict d) display_name = Ok embed.
Proof.
  intros Hd. unfold create_map_embed, get.
  unfold mbind at 1 2 3 4 5, result_bind at 1 2 3 4 5. cbn [bind].
  destruct (text_or_default d "terrain" "No terrain info available" Hd)
    as (terrain & ->); [simpl; tauto|].
  destruct (text_or_default d "points" "No key points info available" Hd)
    as (points & ->); [simpl; tauto|].
  destruct (text_or_default d "infantry" "No infantry strategy available" Hd)
    as (infantry & ->); [simpl; tauto|].
  destruct (text_or_default d "armor" "No armor strategy available" Hd)
    as (armor & ->); [simpl; tauto|].
  destruct (clip_fields_text
              [("🌍 Terrain", JStr terrain); ("🎯 Key Points", JStr points);
               ("👥 Infantry Strategy", JStr infantry);
               ("🚗 Armor Strategy", JStr armor)])
    as (clipped & -> & _).
  { repeat (apply Forall_cons; split; [eexists; reflexivity|]).
    constructor. }
  eexists. reflexivity.
Qed.

(** What a button answers once its embed is built: under the external
    policy, and under the local policy where the operating system answers
    at the file name, the error embed comes from the platform alone *)
Lemma variant_callback_answers (cfg : Settings.config)
    (fs : Settings.filesystem) (key : string) (info : json)
    (v : string * string) (user : string) (p : BaseSelector.process)
    (embed : MapEmbed) (name : string) :
  create_map_embed v.2 (actual_map_name key) info user = Ok embed ->
  Settings.USE_EXTERNAL_ASSETS cfg = true
  \/ (cache_of_files fs (BaseSelector.assets p) /\
      answers fs (image_filename key v.2)) ->
  (variant_callback cfg fs Delivered (new_button key info v) user p).1
  <> MapLoadError name /\
  forall send m,
    (variant_callback cfg fs send (new_button key info v) user p).1
    <> MapTooLarge m.
Proof.
  intros He Hp.
  assert (forall send fresh n (m : variant_reply) x,
            (forall y, m <> MapTooLarge y) ->
            send_map send fresh n m <> MapTooLarge x) as Hsend.
  { intros send fresh n m x Hm. destruct send as [|text|];
      [apply Hm| |discriminate].
    unfold send_map. rewrite too_large_never_matches. discriminate. }
  destruct (Settings.USE_EXTERNAL_ASSETS cfg) eqn:Hl.
  - unfold variant_callback. cbn [new_button suffix map_key map_info].
    rewrite He, Hl. cbn [fst]. split; [discriminate|].
    intros send m. apply Hsend. discriminate.
  - destruct Hp as [Hp|[Hp Ha]]; [discriminate|]. split.
    + destruct (variant_callback_local cfg fs Delivered key info v user p
                  embed Hl Hp Ha He) as (p' & -> & _).
      cbn [fst send_map].
      destruct (fetch_local fs (image_filename key v.2)); discriminate.
    + intros send m.
      destruct (variant_callback_local cfg fs send key info v user p
                  embed Hl Hp Ha He) as (p' & -> & _).
      cbn [fst]. apply Hsend.
      destruct (fetch_local fs (image_filename key v.2)); discriminate.
Qed.

(** X18: when the report of [maps.json] is valid, every map of the file
    has a record that is not empty and whose terrain is a text, and for
    each of the four variants the embed is built without an exception.
    Pressing the button of a variant is then not answered with the error
    embed, provided that the platform takes the message and that either
    the policy is external or, under the local policy with a cache whose
    entries name existing files, the operating system answers at the
    variant's file name; under the same conditions on policy and file
    name, and whatever the platform answers, the note that the image is
    too large is never sent. *)
Theorem validated_maps_are_served (fs : Settings.filesystem) (d : disk) :
  DataValidator.valid (DataValidator.validate_json_file fs d "maps.json")
  = true ->
  exists maps,
    d "maps.json" = Parsed (JDict maps) /\
    forall key info,
      In (key, info) maps ->
      truthy info = true /\ terrain_is_text info /\
      forall cfg v user p,
        In v variants ->
        (exists embed,
           create_map_embed v.2 (actual_map_name key) info user = Ok embed) /\
        (Settings.USE_EXTERNAL_ASSETS cfg = true
         \/ (cache_of_files fs (BaseSelector.assets p) /\
             answers fs (image_filename key v.2)) ->
         forall name,
           (variant_callback cfg fs Delivered (new_button key info v) user p).1
           <> MapLoadError name) /\
        (Settings.USE_EXTERNAL_ASSETS cfg = true
         \/ (cache_of_files fs (BaseSelector.assets p) /\
             answers fs (image_filename key v.2)) ->
         forall send m,
           (variant_callback cfg fs send (new_button key info v) user p).1
           <> MapTooLarge m).
Proof.
  intros H. apply valid_iff_passes in H as (data & Hd & H).
  apply validate_data_maps_passes in H as [(maps & -> & H) _].
  exists maps. split; [exact Hd|]. intros key info Hin.
  rewrite Forall_forall in H.
  pose proof (H _ (proj2 (list_elem_of_In _ _) Hin)) as Hwf.
  destruct (well_formed_map_texts _ Hwf) as (m & Hm & Hne & Htext & s & Hs).
  cbn [snd] in Hm. subst info.
  split; [destruct m; [contradiction|reflexivity]|].
  split; [exists m; split; [reflexivity|right; eauto]|].
  intros cfg v user p Hv.
  destruct (create_map_embed_text m v.2 (actual_map_name key) user Htext)
    as (embed & He).
  split; [eauto|]. split.
  - intros Hp name.
    apply (variant_callback_answers cfg fs key (JDict m) v user p embed name
             He Hp).
  - intros Hp send x.
    apply (variant_callback_answers cfg fs key (JDict m) v user p embed ""
             He Hp).
Qed.

(** The fifteen complete map records of the example pass, and the Grid
    variant of the first is served *)
Lemma validated_maps_are_served_full :
  exists embed,
    create_map_embed "Grid" "Carentan" (full_map_record "carentan").2 "Baker"
    = Ok embed.
Proof.
  destruct (validated_maps_are_served no_assets full_disk)
    as (maps & Hd & H); [vm_compute; reflexivity|].
  injection Hd as <-.
  destruct (H "carentan" (full_map_record "carentan").2
              (or_introl eq_refl)) as (_ & _ & Hserve).
  destruct (Hserve local_config ("🗺️ Grid", "Grid") "Baker" fresh_process)
    as [He _].
  - left. reflexivity.
  - exact He.
Defined.

End ValidatedMaps.
